(** * financial-agent: the resolution pipeline

    A shallow embedding of the resolution pipeline of the repository:

    - [src/resolution_handler/llm_classifier.py]     ([LLMClassifier]),
    - [src/resolution_handler/resolution_actions.py] ([ResolutionActions]),
    - [src/main.py], function [handle_resolution]    ([Main]).

    Python values are modelled as the interpreter has them: a [str] is the
    sequence of its Unicode code points, an [int] is a [Z], [None] is the
    [None] of an [option].  Effects (outbound requests, sleeps, log records,
    file writes, uploads, progress reports, uses of the two learned models)
    are recorded in order in a trace of [event]s that every operation
    returns next to its value.

    What lies outside the repository is a parameter: the completion service
    is an arbitrary function from the attempt to what the request does, the
    sentence encoder and the clustering are arbitrary functions, and the
    file system says for each path whether opening the scratch file raises
    and whether the purge of the scratch directory raises.  An exception
    that no clause catches is a result of its own, next to the returned
    value.  Paths are joined as on POSIX, and a progress fraction [i / n]
    is the exact rational. *)

From Stdlib Require Import String Ascii ZArith NArith QArith Bool Lia List Sorted.
From Stdlib Require Import DecimalString.
Import ListNotations.

(** ** Python strings *)

Module PyStr.

(** A Python [str]: its code points in order. *)
Definition pystr := list N.

(** A source literal made of ASCII characters. *)
Definition lit (s : string) : pystr :=
  map N_of_ascii (list_ascii_of_string s).

Definition in_range (lo hi c : N) : bool := ((lo <=? c) && (c <=? hi))%N.

(** [str.isspace] on one code point: the characters [str.strip()] removes
    when called without argument. *)
Definition isspace (c : N) : bool :=
  in_range 9 13 c || in_range 28 32 c || (c =? 133)%N || (c =? 160)%N
  || (c =? 5760)%N || in_range 8192 8202 c || (c =? 8232)%N || (c =? 8233)%N
  || (c =? 8239)%N || (c =? 8287)%N || (c =? 12288)%N.

Fixpoint lstrip (s : pystr) : pystr :=
  match s with
  | [] => []
  | c :: rest => if isspace c then lstrip rest else s
  end.

Definition rstrip (s : pystr) : pystr := rev (lstrip (rev s)).

Definition strip (s : pystr) : pystr := rstrip (lstrip s).

(** *** Case mappings

    The three case mappings below are the Unicode tables restricted to
    Basic Latin, Latin-1 and the few code points outside them whose image
    is a Basic Latin letter.  Every other code point is left unchanged: in
    the full tables none of them is sent to a Basic Latin letter or to
    U+017F, so they cannot change what the validation of the classifier
    accepts or returns. *)

(** Simple lower-case mapping, as [_sre.unicode_tolower]. *)
Definition unicode_tolower (c : N) : N :=
  if in_range 65 90 c then (c + 32)%N                  (* A-Z *)
  else if in_range 192 222 c && negb (c =? 215)%N then (c + 32)%N
  else if (c =? 304)%N then 105%N                      (* U+0130 -> i *)
  else if (c =? 8490)%N then 107%N                     (* U+212A KELVIN -> k *)
  else if (c =? 8491)%N then 229%N                     (* U+212B ANGSTROM *)
  else c.

(** Full lower-case mapping of one character, as [str.lower]. *)
Definition to_lower (c : N) : pystr :=
  if (c =? 304)%N then [105; 775]%N else [unicode_tolower c].

(** Full title-case mapping of one character, as [str.capitalize] applies
    to the first character. *)
Definition to_title (c : N) : pystr :=
  if in_range 97 122 c then [c - 32]%N                 (* a-z *)
  else if (c =? 181)%N then [924]%N                    (* MICRO SIGN *)
  else if (c =? 223)%N then [83; 115]%N                (* sharp s -> Ss *)
  else if in_range 224 254 c && negb (c =? 247)%N then [c - 32]%N
  else if (c =? 255)%N then [376]%N
  else if (c =? 305)%N then [73]%N                     (* dotless i -> I *)
  else if (c =? 383)%N then [83]%N                     (* long s -> S *)
  else [c].

(** [str.capitalize()]: first character title-cased, the rest lower-cased. *)
Definition capitalize (s : pystr) : pystr :=
  match s with
  | [] => []
  | c :: rest => to_title c ++ flat_map to_lower rest
  end.

(** Python's [in] on strings and its [str.startswith]/[str.endswith]. *)
Definition contains (sub s : pystr) : Prop :=
  exists pre post, s = pre ++ sub ++ post.

Fixpoint startswith (s pre : pystr) : bool :=
  match pre, s with
  | [], _ => true
  | p :: pre', c :: s' => (c =? p)%N && startswith s' pre'
  | _ :: _, [] => false
  end.

Definition endswith (s suf : pystr) : bool := startswith (rev s) (rev suf).

(** [==] between two strings, and between a value that is a [str] or [None]
    and a string. *)
Definition pystr_eqb (a b : pystr) : bool :=
  if list_eq_dec N.eq_dec a b then true else false.

Definition eq_str (x : option pystr) (s : pystr) : bool :=
  match x with
  | Some v => pystr_eqb v s
  | None => false
  end.

End PyStr.

(** ** The [re] module, as far as the classifier uses it *)

Module Re.
Import PyStr.

(** [_ignorecase_fixes] of the regular-expression compiler: lower-case
    characters that share their upper case with another lower-case
    character (Latin entries of the table). *)
Definition ignorecase_fixes (lo : N) : list N :=
  if (lo =? 105)%N then [305]%N          (* i, dotless i *)
  else if (lo =? 115)%N then [383]%N     (* s, long s    *)
  else if (lo =? 181)%N then [956]%N     (* micro, mu    *)
  else [].

(** A literal of the pattern compiled under [re.IGNORECASE] on a [str]
    pattern: [LITERAL_UNI_IGNORE lo], or [IN_UNI_IGNORE] over [lo] and its
    fixes; both compare the lower-cased subject character. *)
Definition literal_ignore (p c : N) : bool :=
  let lo := unicode_tolower p in
  let ch := unicode_tolower c in
  (ch =? lo)%N || existsb (N.eqb ch) (ignorecase_fixes lo).

(** A run of literals against the subject; the unread rest on success. *)
Fixpoint match_literals (pat s : pystr) : option pystr :=
  match pat with
  | [] => Some s
  | p :: pat' =>
      match s with
      | [] => None
      | c :: s' => if literal_ignore p c then match_literals pat' s' else None
      end
  end.

(** [$] without [re.MULTILINE]: the end of the subject, or just before a
    newline that ends it. *)
Definition at_end (rest : pystr) : bool :=
  match rest with
  | [] => true
  | [c] => (c =? 10)%N
  | _ => false
  end.

(** [re.match(r"^(Resolved|Unresolved)$", s, re.IGNORECASE)] is not [None].
    [re.match] starts at position 0, where [^] holds; the alternatives are
    tried in order, each followed by [$]. *)
Definition labels : list pystr := [lit "Resolved"; lit "Unresolved"].

Definition match_label (s : pystr) : bool :=
  existsb (fun alt => match match_literals alt s with
                      | Some rest => at_end rest
                      | None => false
                      end) labels.

End Re.


(** ** [os.path.join] (POSIX flavour) on two components *)

Module PosixPath.
Import PyStr.

Definition sep : pystr := lit "/".

(** [posixpath.join(a, b)]: an absolute [b] replaces what came before; a
    separator is inserted unless [a] is empty or already ends with one. *)
Definition join (a b : pystr) : pystr :=
  if startswith b sep then b
  else if match a with [] => true | _ :: _ => endswith a sep end then a ++ b
  else a ++ sep ++ b.

End PosixPath.

(** ** Observable effects *)

Module Effects.
Import PyStr.

(** [str(n)] of a Python [int]. *)
Definition str_int (z : Z) : pystr :=
  lit (DecimalString.NilZero.string_of_int (Z.to_int z)).

(** [str(x)] of a value that is a [str] or [None]. *)
Definition str_opt (x : option pystr) : pystr :=
  match x with
  | Some s => s
  | None => lit "None"
  end.

Inductive level := WARNING | ERROR.

(** The records the pipeline hands to [logging], one constructor per call
    site. *)
Inductive log_record :=
| InvalidLLMResponse (classification : pystr)
| RateLimitExceeded (retry_delay : Z)
| APIConnectionIssue (e : pystr) (retry_delay : Z)
| UnexpectedError (e : pystr)
| FailedToClassify (max_retries : Z)
| InvalidClassification (classification : option pystr) (order_id : pystr)
| NoResolvedComments
| NoResolvedCommentsAfterDrop
| ResolutionHandlingError (e : pystr).

Definition levelname (r : log_record) : level :=
  match r with
  | InvalidLLMResponse _ | RateLimitExceeded _ | APIConnectionIssue _ _
  | NoResolvedComments | NoResolvedCommentsAfterDrop => WARNING
  | UnexpectedError _ | FailedToClassify _ | InvalidClassification _ _
  | ResolutionHandlingError _ => ERROR
  end.

(** The formatted text of each record (the f-strings of the source). *)
Definition message (r : log_record) : pystr :=
  match r with
  | InvalidLLMResponse c =>
      lit "Invalid LLM response: " ++ c ++ lit ". Retrying..."
  | RateLimitExceeded d =>
      lit "Rate limit exceeded. Waiting " ++ str_int d
        ++ lit " seconds before retrying..."
  | APIConnectionIssue e d =>
      lit "API connection issue: " ++ e ++ lit ". Waiting " ++ str_int d
        ++ lit " seconds..."
  | UnexpectedError e => lit "An unexpected error occurred: " ++ e
  | FailedToClassify n =>
      lit "Failed to classify comment after " ++ str_int n ++ lit " attempts."
  | InvalidClassification c o =>
      lit "Invalid classification: " ++ str_opt c ++ lit " for order " ++ o
  | NoResolvedComments => lit "No resolved comments to analyze."
  | NoResolvedCommentsAfterDrop =>
      lit "No resolved comments to analyze after dropping missing values"
  | ResolutionHandlingError e => lit "Resolution handling error: " ++ e
  end.

(** The [desc] argument of a progress report. *)
Inductive progress_desc :=
| StartingResolution
| ProcessingResolution (nth total : Z)   (* "Processing Resolution: nth / total" *)
| StartingUpload
| FinishingUpload
| FinishingResolution.

Inductive event :=
| ApiCall (attempt : Z) (prompt : pystr)   (* client.chat.completions.create *)
| Sleep (seconds : Z)                      (* time.sleep *)
| Log (r : log_record)                     (* logging.warning / logging.error *)
| FileWrite (path content : pystr)         (* open(path, "w") ; f.write *)
| Upload (local_path remote_path : pystr)  (* cloud_storage.upload_file *)
| Progress (fraction : Q) (desc : progress_desc)
| Encode (n_sentences : nat)               (* SentenceTransformer.encode *)
| KMeansFit (n_clusters : Z) (n_samples : nat)  (* KMeans.fit_predict *)
| Purge (dir : pystr).                     (* purge(dir, pattern) *)

Definition trace := list event.

(** Projections of a trace used to state properties. *)
Definition is_api_call (e : event) : bool :=
  match e with ApiCall _ _ => true | _ => false end.

Definition is_sleep (e : event) : bool :=
  match e with Sleep _ => true | _ => false end.

Definition is_artifact (e : event) : bool :=
  match e with FileWrite _ _ | Upload _ _ => true | _ => false end.

Definition is_model_use (e : event) : bool :=
  match e with Encode _ | KMeansFit _ _ => true | _ => false end.

Definition call_count (t : trace) : nat := length (filter is_api_call t).


End Effects.

(** ** [resolution_handler/llm_classifier.py] *)

Module LLMClassifier.
Import PyStr Effects.

(** What one call of [client.chat.completions.create] does: it returns a
    response whose first choice has the given text, or it raises.  The
    [except] clauses are tried in source order, so [RateLimitError] stands
    for that class; [APIError] for every other instance of [openai.APIError],
    the base class of the library's request errors: a connection error or
    timeout, a server error, and also a client error such as
    [AuthenticationError] (401) or [BadRequestError] (400); and
    [OtherException] for every other [Exception] raised in the [try] body
    (a missing choice or a [None] content included). *)
Inductive api_result :=
| Completion (content : pystr)
| RateLimitError
| APIError (e : pystr)
| OtherException (e : pystr).

(** How one pass through the loop body ends: with a [return], with the
    next iteration, or with an exception raised inside an [except] clause,
    which no clause of the same [try] catches. *)
Inductive flow :=
| Return (r : option pystr)
| Continue
| Throw (e : pystr).

(** How a call of [classify_comment] ends: with the value it returns, or
    with the text of the exception that leaves it. *)
Inductive ending :=
| Returned (r : option pystr)
| Thrown (e : pystr).

(** [time.sleep(seconds)] raises [ValueError] for a negative length. *)
Definition time_sleep (seconds : Z) : flow :=
  if (seconds <? 0)%Z then Throw (lit "sleep length must be non-negative")
  else Continue.

Definition nl : pystr := [10%N].
Definition quote : pystr := [34%N].
Definition indent : pystr := lit "        ".

Definition prompt (order_id comment : pystr) : pystr :=
  nl ++ indent ++ lit "Classify the resolution status for Order ID " ++ order_id
     ++ lit " from this comment: " ++ quote ++ comment ++ quote ++ lit "." ++ nl
     ++ indent ++ lit "Options: [Resolved, Unresolved]." ++ nl
     ++ indent ++ lit "Respond ONLY with one word: Resolved or Unresolved." ++ nl
     ++ indent.

(** [range(n)] for a Python [int]. *)
Definition range (n : Z) : list Z := map Z.of_nat (seq 0 (Z.to_nat n)).

Section ClassifyComment.

(** The completion service seen from one call of [classify_comment]: the
    outcome of the request issued at each attempt. *)
Variable service : Z -> api_result.

Variables order_id comment : pystr.
Variables max_retries retry_delay : Z.

(** The body of [for attempt in range(max_retries)]. *)
Definition attempt_body (attempt : Z) : flow * trace :=
  let call := ApiCall attempt (prompt order_id comment) in
  match service attempt with
  | Completion content =>
      let classification := strip content in
      if Re.match_label classification
      then (Return (Some (capitalize classification)), [call])
      else (Continue, [call; Log (InvalidLLMResponse classification)])
  | RateLimitError =>
      (time_sleep retry_delay,
       [call; Log (RateLimitExceeded retry_delay); Sleep retry_delay])
  | APIError e =>
      (time_sleep retry_delay,
       [call; Log (APIConnectionIssue e retry_delay); Sleep retry_delay])
  | OtherException e =>
      if (attempt <? max_retries - 1)%Z
      then (time_sleep retry_delay,
            [call; Log (UnexpectedError e); Sleep retry_delay])
      else (Return None, [call; Log (UnexpectedError e)])
  end.

(** The loop over the attempts that are left, and what follows it. *)
Fixpoint for_attempts (attempts : list Z) : ending * trace :=
  match attempts with
  | [] => (Returned None, [Log (FailedToClassify max_retries)])
  | attempt :: rest =>
      match attempt_body attempt with
      | (Return r, t) => (Returned r, t)
      | (Throw e, t) => (Thrown e, t)
      | (Continue, t) => let (r, t') := for_attempts rest in (r, t ++ t')
      end
  end.

Definition classify_comment : ending * trace :=
  for_attempts (range max_retries).

End ClassifyComment.

(** The signature defaults: [max_retries=3, retry_delay=5]. *)
Definition default_max_retries : Z := 3.
Definition default_retry_delay : Z := 5.

End LLMClassifier.

(** ** Tables ([pandas.DataFrame]) *)

Module Frame.
Import PyStr.

Inductive cell :=
| CStr (s : pystr)
| CInt (z : Z)
| CMissing.                 (* None / NaN *)

(** A row keeps its columns in order, like the dictionaries the orchestrator
    builds; a table is the list of its rows, all over the same columns. *)
Definition row := list (pystr * cell).
Definition DataFrame := list row.

Fixpoint row_get (c : pystr) (r : row) : option cell :=
  match r with
  | [] => None
  | (k, v) :: r' => if pystr_eqb k c then Some v else row_get c r'
  end.

(** Assignment to a column: an existing column is overwritten in place, a
    new one is appended. *)
Fixpoint row_set (c : pystr) (v : cell) (r : row) : row :=
  match r with
  | [] => [(c, v)]
  | (k, x) :: r' => if pystr_eqb k c then (k, v) :: r' else (k, x) :: row_set c v r'
  end.

(** [df.empty]: one of the two axes has length 0. *)
Definition empty (df : DataFrame) : bool :=
  match df with
  | [] => true
  | r :: _ => match r with [] => true | _ :: _ => false end
  end.

Definition has_column (c : pystr) (df : DataFrame) : bool :=
  forallb (fun r => match row_get c r with Some _ => true | None => false end) df.

Definition present (c : pystr) (r : row) : bool :=
  match row_get c r with
  | Some CMissing | None => false
  | Some _ => true
  end.

Inductive exn :=
| KeyError (key : pystr)            (* df[key] *)
| KeyErrors (keys : list pystr)     (* dropna(subset=keys) *)
| ValueError (what : pystr)
| OSError (what : pystr).           (* open, os.listdir, os.remove *)

(** [repr] of a string without quote or backslash, and of a list of such
    strings. *)
Definition quoted (k : pystr) : pystr := [39%N] ++ k ++ [39%N].

Fixpoint comma_separated (items : list pystr) : pystr :=
  match items with
  | [] => []
  | [x] => x
  | x :: rest => x ++ lit ", " ++ comma_separated rest
  end.

(** [str(e)]: a [KeyError] shows the [repr] of its argument. *)
Definition str_exn (e : exn) : pystr :=
  match e with
  | KeyError k => quoted k
  | KeyErrors ks => lit "[" ++ comma_separated (map quoted ks) ++ lit "]"
  | ValueError w => w
  | OSError w => w
  end.

Inductive result (A : Type) :=
| Ok (a : A)
| Raise (e : exn).
Arguments Ok {A} a.
Arguments Raise {A} e.

(** [df.dropna(subset=[c])]. *)
Definition dropna (c : pystr) (df : DataFrame) : result DataFrame :=
  if has_column c df then Ok (filter (present c) df) else Raise (KeyErrors [c]).

(** [df[c].tolist()], on a table that has the column. *)
Definition tolist (c : pystr) (df : DataFrame) : list cell :=
  map (fun r => match row_get c r with Some v => v | None => CMissing end) df.

(** [df[c] = values] for a sequence of values: one per row. *)
Fixpoint zip_set (c : pystr) (values : list cell) (df : DataFrame) : DataFrame :=
  match values, df with
  | v :: values', r :: df' => row_set c v r :: zip_set c values' df'
  | _, _ => []
  end.

Definition setitem (c : pystr) (values : list cell) (df : DataFrame)
  : result DataFrame :=
  if Nat.eqb (List.length values) (List.length df)
  then Ok (zip_set c values df)
  else Raise (ValueError (lit "Length of values does not match length of index")).

End Frame.

(** ** [resolution_handler/resolution_actions.py] *)

Module ResolutionActions.
Import PyStr Effects Frame.

Definition nl : pystr := [10%N].

(** [generate_unresolved_summary]. *)
Definition generate_unresolved_summary (order_id comment : pystr) : pystr :=
  lit "Order ID: " ++ order_id ++ nl ++ lit "Comment: " ++ comment ++ nl
    ++ lit "Status: Unresolved" ++ nl
    ++ lit "Next Steps: Manual review required.".

(** The text written in the resolved branch. *)
Definition resolved_text (order_id comment : pystr) : pystr :=
  lit "Order ID: " ++ order_id ++ nl ++ lit "Comment: " ++ comment ++ nl
    ++ lit "Status: Resolved".

Section Dispatch.

(** The file system seen from the dispatcher: the text of the [OSError]
    that [open(path, "w")] and the write raise for a path, if they raise
    (the directory of the path does not exist, as for an order id with a
    separator inside; the path is a directory; no permission). *)
Variable open_error : pystr -> option pystr.

(** [handle_resolution]: the function returns [None] in every branch, so
    the model tells whether it returns or raises, and its effects.
    [upload_file] catches every exception, so only the [with open] block
    can raise; nothing has been written or reported when it does. *)
Definition handle_resolution
  (order_id : pystr) (classification : option pystr)
  (comment resolved_folder unresolved_folder local_temp_dir : pystr)
  : result unit * trace :=
  if eq_str classification (lit "Resolved")
  then
    let file_name := order_id ++ lit "_resolved.txt" in
    let local_file_path := PosixPath.join local_temp_dir file_name in
    let s3_file_path := PosixPath.join resolved_folder file_name in
    match open_error local_file_path with
    | Some e => (Raise (OSError e), [])
    | None =>
        (Ok tt,
         [ FileWrite local_file_path (resolved_text order_id comment);
           Progress (1 # 2) StartingUpload;
           Upload local_file_path s3_file_path;
           Progress 1 FinishingUpload ])
    end
  else if eq_str classification (lit "Unresolved")
  then
    let file_name := order_id ++ lit "_unresolved.txt" in
    let local_file_path := PosixPath.join local_temp_dir file_name in
    let s3_file_path := PosixPath.join unresolved_folder file_name in
    let summary := generate_unresolved_summary order_id comment in
    match open_error local_file_path with
    | Some e => (Raise (OSError e), [])
    | None =>
        (Ok tt,
         [ FileWrite local_file_path summary;
           Progress (1 # 2) StartingUpload;
           Upload local_file_path s3_file_path;
           Progress 1 FinishingUpload ])
    end
  else
    (Ok tt, [ Log (InvalidClassification classification order_id) ]).

End Dispatch.

Section IdentifyPatterns.

(** The two library models of the stage: the sentence encoder, one vector
    per sentence, and [KMeans(n_clusters, random_state=42, n_init=10)
    .fit_predict], which returns one label per vector or raises. *)
Variable vec : Type.
Variable encode : list cell -> list vec.
Variable fit_predict : Z -> list vec -> result (list Z).

Definition identify_patterns (resolved_comments_df : DataFrame) (n_clusters : Z)
  : result DataFrame * trace :=
  if empty resolved_comments_df
  then (Ok [], [Log NoResolvedComments])
  else
    match dropna (lit "comment") resolved_comments_df with
    | Raise e => (Raise e, [])
    | Ok df =>
        if empty df
        then (Ok [], [Log NoResolvedCommentsAfterDrop])
        else
          let comments := tolist (lit "comment") df in
          let embeddings := encode comments in
          let t := [ Encode (List.length comments);
                     KMeansFit n_clusters (List.length embeddings) ] in
          match fit_predict n_clusters embeddings with
          | Raise e => (Raise e, t)
          | Ok clusters => (setitem (lit "cluster") (map CInt clusters) df, t)
          end
    end.

End IdentifyPatterns.

End ResolutionActions.

(** ** [main.py]: [handle_resolution] *)

Module Main.
Import PyStr Effects Frame.

(** A row of the comments table, already checked by [ingest_comments] to
    carry the two columns.  The identifier is a text; the comment is a
    text, or missing when the cell of the file is empty (the readers then
    give NaN). *)
Record CommentRecord := {
  transaction_id : pystr;      (* row['Transaction ID'] *)
  comments : option pystr      (* row['Comments'] *)
}.

(** A comment inside an f-string, and as a cell of the result table. *)
Definition str_comment (comment : option pystr) : pystr :=
  match comment with
  | Some text => text
  | None => lit "nan"
  end.

Definition comment_cell (comment : option pystr) : cell :=
  match comment with
  | Some text => CStr text
  | None => CMissing
  end.

(** The settings of [config] the function reads. *)
Record Config := {
  gcs_resolved_folder : pystr;
  gcs_unresolved_folder : pystr;
  local_temp_dir : pystr;
  num_clusters : Z
}.

Definition default_config : Config := {|
  gcs_resolved_folder := lit "processed/resolved";
  gcs_unresolved_folder := lit "processed/unresolved";
  local_temp_dir := lit "temp";
  num_clusters := 3
|}.

(** The third component of the returned triple. *)
Inductive status_message :=
| NoCommentsData                (* "No comments data available." *)
| Complete                      (* "Resolution handling complete." *)
| Failed (e : exn).             (* str(e) *)

(** Python truth of a value that is a [str] or [None]. *)
Definition truthy (x : option pystr) : bool :=
  match x with
  | Some (_ :: _) => true
  | _ => false
  end.

Definition processed_row (order_id : pystr) (comment : option pystr)
  (classification : pystr) : row :=
  [ (lit "order_id", CStr order_id);
    (lit "comment", comment_cell comment);
    (lit "status", CStr classification) ].

(** [index / total_comments]. *)
Definition fraction (index : nat) (total_comments : Z) : Q :=
  Z.of_nat index # Z.to_pos total_comments.

Section HandleResolution.

Variable vec : Type.
Variable encode : list cell -> list vec.
Variable fit_predict : Z -> list vec -> result (list Z).

(** The file system during one run: what opening a scratch file raises,
    if it raises, and what the purge of the scratch directory raises, if it
    raises ([os.listdir] of a missing directory, [os.remove] of a file that
    cannot be removed). *)
Variable open_error : pystr -> option pystr.
Variable purge_error : option pystr.

(** The completion service during one run: the outcome of the request that
    the classifier issues for the record at a position, at an attempt. *)
Variable service : nat -> Z -> LLMClassifier.api_result.

Variable config : Config.

(** The body of [for index, row in comments_df.iterrows()]: the rows it
    appends to [processed_data], the exception that leaves it, if one does,
    and its effects.  The table comes from the file reader, so [index] is
    the position of the row.  The classifier and the dispatcher are called
    without a [try]: what they raise ends the loop, and the row of the
    record is not appended. *)
Definition loop_body (total_comments : Z) (index : nat) (row : CommentRecord)
  : (list Frame.row * option exn) * trace :=
  let report :=
    Progress (fraction index total_comments)
             (ProcessingResolution (Z.of_nat index + 1) total_comments) in
  let order_id := transaction_id row in
  let comment := comments row in
  match LLMClassifier.classify_comment (service index) order_id
          (str_comment comment)
          LLMClassifier.default_max_retries LLMClassifier.default_retry_delay with
  | (LLMClassifier.Thrown e, t) => (([], Some (ValueError e)), report :: t)
  | (LLMClassifier.Returned classification, t) =>
      if truthy classification
      then
        match ResolutionActions.handle_resolution open_error order_id
                classification (str_comment comment)
                (gcs_resolved_folder config) (gcs_unresolved_folder config)
                (local_temp_dir config) with
        | (Raise e, t') => (([], Some e), report :: t ++ t')
        | (Ok _, t') =>
            ( ([ processed_row order_id comment (str_opt classification) ], None),
              report :: t ++ t' )
        end
      else (([], None), report :: t)
  end.

Fixpoint iterrows (total_comments : Z) (index : nat) (rows : list CommentRecord)
  : (DataFrame * option exn) * trace :=
  match rows with
  | [] => (([], None), [])
  | row :: rest =>
      match loop_body total_comments index row with
      | ((appended, Some e), t) => ((appended, Some e), t)
      | ((appended, None), t) =>
          let '((processed_data, raised), t') :=
            iterrows total_comments (S index) rest in
          ((appended ++ processed_data, raised), t ++ t')
      end
  end.

(** The rows of [processed_data] when the loop ends, the exception that
    ended it, if one did, and the effects up to line 153. *)
Definition processed_data_df (comments_df : list CommentRecord)
  : (DataFrame * option exn) * trace :=
  iterrows (Z.of_nat (List.length comments_df)) 0 comments_df.

Definition is_resolved (r : row) : bool :=
  match row_get (lit "status") r with
  | Some (CStr s) => pystr_eqb s (lit "Resolved")
  | _ => false
  end.

(** The [except] clause: the error is logged and its text returned. *)
Definition failed (e : exn) (t : trace)
  : (option DataFrame * option DataFrame * status_message) * trace :=
  ((None, None, Failed e), t ++ [ Log (ResolutionHandlingError (str_exn e)) ]).

(** [handle_resolution(processed_df, comments_df, progress)].  The three
    clients are taken to be built.  Whatever the loop raises, the
    [KeyError] of selecting the column [status] of a table built from no
    dictionary, and whatever the pattern stage or the purge raises, reach
    the [except] clause. *)
Definition handle_resolution (comments_df : option (list CommentRecord))
  : (option DataFrame * option DataFrame * status_message) * trace :=
  match comments_df with
  | None | Some [] => ((None, None, NoCommentsData), [])
  | Some rows =>
      let start := Progress 0 StartingResolution in
      match processed_data_df rows with
      | ((_, Some e), t) => failed e (start :: t)
      | (([], None), t) => failed (KeyError (lit "status")) (start :: t)
      | ((processed, None), t) =>
          let resolved_comments_df := filter is_resolved processed in
          match ResolutionActions.identify_patterns vec encode fit_predict
                  resolved_comments_df (num_clusters config) with
          | (Raise e, t') => failed e (start :: t ++ t')
          | (Ok pattern_analysis_results, t') =>
              match purge_error with
              | Some e =>
                  failed (OSError e)
                    (start :: t ++ t' ++ [ Purge (local_temp_dir config) ])
              | None =>
                  ( (Some processed, Some pattern_analysis_results, Complete),
                    start :: t ++ t' ++
                      [ Purge (local_temp_dir config);
                        Progress 1 FinishingResolution ] )
              end
          end
      end
  end.

End HandleResolution.

End Main.

(** ** Notions used to state the properties *)

Module Notions.
Import PyStr Effects Frame LLMClassifier.

(** Basic Latin case folding: what "the same word in another casing" means
    for the two labels. *)
Definition ascii_lower (c : N) : N :=
  if in_range 65 90 c then (c + 32)%N else c.

Definition same_word_any_casing (s label : pystr) : Prop :=
  map ascii_lower s = map ascii_lower label.

(** A Basic Latin letter other than i and k. *)
Definition is_letter (p : N) : Prop :=
  ((65 <= p <= 90) \/ (97 <= p <= 122))%N
  /\ ascii_lower p <> 105%N /\ ascii_lower p <> 107%N.

(** The first [k] attempts, and the attempts from [k] on. *)
Definition attempts_before (k : nat) : list Z := map Z.of_nat (seq 0 k).

Definition attempts_from (k n : nat) : list Z := map Z.of_nat (seq k (n - k)).

(** The effects of attempts that all ended in [Continue]. *)
Definition retried (body : Z -> flow * trace) (attempts : list Z) : trace :=
  flat_map (fun a => snd (body a)) attempts.

(** A response that the validation rejects. *)
Definition invalid_response (r : api_result) : Prop :=
  exists content, r = Completion content /\ Re.match_label (strip content) = false.

(** The text of a response, empty when the call raised. *)
Definition response_text (r : api_result) : pystr :=
  match r with
  | Completion content => content
  | _ => []
  end.

(** The effects of an attempt whose response is rejected. *)
Definition rejected_attempt (service : Z -> api_result) (order_id comment : pystr)
  (attempt : Z) : trace :=
  [ ApiCall attempt (prompt order_id comment);
    Log (InvalidLLMResponse (strip (response_text (service attempt)))) ].

(** The response with a long s (U+017F) in place of the s. *)
Definition resolved_long_s : pystr := [82; 101; 383; 111; 108; 118; 101; 100]%N.

Definition unresolved_long_s : pystr :=
  [85; 110; 114; 101; 383; 111; 108; 118; 101; 100]%N.

(** What the stage relies on from the two library models: one vector per
    sentence, and for [1 <= n_clusters <= n_samples] one label per vector,
    each in [[0, n_clusters)]. *)
Definition encoder_contract (vec : Type) (encode : list cell -> list vec) : Prop :=
  forall sentences, List.length (encode sentences) = List.length sentences.

Definition kmeans_contract (vec : Type)
  (fit_predict : Z -> list vec -> result (list Z)) : Prop :=
  forall n_clusters X,
    (1 <= n_clusters <= Z.of_nat (List.length X))%Z ->
    exists labels,
      fit_predict n_clusters X = Ok labels
      /\ List.length labels = List.length X
      /\ Forall (fun l => 0 <= l < n_clusters)%Z labels.

(** The records of a table with their positions. *)
Definition enumerate {A : Type} (start : nat) (l : list A) : list (nat * A) :=
  combine (seq start (List.length l)) l.

(** The classification of the record at a position during a run. *)
Definition outcome (service : nat -> Z -> api_result) (index : nat)
  (r : Main.CommentRecord) : ending * trace :=
  classify_comment (service index) (Main.transaction_id r)
    (Main.str_comment (Main.comments r))
    default_max_retries default_retry_delay.

(** What a record contributes when its dispatch returns: a result row and
    a dispatcher call when its outcome is a string, nothing otherwise. *)
Definition rows_of (service : nat -> Z -> api_result) (index : nat)
  (r : Main.CommentRecord) : list row :=
  match fst (outcome service index r) with
  | Returned (Some status) =>
      [ Main.processed_row (Main.transaction_id r) (Main.comments r) status ]
  | _ => []
  end.

Definition dispatch_of (open_error : pystr -> option pystr)
  (service : nat -> Z -> api_result) (config : Main.Config)
  (index : nat) (r : Main.CommentRecord) : result unit * trace :=
  match fst (outcome service index r) with
  | Returned (Some status) =>
      ResolutionActions.handle_resolution open_error (Main.transaction_id r)
        (Some status) (Main.str_comment (Main.comments r))
        (Main.gcs_resolved_folder config)
        (Main.gcs_unresolved_folder config) (Main.local_temp_dir config)
  | _ => (Ok tt, [])
  end.

(** The dispatch of a record returns: the scratch file, if one is due,
    can be written. *)
Definition dispatch_returns (open_error : pystr -> option pystr)
  (service : nat -> Z -> api_result) (config : Main.Config)
  (ir : nat * Main.CommentRecord) : Prop :=
  fst (dispatch_of open_error service config (fst ir) (snd ir)) = Ok tt.

Definition effects_of (open_error : pystr -> option pystr)
  (service : nat -> Z -> api_result) (config : Main.Config)
  (total : Z) (index : nat) (r : Main.CommentRecord) : trace :=
  Progress (Main.fraction index total)
           (ProcessingResolution (Z.of_nat index + 1) total)
    :: snd (outcome service index r)
    ++ snd (dispatch_of open_error service config index r).



End Notions.

(** ** Sample inputs *)

Module Samples.
Import PyStr Effects Frame LLMClassifier Notions.

(** A service that answers every request the same way. *)
Definition always (r : api_result) : Z -> api_result := fun _ => r.

(** A service that answers the requests of one classification from a
    script, and fails once the script is over. *)
Definition script (answers : list api_result) : Z -> api_result :=
  fun attempt => nth (Z.to_nat attempt) answers (OtherException (lit "no answer")).

(** "  unreſolved" followed by a newline. *)
Definition padded_long_s : pystr :=
  lit "  unre" ++ [383%N] ++ lit "olved" ++ [10%N].


(** Stand-ins for the two library models: an encoder that gives every
    sentence the same vector, and a clustering that numbers the vectors
    round-robin and raises, like the library, unless
    [1 <= n_clusters <= n_samples]. *)
Definition toy_encode (sentences : list cell) : list unit :=
  map (fun _ => tt) sentences.

Definition toy_fit_predict (n_clusters : Z) (X : list unit) : result (list Z) :=
  if ((1 <=? n_clusters) && (n_clusters <=? Z.of_nat (List.length X)))%Z
  then Ok (map (fun i => Z.of_nat i mod n_clusters)%Z (seq 0 (List.length X)))
  else Raise (ValueError (lit "n_samples should be >= n_clusters")).

Definition frame_row (order_id : pystr) (comment : cell) (comment_length : cell)
  : row :=
  [ (lit "order_id", CStr order_id);
    (lit "comment", comment);
    (lit "comment_length", comment_length) ].

(** The table of the missing-values test. *)
Definition one_missing : DataFrame :=
  [ frame_row (lit "order1") (CStr (lit "short comment")) (CInt 10);
    frame_row (lit "order2") CMissing CMissing;
    frame_row (lit "order3") (CStr (lit "long comment")) (CInt 15) ].

Definition all_missing : DataFrame :=
  [ frame_row (lit "order1") CMissing CMissing;
    frame_row (lit "order2") CMissing CMissing ].

(** A table that already carries a column named [cluster]. *)
Definition already_clustered : DataFrame :=
  [ [ (lit "order_id", CStr (lit "order1"));
      (lit "comment", CStr (lit "Issue fixed."));
      (lit "cluster", CStr (lit "billing")) ] ].

Definition three_records : list Main.CommentRecord :=
  [ {| Main.transaction_id := lit "order1";
       Main.comments := Some (lit "Issue fixed.") |};
    {| Main.transaction_id := lit "order2";
       Main.comments := Some (lit "Refund sent.") |};
    {| Main.transaction_id := lit "order3";
       Main.comments := Some (lit "Closed.") |} ].

(** A file system in which every scratch file can be written. *)
Definition opens (path : pystr) : option pystr := None.

(** A scratch directory without subdirectories: a path with a second
    separator names a directory that does not exist. *)
Definition flat_directory (path : pystr) : option pystr :=
  if (2 <=? List.length (filter (N.eqb 47) path))%nat
  then Some (lit "[Errno 2] No such file or directory: " ++ quoted path)
  else None.

(** Records whose second identifier holds a separator. *)
Definition dated_records : list Main.CommentRecord :=
  [ {| Main.transaction_id := lit "order1";
       Main.comments := Some (lit "Issue fixed.") |};
    {| Main.transaction_id := lit "2024/001";
       Main.comments := Some (lit "Refund sent.") |};
    {| Main.transaction_id := lit "order3";
       Main.comments := Some (lit "Closed.") |} ].

(** Records of which the first has an empty comment cell. *)
Definition one_blank : list Main.CommentRecord :=
  [ {| Main.transaction_id := lit "order1"; Main.comments := None |};
    {| Main.transaction_id := lit "order2";
       Main.comments := Some (lit "Refund sent.") |};
    {| Main.transaction_id := lit "order3";
       Main.comments := Some (lit "Closed.") |} ].


(** A run in which every comment is classified as resolved at once. *)
Definition all_resolved : nat -> Z -> api_result :=
  fun _ => always (Completion (lit "Resolved")).

(** A run in which the second record is never classified. *)
Definition second_fails : nat -> Z -> api_result :=
  fun index =>
    match index with
    | 1%nat => always (Completion (lit "Not sure"))
    | _ => always (Completion (lit "unresolved"))
    end.

End Samples.

Import PyStr Effects Frame LLMClassifier Notions Samples.

(** ** Further notions *)

(** The waits of a trace, in order. *)
Definition sleeps (t : trace) : list Z :=
  flat_map (fun e => match e with Sleep d => [d] | _ => [] end) t.


(** Two rate limits, then the answer: the script of the retry test. *)
Definition twice_limited : Z -> api_result :=
  script [ RateLimitError; RateLimitError; Completion (lit "resolved ") ].



(** What the stage relies on from the clustering when it is asked for more
    clusters than there are vectors: it raises. *)
Definition kmeans_rejects (vec : Type)
  (fit_predict : Z -> list vec -> result (list Z)) : Prop :=
  forall n_clusters X,
    (Z.of_nat (List.length X) < n_clusters)%Z ->
    exists e, fit_predict n_clusters X = Raise e.

Definition is_write (e : event) : bool :=
  match e with FileWrite _ _ => true | _ => false end.

Definition is_upload (e : event) : bool :=
  match e with Upload _ _ => true | _ => false end.

Definition is_purge (e : event) : bool :=
  match e with Purge _ => true | _ => false end.

(** The report that ends a completed run. *)
Definition is_final_report (e : event) : bool :=
  match e with Progress _ FinishingResolution => true | _ => false end.

(** A row whose status is one of the two labels. *)
Definition has_label_status (r : row) : bool :=
  match row_get (lit "status") r with
  | Some (CStr s) => pystr_eqb s (lit "Resolved") || pystr_eqb s (lit "Unresolved")
  | _ => false
  end.

(** A run in which one record is resolved and the others are not. *)
Definition one_resolved : nat -> Z -> api_result :=
  fun index =>
    match index with
    | 0%nat => always (Completion (lit "Resolved"))
    | _ => always (Completion (lit "Unresolved"))
    end.

Definition never_sure : nat -> Z -> api_result :=
  fun _ => always (Completion (lit "Not sure")).

(** A row as the orchestrator builds them. *)
Definition is_processed_row (r : row) : Prop :=
  exists order_id comment status, r = Main.processed_row order_id comment status.

(** What the loop appends for a record and what ends the loop at it: the
    row of [rows_of] unless the dispatch raises. *)
Definition appended_of (open_error : pystr -> option pystr)
  (service : nat -> Z -> api_result) (config : Main.Config)
  (index : nat) (r : Main.CommentRecord) : list row :=
  match fst (dispatch_of open_error service config index r) with
  | Ok _ => rows_of service index r
  | Raise _ => []
  end.

Definition raised_of (open_error : pystr -> option pystr)
  (service : nat -> Z -> api_result) (config : Main.Config)
  (index : nat) (r : Main.CommentRecord) : option exn :=
  match fst (dispatch_of open_error service config index r) with
  | Ok _ => None
  | Raise e => Some e
  end.


(** The paths written and the local paths uploaded, in order. *)
Definition written_paths (t : trace) : list pystr :=
  flat_map (fun e => match e with FileWrite p _ => [p] | _ => [] end) t.

Definition uploaded_paths (t : trace) : list pystr :=
  flat_map (fun e => match e with Upload p _ => [p] | _ => [] end) t.

(** The Resolved rows whose comment is present: what the pattern stage
    keeps of the result table. *)
Definition clustered (processed : DataFrame) : DataFrame :=
  filter (present (lit "comment")) (filter Main.is_resolved processed).

(** ** [main.py]: [purge] *)

Module Purge.

(** The regular expressions [purge] is called with: literals, [.*], groups
    and alternatives; the [$] that ends the pattern is applied by
    [search]. *)
Inductive re :=
| Eps
| Lit (c : N)
| AnyStar                   (* .* without re.DOTALL *)
| Seq (a b : re)
| Alt (a b : re).

(** [.*] at the start of [s]: the rests it can leave, the longest run of
    characters other than a newline first. *)
Fixpoint any_star (s : pystr) : list pystr :=
  match s with
  | [] => [[]]
  | c :: t => if (c =? 10)%N then [s] else any_star t ++ [s]
  end.

(** The rests that a match of [r] at the start of [s] can leave, in the
    order in which the backtracking matcher tries them. *)
Fixpoint run (r : re) (s : pystr) : list pystr :=
  match r with
  | Eps => [s]
  | Lit c =>
      match s with
      | x :: t => if (x =? c)%N then [t] else []
      | [] => []
      end
  | AnyStar => any_star s
  | Seq a b => flat_map (run b) (run a s)
  | Alt a b => run a s ++ run b s
  end.

(** The start positions [re.search] tries, as the text left at each. *)
Fixpoint suffixes (s : pystr) : list pystr :=
  s :: match s with
       | [] => []
       | _ :: t => suffixes t
       end.

(** [re.search(r + "$", s)] finds a match. *)
Definition search (r : re) (s : pystr) : bool :=
  existsb (fun from => existsb Re.at_end (run r from)) (suffixes s).

Definition lits (w : pystr) : re := fold_right (fun c r => Seq (Lit c) r) Eps w.

(** [r".*_(resolved|unresolved)\.txt$"], the pattern of the one call. *)
Definition artifact_pattern : re :=
  Seq AnyStar
    (Seq (Lit 95)
       (Seq (Alt (lits (lit "resolved")) (lits (lit "unresolved")))
          (lits (lit ".txt")))).

Inductive fs_event :=
| Print (line : pystr)
| Remove (path : pystr).

Section WithDirectory.

(** The directory as the call finds it: what [os.listdir] returns, and
    whether [os.remove] of a path succeeds. *)
Variable listdir : list pystr.
Variable removable : pystr -> bool.

(** The loop over the entries that are left; [false] when [os.remove]
    raised, which ends the call. *)
Fixpoint purge_entries (dir : pystr) (pattern : re) (entries : list pystr)
  : bool * list fs_event :=
  match entries with
  | [] => (true, [])
  | f :: rest =>
      if search pattern f
      then
        let file_path := PosixPath.join dir f in
        let t := [Print (lit "Deleting: " ++ file_path); Remove file_path] in
        if removable file_path
        then let (ok, t') := purge_entries dir pattern rest in (ok, t ++ t')
        else (false, t)
      else purge_entries dir pattern rest
  end.

Definition purge (dir : pystr) (pattern : re) : bool * list fs_event :=
  purge_entries dir pattern listdir.

End WithDirectory.

Definition removed (t : list fs_event) : list pystr :=
  flat_map (fun e => match e with Remove p => [p] | Print _ => [] end) t.

End Purge.

(** A file name that ends like an artifact, a newline allowed after it. *)
Definition artifact_name (f : pystr) : Prop :=
  exists stem ending tail,
    f = stem ++ ending ++ tail
    /\ (ending = lit "_resolved.txt" \/ ending = lit "_unresolved.txt")
    /\ (tail = [] \/ tail = [10%N]).

Definition no_newline (s : pystr) : Prop := ~ In 10%N s.

(** A scratch directory after a run and a report. *)
Definition scratch_listing : list pystr :=
  [ lit "order1_resolved.txt"; lit "summary_report.csv";
    lit "order2_unresolved.txt"; lit "visualization.png";
    lit "pattern_report.txt"; lit "x_Resolved.txt" ].

(** The name the dispatcher gives the scratch file of an outcome. *)
Definition scratch_name (order_id status : pystr) : pystr :=
  order_id ++ (if pystr_eqb status (lit "Resolved")
               then lit "_resolved.txt" else lit "_unresolved.txt").

(** A directory in which the second artifact cannot be removed. *)
Definition locked (p : pystr) : bool :=
  negb (pystr_eqb p (lit "temp/order2_unresolved.txt")).

Definition three_artifacts : list pystr :=
  [ lit "order1_resolved.txt"; lit "order2_unresolved.txt";
    lit "order3_resolved.txt" ].

(** The part of a joined path that comes from the folder alone. *)
Definition join_prefix (a : pystr) : pystr :=
  match a with
  | [] => []
  | _ :: _ => if endswith a PosixPath.sep then a else a ++ PosixPath.sep
  end.

(** ** Tables with a header

    The ingestion and preprocessing steps depend on the columns of a table
    even when it has no row, and on the dtype of its columns.  A table is
    its header and its rows, each row holding one value per column.  The
    dtypes are those the file readers produce, and [Datetime] for what
    [pd.to_datetime] returns.  Text is held in [Object] columns, as pandas
    does as long as its dedicated string dtype is not the default. *)

Module Table.

Inductive value :=
| VStr (s : pystr)
| VNum (q : Q)
| VDate (d : Z)
| VNa.                      (* None / NaN / NaT *)

Inductive dtype := Numeric | Object | Datetime.

Record t := {
  columns : list (pystr * dtype);
  rows : list (list value)
}.

Definition names (df : t) : list pystr := map fst (columns df).

(** [pd.DataFrame()]. *)
Definition nothing : t := {| columns := []; rows := [] |}.

(** [df.empty]. *)
Definition empty (df : t) : bool :=
  match columns df, rows df with
  | [], _ => true
  | _, [] => true
  | _, _ => false
  end.

(** [name in df.columns]. *)
Definition has (name : pystr) (df : t) : bool :=
  existsb (pystr_eqb name) (names df).

Fixpoint index_of (name : pystr) (l : list pystr) : option nat :=
  match l with
  | [] => None
  | x :: l' => if pystr_eqb x name then Some 0%nat
               else option_map S (index_of name l')
  end.

Definition isna (v : value) : bool :=
  match v with VNa => true | _ => false end.

Definition cell (r : list value) (i : nat) : value := nth i r VNa.

(** [df[name]] as a list, for the column at position [i]. *)
Definition column (i : nat) (df : t) : list value :=
  map (fun r => cell r i) (rows df).

Fixpoint set_nth {A : Type} (i : nat) (x : A) (l : list A) : list A :=
  match l, i with
  | [], _ => []
  | _ :: l', O => x :: l'
  | y :: l', S i' => y :: set_nth i' x l'
  end.

(** Equality of two values as [duplicated] sees it: missing values are
    equal to each other. *)
Definition value_eqb (a b : value) : bool :=
  match a, b with
  | VStr s, VStr s' => pystr_eqb s s'
  | VNum q, VNum q' => Qeq_bool q q'
  | VDate d, VDate d' => Z.eqb d d'
  | VNa, VNa => true
  | _, _ => false
  end.

Fixpoint row_eqb (r r' : list value) : bool :=
  match r, r' with
  | [], [] => true
  | a :: r1, b :: r1' => value_eqb a b && row_eqb r1 r1'
  | _, _ => false
  end.

(** [df.drop_duplicates()]: the first occurrence of every row is kept. *)
Fixpoint keep_first (seen : list (list value)) (l : list (list value))
  : list (list value) :=
  match l with
  | [] => []
  | r :: l' =>
      if existsb (row_eqb r) seen then keep_first seen l'
      else r :: keep_first (r :: seen) l'
  end.

Definition drop_duplicates (df : t) : t :=
  {| columns := columns df; rows := keep_first [] (rows df) |}.

(** [df[name] = df[name].fillna(v)] for the column at position [i], its
    dtype becoming [dt]. *)
Definition fillna (i : nat) (v : value) (dt : dtype) (df : t) : t :=
  {| columns := match nth_error (columns df) i with
                | Some (name, _) => set_nth i (name, dt) (columns df)
                | None => columns df
                end;
     rows := map (fun r => if isna (cell r i) then set_nth i v r else r)
               (rows df) |}.

(** [df[name] = values] for the column at position [i]. *)
Definition assign (i : nat) (values : list value) (dt : dtype) (df : t) : t :=
  {| columns := match nth_error (columns df) i with
                | Some (name, _) => set_nth i (name, dt) (columns df)
                | None => columns df
                end;
     rows := map (fun rv => set_nth i (snd rv) (fst rv))
               (combine (rows df) values) |}.

Inductive error :=
| TypeError (what : pystr)
| KeyError (keys : list pystr)
| ValueError (what : pystr)
| AttributeError (what : pystr)
| OtherError (what : pystr).

Inductive outcome (A : Type) :=
| Done (a : A)
| Raised (e : error).
Arguments Done {A} a.
Arguments Raised {A} e.

(** [df[keys]] for a list of column names: the columns in the order asked
    for; the names that are missing raise [KeyError]. *)
Definition select (keys : list pystr) (df : t) : outcome t :=
  match filter (fun k => negb (has k df)) keys with
  | [] =>
      let positions :=
        map (fun k => match index_of k (names df) with
                      | Some i => i
                      | None => 0%nat
                      end) keys in
      Done {| columns := map (fun i => nth i (columns df) ([], Object)) positions;
              rows := map (fun r => map (cell r) positions) (rows df) |}
  | missing => Raised (KeyError missing)
  end.

(** [df.rename(columns=mapping)]. *)
Definition rename (mapping : list (pystr * pystr)) (df : t) : t :=
  {| columns :=
       map (fun c =>
              match find (fun m => pystr_eqb (fst m) (fst c)) mapping with
              | Some m => (snd m, snd c)
              | None => c
              end) (columns df);
     rows := rows df |}.

(** [df[mask]] for a boolean mask with one entry per row. *)
Definition where_ (mask : list bool) (df : t) : t :=
  {| columns := columns df;
     rows := map fst (filter snd (combine (rows df) mask)) |}.

End Table.

(** ** [preprocessing/data_cleaner.py], [preprocessing/categorizer.py] and
    [main.py]: [preprocess_data] *)

Module Preprocessing.
Import Table.

(** What the steps log and write. *)
Inductive effect :=
| CleanerEmpty                      (* warning: input is empty *)
| DateConversionError (e : error)   (* error in converting to date *)
| CategorizerEmpty                  (* warning: input is empty, returning None *)
| ColumnNotFound (column : pystr)   (* error: column not found *)
| ExportEmpty                       (* warning: not exporting to CSV *)
| WriteCsv (path : pystr) (df : t)  (* df.to_csv(path, index=False) *)
| Exported (path : pystr)           (* info *)
| ExportError (path : pystr)        (* error exporting data to CSV *)
| Preprocessed                      (* info: data preprocessed successfully *)
| PreprocessingError (e : error).   (* error: data preprocessing error *)

Section Steps.

(** [pd.to_datetime(values, errors='coerce')]: the converted column, or
    what it raises. *)
Variable to_datetime : list value -> outcome (list value).

(** [re.search(pattern, text)] finds a match; the pattern is taken to
    compile. *)
Variable re_search : pystr -> pystr -> bool.

(** Whether [to_csv] can write the path. *)
Variable writable : pystr -> bool.

(** One pass of [for col in df.columns] of [clean_data], for the column
    at position [i] (column names are taken to be distinct, as the readers
    make them). *)
Definition fill_column (df : t) (i : nat) : t :=
  match nth_error (columns df) i with
  | None => df
  | Some (_, dt) =>
      if existsb isna (column i df)
      then match dt with
           | Numeric => fillna i (VNum 0) Numeric df
           | Object | Datetime => fillna i (VStr (lit "Unknown")) Object df
           end
      else df
  end.

Definition fill_missing (df : t) : t :=
  fold_left fill_column (seq 0 (List.length (columns df))) df.

(** One pass of [for col in date_columns]. *)
Definition convert_date (acc : t * list effect) (col : pystr) : t * list effect :=
  let (df, log) := acc in
  match index_of col (names df) with
  | None => acc
  | Some i =>
      match to_datetime (column i df) with
      | Done values =>
          if Nat.eqb (List.length values) (List.length (rows df))
          then (assign i values Datetime df, log)
          else (df, log ++ [DateConversionError
                              (ValueError (lit "Length of values does not match"))])
      | Raised e => (df, log ++ [DateConversionError e])
      end
  end.

(** [DataCleaner.clean_data]. *)
Definition clean_data (df : option t) (date_columns : list pystr)
  : t * list effect :=
  match df with
  | None => (nothing, [CleanerEmpty])
  | Some df =>
      if empty df then (nothing, [CleanerEmpty])
      else fold_left convert_date date_columns
             (fill_missing (drop_duplicates df), [])
  end.

(** [series.str.contains(pattern)]: an entry per value, missing for a
    value that is not a string. *)
Definition str_contains (pattern : pystr) (values : list value)
  : list (option bool) :=
  map (fun v => match v with
                | VStr s => Some (re_search pattern s)
                | _ => None
                end) values.

Definition known (m : option bool) : bool :=
  match m with Some _ => true | None => false end.

Definition truth (m : option bool) : bool :=
  match m with Some b => b | None => false end.

(** [Categorizer.categorize_data]. *)
Definition categorize_data (df : option t) (system_b_column not_found_value : pystr)
  : outcome (option t) * list effect :=
  match df with
  | None => (Done None, [CategorizerEmpty])
  | Some df =>
      if empty df then (Done None, [CategorizerEmpty])
      else
        match index_of system_b_column (names df) with
        | None => (Done None, [ColumnNotFound system_b_column])
        | Some i =>
            match nth_error (columns df) i with
            | Some (_, Object) =>
                let mask := str_contains not_found_value (column i df) in
                if forallb known mask
                then (Done (Some (where_ (map truth mask) df)), [])
                else (Raised (ValueError
                                (lit "Cannot mask with non-boolean array containing NA / NaN values")),
                      [])
            | _ => (Raised (AttributeError
                              (lit "Can only use .str accessor with string values!")),
                    [])
            end
        end
  end.

(** [Categorizer.export_to_csv]: the selection of the columns comes
    before the [try]. *)
Definition export_to_csv (df : option t) (file_path : pystr)
  (columns : list pystr) : outcome unit * list effect :=
  match df with
  | None => (Done tt, [ExportEmpty])
  | Some df =>
      if empty df then (Done tt, [ExportEmpty])
      else
        match (match columns with
               | [] => Done df
               | _ :: _ => select columns df
               end) with
        | Raised e => (Raised e, [])
        | Done df' =>
            if writable file_path
            then (Done tt, [WriteCsv file_path df'; Exported file_path])
            else (Done tt, [ExportError file_path])
        end
  end.

(** The settings [preprocess_data] reads; the two lists are fixed in
    [Config.__init__]. *)
Record Config := {
  system_b_column : pystr;
  not_found_value : pystr;
  local_temp_dir : pystr
}.

Definition default_config : Config := {|
  system_b_column := lit "recon_sub_status";
  not_found_value := lit "Not Found-SysB";
  local_temp_dir := lit "temp"
|}.

Definition date_columns : list pystr := [lit "date"].

Definition csv_export_columns : list pystr :=
  [lit "txn_ref_id"; lit "sys_a_amount_attribute_1"; lit "sys_a_date"].

(** The columns kept and their new names, as written in [preprocess_data]. *)
Definition required_columns : list pystr :=
  [lit "txn_ref_id"; lit "sys_a_amount_attribute_1"; lit "sys_a_date"].

Definition renaming : list (pystr * pystr) :=
  [ (lit "txn_ref_id", lit "Transaction ID");
    (lit "sys_a_amount_attribute_1", lit "Amount");
    (lit "sys_a_date", lit "Date") ].

Inductive status :=
| NoData                 (* "No data to preprocess. Please ingest data first." *)
| Success                (* "Data preprocessed successfully." *)
| Failed (e : error).    (* str(e) *)

Variable config : Config.

Definition fail (e : error) (log : list effect)
  : (option t * status) * list effect :=
  ((None, Failed e), log ++ [PreprocessingError e]).

(** [preprocess_data(raw_data_df)]. *)
Definition preprocess_data (raw_data_df : option t)
  : (option t * status) * list effect :=
  match raw_data_df with
  | None => ((None, NoData), [])
  | Some raw =>
      if empty raw then ((None, NoData), [])
      else
        let (cleaned_df, l1) := clean_data (Some raw) date_columns in
        match categorize_data (Some cleaned_df) (system_b_column config)
                (not_found_value config) with
        | (Raised e, l2) => fail e (l1 ++ l2)
        | (Done None, l2) =>
            fail (TypeError (lit "'NoneType' object is not subscriptable"))
                 (l1 ++ l2)
        | (Done (Some not_found_df), l2) =>
            match select required_columns not_found_df with
            | Raised e => fail e (l1 ++ l2)
            | Done kept =>
                let not_found_df := rename renaming kept in
                match export_to_csv (Some not_found_df)
                        (PosixPath.join (local_temp_dir config)
                           (lit "temp_categorized_data.csv"))
                        csv_export_columns with
                | (Raised e, l3) => fail e (l1 ++ l2 ++ l3)
                | (Done _, l3) =>
                    ((Some not_found_df, Success),
                     l1 ++ l2 ++ l3 ++ [Preprocessed])
                end
            end
        end
  end.

End Steps.

End Preprocessing.

(** The table of a reconciliation extract: one record found, two not. *)
Definition extract : Table.t :=
  {| Table.columns :=
       [ (lit "txn_ref_id", Table.Object);
         (lit "sys_a_amount_attribute_1", Table.Numeric);
         (lit "sys_a_date", Table.Object);
         (lit "recon_sub_status", Table.Object) ];
     Table.rows :=
       [ [ Table.VStr (lit "T1"); Table.VNum 10; Table.VStr (lit "2024-01-01");
           Table.VStr (lit "Matched") ];
         [ Table.VStr (lit "T2"); Table.VNa; Table.VStr (lit "2024-01-02");
           Table.VStr (lit "Not Found-SysB") ];
         [ Table.VStr (lit "T3"); Table.VNum 7; Table.VNa;
           Table.VStr (lit "Not Found-SysB") ] ] |}.

(** The same extract without a record to find. *)
Definition all_matched : Table.t :=
  {| Table.columns := Table.columns extract;
     Table.rows :=
       [ [ Table.VStr (lit "T1"); Table.VNum 10; Table.VStr (lit "2024-01-01");
           Table.VStr (lit "Matched") ] ] |}.

(** Stand-ins for the library functions: a date parser that gives up on
    everything, and plain equality for the search. *)
Definition no_dates (values : list Table.value)
  : Table.outcome (list Table.value) :=
  Table.Done (map (fun _ => Table.VNa) values).

Definition same_text (pattern text : pystr) : bool := pystr_eqb pattern text.

Definition is_csv_write (e : Preprocessing.effect) : bool :=
  match e with Preprocessing.WriteCsv _ _ => true | _ => false end.

(** Every row has one value per column. *)
Definition well_formed (df : Table.t) : Prop :=
  Forall (fun r => List.length r = List.length (Table.columns df)) (Table.rows df).

Definition all_present (r : list Table.value) : Prop :=
  Forall (fun v => Table.isna v = false) r.

(** What [clean_data] puts in place of a missing value of a column. *)
Definition filler (dt : Table.dtype) : Table.value :=
  match dt with
  | Table.Numeric => Table.VNum 0
  | Table.Object | Table.Datetime => Table.VStr (lit "Unknown")
  end.

Definition filled (dt : Table.dtype) (v : Table.value) : Table.value :=
  if Table.isna v then filler dt else v.

(** A row and its cleaned form, under a header. *)
Definition filled_row (cols : list (pystr * Table.dtype))
  (r r' : list Table.value) : Prop :=
  forall j name dt,
    nth_error cols j = Some (name, dt) ->
    Table.cell r' j = filled dt (Table.cell r j).

(** Two rows that differ only by a missing value and its filler. *)
Definition nearly_twins : Table.t :=
  {| Table.columns := [(lit "id", Table.Numeric); (lit "note", Table.Object)];
     Table.rows := [ [Table.VNum 1; Table.VNa];
                     [Table.VNum 1; Table.VStr (lit "Unknown")] ] |}.

(** A row whose value in the column at position [i] is a string that the
    pattern finds. *)
Definition matching (re_search : pystr -> pystr -> bool) (pattern : pystr)
  (i : nat) (r : list Table.value) : bool :=
  match Table.cell r i with
  | Table.VStr s => re_search pattern s
  | _ => false
  end.

Definition text_or_missing (v : Table.value) : Prop :=
  v = Table.VNa \/ exists s, v = Table.VStr s.

(** ** [data_ingestion/file_upload_ingestor.py] and [main.py]:
       [ingest_data], [ingest_comments] *)

Module Ingestion.

(** [str.lower()]. *)
Definition lower (s : pystr) : pystr := flat_map to_lower s.

(** [s.split(sep)] for a separator of one character. *)
Fixpoint split (sep : N) (s : pystr) : list pystr :=
  match s with
  | [] => [[]]
  | c :: rest =>
      if (c =? sep)%N then [] :: split sep rest
      else match split sep rest with
           | [] => [[c]]
           | w :: ws => (c :: w) :: ws
           end
  end.

(** [name.split('.')[-1]]. *)
Definition extension (name : pystr) : pystr := last (split 46 name) [].

(** What the ingestion steps log and print. *)
Inductive effect :=
| IngestorError (what : pystr)    (* logging.error: error ingesting file *)
| IngestionError (what : pystr)   (* logger.error: data ingestion error *)
| Ingested                        (* logger.info: ingested successfully *)
| PrintHead (df : Table.t).       (* print(comments_df.head()) *)

Definition unsupported : pystr :=
  lit "Unsupported file type.  Only 'csv' and 'excel' are supported.".

Section Readers.

(** The content of an uploaded file is left abstract.  [open_read] is
    [open(name, 'rb')] followed by [read()]; the two readers are
    [pd.read_csv] on the decoded content and [pd.read_excel].  Each gives
    its result or the text of the exception it raises. *)
Variable bytes : Type.
Variable open_read : pystr -> bytes + pystr.
Variable read_csv : bytes -> Table.t + pystr.
Variable read_excel : bytes -> Table.t + pystr.

(** [SFTPIngestor.fetch_data(config.sftp_remote_file, config.sftp_file_type)]:
    a table, or [None] on any error. *)
Variable fetch_data : option Table.t.

Definition parsed (r : Table.t + pystr) : option Table.t * list effect :=
  match r with
  | inl df => (Some df, [])
  | inr e => (None, [IngestorError e])
  end.

(** [FileUploadIngestor.ingest_data]. *)
Definition upload_ingest_data (file_content : bytes) (file_type : pystr)
  : option Table.t * list effect :=
  if pystr_eqb (lower file_type) (lit "csv")
  then parsed (read_csv file_content)
  else if pystr_eqb (lower file_type) (lit "excel")
  then parsed (read_excel file_content)
  else (None, [IngestorError unsupported]).

Definition refuse (what : pystr) (log : list effect)
  : (option Table.t * pystr) * list effect :=
  ((None, what), log ++ [IngestionError what]).

Definition unusable (df : option Table.t) : bool :=
  match df with
  | None => true
  | Some df => Table.empty df
  end.

(** [ingest_data(file_obj, method)] of [main.py]; [file_obj] is the name
    of the uploaded file, if one was uploaded. *)
Definition ingest_data (file_obj : option pystr) (method : pystr)
  : (option Table.t * pystr) * list effect :=
  let finish (raw : option Table.t) (log : list effect) :=
    match raw with
    | Some df =>
        if Table.empty df
        then refuse (lit "Failed to ingest data or data is empty.") log
        else ((Some df, lit "Data ingested successfully."), log ++ [Ingested])
    | None => refuse (lit "Failed to ingest data or data is empty.") log
    end in
  if pystr_eqb method (lit "file_upload") then
    match file_obj with
    | None => refuse (lit "Please upload a file.") []
    | Some name =>
        let file_type := lower (extension name) in
        match open_read name with
        | inr e => refuse e []
        | inl file_content =>
            let (raw, log) := upload_ingest_data file_content file_type in
            finish raw log
        end
    end
  else if pystr_eqb method (lit "sftp") then finish fetch_data []
  else refuse (lit "Invalid ingestion method selected.") [].

(** [ingest_comments(comments_file)] of [main.py]. *)
Definition ingest_comments (comments_file : option pystr)
  : (option Table.t * pystr) * list effect :=
  match comments_file with
  | None => refuse (lit "Please upload a file") []
  | Some name =>
      let file_type := lower (extension name) in
      match open_read name with
      | inr e => refuse e []
      | inl file_content =>
          let (comments_df, log) := upload_ingest_data file_content file_type in
          match comments_df with
          | None => refuse (lit "Failed to ingest data or the file is empty") log
          | Some df =>
              if Table.empty df
              then refuse (lit "Failed to ingest data or the file is empty") log
              else if negb (Table.has (lit "Transaction ID") df)
                      || negb (Table.has (lit "Comments") df)
              then refuse (lit "Comments DataFrame must contain 'Transaction ID' and 'Comments' columns.") log
              else ((Some df, lit "Comments Data Ingested Successfully"),
                    log ++ [Ingested; PrintHead df])
          end
      end
  end.

End Readers.

End Ingestion.

(** A file name whose extension names one of the two accepted types, in
    any casing. *)
Definition accepted_extension (name : pystr) : Prop :=
  same_word_any_casing (Ingestion.extension name) (lit "csv")
  \/ same_word_any_casing (Ingestion.extension name) (lit "excel").

(** Stand-ins for the readers: every file opens, with its name as
    content, and both readers return the extract. *)
Definition open_any (name : pystr) : pystr + pystr := inl name.

Definition comments_table : Table.t :=
  {| Table.columns := [(lit "Transaction ID", Table.Object);
                       (lit "Comments", Table.Object)];
     Table.rows := [ [Table.VStr (lit "T2"); Table.VStr (lit "refund issued")] ] |}.

Definition read_comments (content : pystr) : Table.t + pystr :=
  inl comments_table.

(** ** [file_handling/cloud_storage.py]: [upload_file] *)

Module CloudStorage.

(** What the attempt to send the file ends in. *)
Inductive transfer :=
| Stored
| FileNotFoundError
| TransferError (what : pystr).

Inductive effect :=
| UploadFromFilename (local_file_path gcs_file_path : pystr)
| Uploaded (local_file_path gcs_file_path : pystr)    (* info *)
| FileNotFound (local_file_path : pystr)              (* error *)
| UploadFailure (what : pystr).                       (* exception *)

(** [CloudStorage.upload_file]: every exception ends in [False]. *)
Definition upload_file (outcome : transfer) (local_file_path gcs_file_path : pystr)
  : bool * list effect :=
  match outcome with
  | Stored =>
      (true, [UploadFromFilename local_file_path gcs_file_path;
              Uploaded local_file_path gcs_file_path])
  | FileNotFoundError =>
      (false, [UploadFromFilename local_file_path gcs_file_path;
               FileNotFound local_file_path])
  | TransferError what =>
      (false, [UploadFromFilename local_file_path gcs_file_path;
               UploadFailure what])
  end.

End CloudStorage.

(** ** [main.py]: [upload_to_gcs] *)

Module GcsUpload.

Inductive effect :=
| Progress (fraction : Q) (desc : pystr)
| ToCsv (path : pystr) (df : Table.t)
| Storage (e : CloudStorage.effect)
| Remove (path : pystr)
| Info                             (* data uploaded to GCS successfully *)
| Error (what : pystr).            (* GCS upload error *)

Definition no_data : pystr :=
  lit "No data to upload. Please preprocess data first.".

Definition success : pystr := lit "Data uploaded to GCS successfully.".

Section Upload.

Variable local_temp_dir gcs_categorized_file_path : pystr.

(** The text of the exception the constructor of [CloudStorage] raises,
    if it raises; likewise for [df.to_csv] and [os.remove] on a path. *)
Variable storage_error : option pystr.
Variable to_csv_error : pystr -> option pystr.
Variable remove_error : pystr -> option pystr.

(** What the transfer of the file ends in. *)
Variable transfer : CloudStorage.transfer.

(** [upload_to_gcs(df)]. *)
Definition upload_to_gcs (df : option Table.t) : pystr * list effect :=
  match df with
  | None => (no_data, [])
  | Some df =>
      if Table.empty df then (no_data, [])
      else
        let start := [Progress (1 # 2) (lit "Starting Upload")] in
        match storage_error with
        | Some e => (e, start ++ [Error e])
        | None =>
            let local_file_path :=
              PosixPath.join local_temp_dir (lit "temp_categorized_data.csv") in
            match to_csv_error local_file_path with
            | Some e => (e, start ++ [Error e])
            | None =>
                let written := start ++ [ToCsv local_file_path df] in
                let (_, sent) :=
                  CloudStorage.upload_file transfer local_file_path
                    gcs_categorized_file_path in
                match remove_error local_file_path with
                | Some e => (e, written ++ map Storage sent ++ [Error e])
                | None =>
                    (success,
                     written ++ map Storage sent
                       ++ [Remove local_file_path;
                           Progress 1 (lit "Finishing Upload"); Info])
                end
            end
        end
  end.

End Upload.

End GcsUpload.

Definition is_stored (e : GcsUpload.effect) : bool :=
  match e with
  | GcsUpload.Storage (CloudStorage.Uploaded _ _) => true
  | _ => false
  end.

Definition no_error (path : pystr) : option pystr := None.

(** ** [config.py] *)

Module Configuration.

(** A value or the text of the [ValueError] raised instead. *)
Definition result (A : Type) : Type := A + pystr.

Definition bind {A B : Type} (r : result A) (k : A -> result B) : result B :=
  match r with
  | inl a => k a
  | inr e => inr e
  end.

Notation "x <- r ;; k" := (bind r (fun x => k))
  (at level 61, r at next level, right associativity).

Record Config := {
  ingestion_method : pystr;
  sftp_host : pystr;
  sftp_port : Z;
  sftp_username : pystr;
  sftp_password : pystr;
  sftp_private_key_path : pystr;
  sftp_private_key_passphrase : pystr;
  sftp_remote_file : pystr;
  sftp_file_type : pystr;
  sftp_comments_file : pystr;
  sftp_comments_file_type : pystr;
  system_b_column : pystr;
  not_found_value : pystr;
  csv_export_columns : list pystr;
  date_columns : list pystr;
  gcs_bucket_name : pystr;
  gcs_credentials_path : pystr;
  gcs_project_id : pystr;
  gcs_categorized_file_path : pystr;
  gcs_resolved_folder : pystr;
  gcs_unresolved_folder : pystr;
  local_temp_dir : pystr;
  openai_api_key : pystr;
  openai_model_name : pystr;
  num_clusters : Z;
  log_file_path : pystr;
  model_path : pystr
}.

Section Environment.

(** [os.environ.get] once [load_dotenv()] has run. *)
Variable environ : pystr -> option pystr.

(** [int(value)]: the integer, or the text of the [ValueError]. *)
Variable int : pystr -> result Z.

Definition str (value : pystr) : result pystr := inl value.

(** [Config._get_env]: a default is returned as it is, without the cast. *)
Definition _get_env {A : Type} (var_name : pystr) (default : option A)
  (type_cast : pystr -> result A) : result A :=
  match environ var_name with
  | None =>
      match default with
      | Some d => inl d
      | None => inr (lit "Required environment variable '" ++ var_name
                       ++ lit "' not found.")
      end
  | Some value =>
      match type_cast value with
      | inl v => inl v
      | inr e => inr (lit "Invalid value for environment variable '"
                        ++ var_name ++ lit "': " ++ e)
      end
  end.

(** [Config.__init__]. *)
Definition init : result Config :=
  ingestion_method <- _get_env (lit "INGESTION_METHOD") (Some (lit "sftp")) str ;;
  sftp_host <- _get_env (lit "SFTP_HOST") (Some (lit "0.0.0.0")) str ;;
  sftp_port <- _get_env (lit "SFTP_PORT") (Some 22%Z) int ;;
  sftp_username <- _get_env (lit "SFTP_USERNAME") (Some (lit "admin")) str ;;
  sftp_password <- _get_env (lit "SFTP_PASSWORD") (Some (lit "admin")) str ;;
  sftp_private_key_path <-
    _get_env (lit "SFTP_PRIVATE_KEY_PATH") (Some (lit "~/.ssh/id_rsa")) str ;;
  sftp_private_key_passphrase <-
    _get_env (lit "SFTP_PRIVATE_KEY_PASSPHRASE") (Some []) str ;;
  sftp_remote_file <- _get_env (lit "SFTP_REMOTE_FILE") (Some []) str ;;
  sftp_file_type <- _get_env (lit "SFTP_FILE_TYPE") (Some (lit "csv")) str ;;
  sftp_comments_file <- _get_env (lit "SFTP_COMMENTS_FILE") (Some []) str ;;
  sftp_comments_file_type <-
    _get_env (lit "SFTP_COMMENTS_FILE_TYPE") (Some (lit "csv")) str ;;
  system_b_column <-
    _get_env (lit "SYSTEM_B_COLUMN") (Some (lit "recon_sub_status")) str ;;
  not_found_value <-
    _get_env (lit "NOT_FOUND_VALUE") (Some (lit "Not Found-SysB")) str ;;
  gcs_bucket_name <- _get_env (lit "GCS_BUCKET_NAME") None str ;;
  gcs_credentials_path <- _get_env (lit "GCS_CREDENTIALS_PATH") None str ;;
  gcs_project_id <- _get_env (lit "GCS_PROJECT_ID") None str ;;
  gcs_categorized_file_path <-
    _get_env (lit "GCS_CATEGORIZED_FILE_PATH")
      (Some (lit "processed/not_found_sys_b/categorized_data.csv")) str ;;
  gcs_resolved_folder <-
    _get_env (lit "GCS_RESOLVED_FOLDER") (Some (lit "processed/resolved")) str ;;
  gcs_unresolved_folder <-
    _get_env (lit "GCS_UNRESOLVED_FOLDER") (Some (lit "processed/unresolved")) str ;;
  local_temp_dir <- _get_env (lit "LOCAL_TEMP_DIR") (Some (lit "temp")) str ;;
  openai_api_key <- _get_env (lit "OPENAI_API_KEY") None str ;;
  openai_model_name <-
    _get_env (lit "OPENAI_MODEL_NAME") (Some (lit "gpt-3.5-turbo")) str ;;
  num_clusters <- _get_env (lit "NUM_CLUSTERS") (Some 3%Z) int ;;
  log_file_path <- _get_env (lit "LOG_FILE_PATH") (Some (lit "logs/app.log")) str ;;
  model_path <- _get_env (lit "MODEL_PATH") (Some (lit "model/")) str ;;
  inl {| ingestion_method := ingestion_method;
         sftp_host := sftp_host;
         sftp_port := sftp_port;
         sftp_username := sftp_username;
         sftp_password := sftp_password;
         sftp_private_key_path := sftp_private_key_path;
         sftp_private_key_passphrase := sftp_private_key_passphrase;
         sftp_remote_file := sftp_remote_file;
         sftp_file_type := sftp_file_type;
         sftp_comments_file := sftp_comments_file;
         sftp_comments_file_type := sftp_comments_file_type;
         system_b_column := system_b_column;
         not_found_value := not_found_value;
         csv_export_columns :=
           [lit "txn_ref_id"; lit "sys_a_amount_attribute_1"; lit "sys_a_date"];
         date_columns := [lit "date"];
         gcs_bucket_name := gcs_bucket_name;
         gcs_credentials_path := gcs_credentials_path;
         gcs_project_id := gcs_project_id;
         gcs_categorized_file_path := gcs_categorized_file_path;
         gcs_resolved_folder := gcs_resolved_folder;
         gcs_unresolved_folder := gcs_unresolved_folder;
         local_temp_dir := local_temp_dir;
         openai_api_key := openai_api_key;
         openai_model_name := openai_model_name;
         num_clusters := num_clusters;
         log_file_path := log_file_path;
         model_path := model_path |}.

(** [os.path.isdir], [os.path.exists], and the text of the exception
    [os.makedirs(path, exist_ok=True)] raises, if it raises. *)
Variable isdir : pystr -> bool.
Variable exists_ : pystr -> bool.
Variable makedirs_error : pystr -> option pystr.

Definition nonempty (s : pystr) : bool :=
  match s with [] => false | _ :: _ => true end.

(** [Config.validate]. *)
Definition validate (c : Config) : result bool :=
  match (if isdir (local_temp_dir c) then None
         else makedirs_error (local_temp_dir c)) with
  | Some e => inr e
  | None =>
      if nonempty (gcs_credentials_path c)
         && negb (exists_ (gcs_credentials_path c))
      then inr (lit "GCS_CREDENTIALS_PATH '" ++ gcs_credentials_path c
                  ++ lit "' does not exist.")
      else if negb (nonempty (gcs_credentials_path c))
              && negb (nonempty (gcs_project_id c))
      then inr (lit "Either GCS_CREDENTIALS_PATH or GCS_PROJECT_ID must be set.")
      else inl true
  end.

End Environment.

End Configuration.

(** An environment that sets the four variables without a default and
    nothing else, and a parser of no use. *)
Definition bare_environ (name : pystr) : option pystr :=
  if pystr_eqb name (lit "GCS_BUCKET_NAME") then Some (lit "bucket")
  else if pystr_eqb name (lit "GCS_CREDENTIALS_PATH") then Some []
  else if pystr_eqb name (lit "GCS_PROJECT_ID") then Some (lit "project")
  else if pystr_eqb name (lit "OPENAI_API_KEY") then Some (lit "key")
  else None.

Definition no_int (value : pystr) : Configuration.result Z :=
  inr (lit "invalid literal for int()").

Definition everywhere (path : pystr) : bool := true.

(** ** [reporting/logger.py] *)

Module Logger.

(** [s.rstrip('/')]. *)
Fixpoint rstrip_sep (s : pystr) : pystr :=
  match s with
  | [] => []
  | c :: rest =>
      match rstrip_sep rest with
      | [] => if (c =? 47)%N then [] else [c]
      | kept => c :: kept
      end
  end.

(** [p[:p.rfind('/') + 1]]: up to and including the last separator. *)
Fixpoint head (p : pystr) : pystr :=
  match p with
  | [] => []
  | c :: rest =>
      match head rest with
      | [] => if (c =? 47)%N then [c] else []
      | h => c :: h
      end
  end.

(** [os.path.dirname]. *)
Definition dirname (p : pystr) : pystr :=
  let h := head p in
  if forallb (N.eqb 47) h then h else rstrip_sep h.

Inductive handler :=
| FileHandler (path : pystr) (level : Z)
| StreamHandler (level : Z).

(** The root logger. *)
Record root := {
  level : Z;
  handlers : list handler
}.

Inductive effect :=
| MakeDirs (path : pystr)
| OpenLog (path : pystr).

Definition INFO : Z := 20.
Definition WARNING : Z := 30.

Section FileSystem.

Variable exists_ : pystr -> bool.

(** The text of the exception [os.makedirs] and the opening of the log
    file raise, if they raise. *)
Variable makedirs_error : pystr -> option pystr.
Variable open_error : pystr -> option pystr.

(** [setup_logger(log_file_path, log_level)] on the root logger: the new
    state of the logger, or the text of the exception. *)
Definition setup_logger (log_file_path : pystr) (log_level : Z) (logger : root)
  : (root + pystr) * list effect :=
  let log_dir := dirname log_file_path in
  let made :=
    if exists_ log_dir then (None, [])
    else (makedirs_error log_dir, [MakeDirs log_dir]) in
  match made with
  | (Some e, done) => (inr e, done)
  | (None, done) =>
      match open_error log_file_path with
      | Some e => (inr e, done ++ [OpenLog log_file_path])
      | None =>
          (inl {| level := log_level;
                  handlers := handlers logger
                                ++ [FileHandler log_file_path log_level;
                                    StreamHandler WARNING] |},
           done ++ [OpenLog log_file_path])
      end
  end.

End FileSystem.

End Logger.

(** A file system in which only non-empty paths exist or can be made, as
    [os.path.exists] and [os.makedirs] have it for the empty path. *)
Definition exists_nonempty (path : pystr) : bool :=
  match path with [] => false | _ :: _ => true end.

Definition makedirs_nonempty (path : pystr) : option pystr :=
  match path with
  | [] => Some (lit "[Errno 2] No such file or directory: ''")
  | _ :: _ => None
  end.

(** * Properties *)

(** ** Strings *)

Lemma lstrip_head (s : pystr) (c : N) (t : pystr) :
  lstrip s = c :: t -> isspace c = false.
Proof.
  induction s as [|a s IH]; simpl; [discriminate|].
  destruct (isspace a) eqn:E; [exact IH|].
  intros H; injection H as <- _; exact E.
Qed.

Lemma rstrip_last (s m : pystr) (x : N) :
  rstrip s = m ++ [x] -> isspace x = false.
Proof.
  unfold rstrip; intros H.
  apply (f_equal (@rev N)) in H.
  rewrite rev_involutive, rev_app_distr in H; simpl in H.
  exact (lstrip_head _ _ _ H).
Qed.

Lemma strip_last (s m : pystr) (x : N) :
  strip s = m ++ [x] -> isspace x = false.
Proof. unfold strip; apply rstrip_last. Qed.

(** A stripped string does not end with a newline, so on it [$] holds at
    the very end only. *)
Lemma strip_at_end (s m rest : pystr) :
  strip s = m ++ rest -> Re.at_end rest = true -> rest = [].
Proof.
  intros Hs He.
  destruct rest as [|c [|d rest]]; [reflexivity| |discriminate].
  simpl in He. apply N.eqb_eq in He; subst c.
  apply strip_last in Hs. discriminate.
Qed.

Lemma match_literals_split (pat s rest : pystr) :
  Re.match_literals pat s = Some rest ->
  exists m, s = m ++ rest /\
            Forall2 (fun p c => Re.literal_ignore p c = true) pat m.
Proof.
  revert s; induction pat as [|p pat IH]; simpl; intros s H.
  - injection H as <-. exists []; split; [reflexivity|constructor].
  - destruct s as [|c s]; [discriminate|].
    destruct (Re.literal_ignore p c) eqn:E; [|discriminate].
    destruct (IH _ H) as (m & -> & F).
    exists (c :: m); split; [reflexivity|constructor; assumption].
Qed.

Lemma in_range_true lo hi c :
  in_range lo hi c = true -> (lo <= c <= hi)%N.
Proof.
  unfold in_range; intros H; apply andb_true_iff in H as [H1 H2].
  apply N.leb_le in H1, H2; lia.
Qed.

Lemma in_range_false lo hi c :
  in_range lo hi c = false -> (c < lo \/ hi < c)%N.
Proof.
  unfold in_range; intros H; apply andb_false_iff in H as [H|H];
    apply N.leb_gt in H; lia.
Qed.

(** The code points that lower-case to a Basic Latin letter other than i
    and k: the letter and its capital. *)
Lemma unicode_tolower_letter (c lo : N) :
  (97 <= lo <= 122)%N -> lo <> 105%N -> lo <> 107%N ->
  unicode_tolower c = lo -> c = lo \/ c = (lo - 32)%N.
Proof.
  intros Hlo Hi Hk; unfold unicode_tolower.
  destruct (in_range 65 90 c) eqn:E1.
  { apply in_range_true in E1; lia. }
  destruct (in_range 192 222 c && negb (c =? 215)%N) eqn:E2.
  { apply andb_true_iff in E2 as [E2 _]; apply in_range_true in E2; lia. }
  destruct (N.eqb_spec c 304); [lia|].
  destruct (N.eqb_spec c 8490); [lia|].
  destruct (N.eqb_spec c 8491); [lia|].
  auto.
Qed.

Lemma unicode_tolower_long_s (c : N) : unicode_tolower c = 383%N -> c = 383%N.
Proof.
  unfold unicode_tolower.
  destruct (in_range 65 90 c) eqn:E1.
  { apply in_range_true in E1; lia. }
  destruct (in_range 192 222 c && negb (c =? 215)%N) eqn:E2.
  { apply andb_true_iff in E2 as [E2 _]; apply in_range_true in E2; lia. }
  destruct (N.eqb_spec c 304); [lia|].
  destruct (N.eqb_spec c 8490); [lia|].
  destruct (N.eqb_spec c 8491); [lia|].
  auto.
Qed.

Lemma ascii_lower_letter (p : N) :
  is_letter p ->
  unicode_tolower p = ascii_lower p /\ (97 <= ascii_lower p <= 122)%N.
Proof.
  intros [Hp _]; unfold unicode_tolower, ascii_lower.
  destruct (in_range 65 90 p) eqn:E1.
  { apply in_range_true in E1; lia. }
  apply in_range_false in E1.
  destruct (in_range 192 222 p && negb (p =? 215)%N) eqn:E2.
  { apply andb_true_iff in E2 as [E2 _]; apply in_range_true in E2; lia. }
  destruct (N.eqb_spec p 304); [lia|].
  destruct (N.eqb_spec p 8490); [lia|].
  destruct (N.eqb_spec p 8491); [lia|].
  lia.
Qed.

(** What a letter of the pattern accepts: itself in either case, and for
    the letter s also the long s. *)
Lemma literal_ignore_letter (p c : N) :
  is_letter p ->
  Re.literal_ignore p c = true ->
  c = ascii_lower p \/ c = (ascii_lower p - 32)%N
  \/ (ascii_lower p = 115%N /\ c = 383%N).
Proof.
  intros Hp; destruct (ascii_lower_letter p Hp) as [Hlo Hr].
  destruct Hp as (_ & Hi & Hk).
  unfold Re.literal_ignore; rewrite Hlo.
  intros H; apply orb_true_iff in H as [H|H].
  - apply N.eqb_eq in H.
    destruct (unicode_tolower_letter c _ Hr Hi Hk H); auto.
  - unfold Re.ignorecase_fixes in H.
    destruct (N.eqb_spec (ascii_lower p) 105); [contradiction|].
    destruct (N.eqb_spec (ascii_lower p) 115) as [Hs|Hs].
    + simpl in H; rewrite orb_false_r in H; apply N.eqb_eq in H.
      right; right; split; [exact Hs|exact (unicode_tolower_long_s _ H)].
    + destruct (N.eqb_spec (ascii_lower p) 181); [lia|discriminate].
Qed.

Ltac letter := unfold is_letter, ascii_lower; simpl; lia.

Lemma to_lower_of_match (p c : N) :
  is_letter p ->
  Re.literal_ignore p c = true ->
  to_lower c = [ascii_lower p]
  \/ (ascii_lower p = 115%N /\ to_lower c = [383%N]).
Proof.
  intros Hp H; destruct (ascii_lower_letter p Hp) as [_ Hr].
  destruct (literal_ignore_letter p c Hp H) as [->|[->|[Hs ->]]].
  - left; unfold to_lower, unicode_tolower.
    destruct (N.eqb_spec (ascii_lower p) 304); [lia|].
    destruct (in_range 65 90 (ascii_lower p)) eqn:E1.
    { apply in_range_true in E1; lia. }
    destruct (in_range 192 222 (ascii_lower p)) eqn:E2.
    { apply in_range_true in E2; lia. }
    simpl.
    destruct (N.eqb_spec (ascii_lower p) 8490); [lia|].
    destruct (N.eqb_spec (ascii_lower p) 8491); [lia|reflexivity].
  - left; unfold to_lower, unicode_tolower.
    destruct (N.eqb_spec (ascii_lower p - 32) 304); [lia|].
    destruct (in_range 65 90 (ascii_lower p - 32)) eqn:E1.
    + f_equal; lia.
    + apply in_range_false in E1; lia.
  - right; split; [exact Hs|reflexivity].
Qed.

Lemma to_title_of_match (p c : N) :
  p = 82%N \/ p = 85%N ->
  Re.literal_ignore p c = true -> to_title c = [p].
Proof.
  intros Hp H.
  assert (L : is_letter p) by (destruct Hp; subst; letter).
  destruct (literal_ignore_letter p c L H) as [E|[E|[E _]]];
    destruct Hp; subst p; vm_compute in E;
    first [discriminate E | subst c; reflexivity].
Qed.

Lemma labels_codes :
  Re.labels = [ [82; 101; 115; 111; 108; 118; 101; 100]%N;
                [85; 110; 114; 101; 115; 111; 108; 118; 101; 100]%N ].
Proof. reflexivity. Qed.

Ltac split_word :=
  repeat match goal with
         | H : Forall2 _ (_ :: _) _ |- _ => inversion H; subst; clear H
         | H : Forall2 _ [] _ |- _ => inversion H; subst; clear H
         end.

Ltac lower_tail :=
  repeat match goal with
         | H : Re.literal_ignore ?p ?c = true |- context [to_lower ?c] =>
             let L := fresh in
             let S := fresh in
             assert (L : is_letter p) by letter;
             destruct (to_lower_of_match p c L H) as [->|[S ->]];
             [|try (vm_compute in S; discriminate S)]; clear L H
         end.

(** The words the validation accepts come out of [capitalize] as the label,
    or as the label with a long s. *)
Lemma capitalize_accepted (label m : pystr) :
  In label Re.labels ->
  Forall2 (fun p c => Re.literal_ignore p c = true) label m ->
  (label = lit "Resolved" /\
     (capitalize m = lit "Resolved" \/ capitalize m = resolved_long_s))
  \/ (label = lit "Unresolved" /\
     (capitalize m = lit "Unresolved" \/ capitalize m = unresolved_long_s)).
Proof.
  rewrite labels_codes; intros [<-|[<-|[]]] F; [left|right];
    (split; [reflexivity|]); split_word; unfold capitalize;
    match goal with
    | H : Re.literal_ignore ?p ?c = true |- context [to_title ?c] =>
        rewrite (to_title_of_match p c (ltac:(auto)) H); clear H
    end;
    simpl flat_map; lower_tail; vm_compute; auto.
Qed.

(** What the validation accepts after [strip] is a label up to case, the
    long s allowed for the s; [capitalize] then gives one of four words. *)
Lemma accepted_then_capitalized (content : pystr) :
  Re.match_label (strip content) = true ->
  capitalize (strip content) = lit "Resolved"
  \/ capitalize (strip content) = lit "Unresolved"
  \/ capitalize (strip content) = resolved_long_s
  \/ capitalize (strip content) = unresolved_long_s.
Proof.
  unfold Re.match_label; intros H.
  apply existsb_exists in H as (label & Hin & H).
  destruct (Re.match_literals label (strip content)) as [rest|] eqn:M;
    [|discriminate].
  destruct (match_literals_split _ _ _ M) as (m & Hs & F).
  pose proof (strip_at_end _ _ _ Hs H) as ->.
  rewrite app_nil_r in Hs; rewrite Hs.
  destruct (capitalize_accepted label m Hin F) as [[_ [E|E]]|[_ [E|E]]]; auto.
Qed.

Lemma ascii_lower_inv (c lo : N) :
  (97 <= lo <= 122)%N -> ascii_lower c = lo -> c = lo \/ c = (lo - 32)%N.
Proof.
  intros Hlo; unfold ascii_lower.
  destruct (in_range 65 90 c) eqn:E; [|auto].
  apply in_range_true in E; lia.
Qed.

Ltac each_casing :=
  repeat match goal with
         | H : ascii_lower ?c = ?lo |- _ =>
             let E := fresh in
             destruct (ascii_lower_inv c lo ltac:(lia) H) as [E|E];
             vm_compute in E; subst c; clear H
         end.

(** A label written in any casing is accepted and capitalized to the
    label itself. *)
Lemma any_casing_accepted (s label : pystr) :
  In label Re.labels ->
  same_word_any_casing s label ->
  Re.match_label s = true /\ capitalize s = label.
Proof.
  rewrite labels_codes; unfold same_word_any_casing.
  intros [<-|[<-|[]]] H;
    match type of H with
    | _ = ?r => let v := eval vm_compute in r in change r with v in H
    end.
  - do 9 (destruct s as [|? s]; try discriminate H).
    cbn [map] in H; injection H as ? ? ? ? ? ? ? ?; each_casing;
      split; vm_compute; reflexivity.
  - do 11 (destruct s as [|? s]; try discriminate H).
    cbn [map] in H; injection H as ? ? ? ? ? ? ? ? ? ?; each_casing;
      split; vm_compute; reflexivity.
Qed.

(** ** The classifier *)



Lemma time_sleep_cases (d : Z) :
  time_sleep d = Continue
  \/ ((d < 0)%Z /\ time_sleep d = Throw (lit "sleep length must be non-negative")).
Proof.
  unfold time_sleep. destruct (Z.ltb_spec d 0); [right; split; auto|left; reflexivity].
Qed.

Section ClassifierFacts.

Variable service : Z -> api_result.
Variables order_id comment : pystr.
Variables max_retries retry_delay : Z.

Let body := attempt_body service order_id comment max_retries retry_delay.
Let loop := for_attempts service order_id comment max_retries retry_delay.

(** Attempts that end in [Continue] only add their effects. *)
Lemma for_attempts_retried (pre rest : list Z) :
  (forall a, In a pre -> fst (body a) = Continue) ->
  loop (pre ++ rest) = (fst (loop rest), retried body pre ++ snd (loop rest)).
Proof.
  induction pre as [|a pre IH]; intros H.
  - simpl; destruct (loop rest); reflexivity.
  - simpl. specialize (H a (or_introl eq_refl)) as Ha.
    fold body. destruct (body a) as [f t] eqn:B. simpl in Ha; subst f.
    fold loop. rewrite IH by (intros; apply H; right; assumption).
    simpl. rewrite app_assoc. reflexivity.
Qed.

Lemma range_split (k : nat) :
  (k <= Z.to_nat max_retries)%nat ->
  range max_retries = attempts_before k ++ attempts_from k (Z.to_nat max_retries).
Proof.
  intros H; unfold range, attempts_before, attempts_from.
  rewrite <- map_app, <- seq_app. f_equal. f_equal. lia.
Qed.

Lemma attempts_from_cons (k n : nat) :
  (k < n)%nat -> attempts_from k n = Z.of_nat k :: attempts_from (S k) n.
Proof.
  intros H; unfold attempts_from.
  replace (n - k)%nat with (S (n - S k)) by lia. reflexivity.
Qed.

(** The loop reaches attempt [k] when all earlier attempts continue. *)
Lemma classify_comment_reaches (k : nat) :
  (k <= Z.to_nat max_retries)%nat ->
  (forall j, (j < k)%nat -> fst (body (Z.of_nat j)) = Continue) ->
  classify_comment service order_id comment max_retries retry_delay
  = (fst (loop (attempts_from k (Z.to_nat max_retries))),
     retried body (attempts_before k)
       ++ snd (loop (attempts_from k (Z.to_nat max_retries)))).
Proof.
  intros Hk H; unfold classify_comment.
  rewrite (range_split k Hk). apply for_attempts_retried.
  intros a Ha; unfold attempts_before in Ha.
  apply in_map_iff in Ha as (j & <- & Hj). apply in_seq in Hj.
  apply H; lia.
Qed.

(** Whatever the service does, the loop returns [None] or the capitalized
    form of an accepted response, unless the delay is negative and
    [time.sleep] raises. *)
Lemma for_attempts_domain (attempts : list Z) :
  fst (loop attempts) = Returned None
  \/ fst (loop attempts) = Returned (Some (lit "Resolved"))
  \/ fst (loop attempts) = Returned (Some (lit "Unresolved"))
  \/ fst (loop attempts) = Returned (Some resolved_long_s)
  \/ fst (loop attempts) = Returned (Some unresolved_long_s)
  \/ ((retry_delay < 0)%Z
      /\ fst (loop attempts) = Thrown (lit "sleep length must be non-negative")).
Proof.
  assert (S : forall t attempts',
             (let r := fst (loop attempts') in
              r = Returned None
              \/ r = Returned (Some (lit "Resolved"))
              \/ r = Returned (Some (lit "Unresolved"))
              \/ r = Returned (Some resolved_long_s)
              \/ r = Returned (Some unresolved_long_s)
              \/ ((retry_delay < 0)%Z
                  /\ r = Thrown (lit "sleep length must be non-negative"))) ->
             let r := fst (match time_sleep retry_delay with
                           | Return x => (Returned x, t)
                           | Continue => let (x, t') := loop attempts' in (x, t ++ t')
                           | Throw e => (Thrown e, t)
                           end) in
             r = Returned None
             \/ r = Returned (Some (lit "Resolved"))
             \/ r = Returned (Some (lit "Unresolved"))
             \/ r = Returned (Some resolved_long_s)
             \/ r = Returned (Some unresolved_long_s)
             \/ ((retry_delay < 0)%Z
                 /\ r = Thrown (lit "sleep length must be non-negative"))).
  { intros t attempts' IH. cbv zeta in *.
    destruct (time_sleep_cases retry_delay) as [->|[Hn ->]].
    - destruct (loop attempts'); exact IH.
    - do 5 right. split; [exact Hn|reflexivity]. }
  induction attempts as [|a attempts IH]; [left; reflexivity|].
  simpl. unfold attempt_body.
  destruct (service a) as [content| |e|e].
  - destruct (Re.match_label (strip content)) eqn:M.
    + simpl. destruct (accepted_then_capitalized content M) as [E|[E|[E|E]]];
        rewrite E; auto 10.
    + fold loop. destruct (loop attempts); exact IH.
  - fold loop. apply S. exact IH.
  - fold loop. apply S. exact IH.
  - destruct (a <? max_retries - 1)%Z.
    + fold loop. apply S. exact IH.
    + left; reflexivity.
Qed.

Lemma classify_comment_domain :
  let r := fst (classify_comment service order_id comment max_retries retry_delay) in
  r = Returned None
  \/ r = Returned (Some (lit "Resolved"))
  \/ r = Returned (Some (lit "Unresolved"))
  \/ r = Returned (Some resolved_long_s)
  \/ r = Returned (Some unresolved_long_s)
  \/ ((retry_delay < 0)%Z
      /\ r = Thrown (lit "sleep length must be non-negative")).
Proof. apply for_attempts_domain. Qed.

(** With a delay that is not negative the function returns. *)
Lemma classify_comment_returns :
  (0 <= retry_delay)%Z ->
  exists r,
    fst (classify_comment service order_id comment max_retries retry_delay)
    = Returned r.
Proof.
  intros H.
  destruct classify_comment_domain as [E|[E|[E|[E|[E|[N _]]]]]];
    try (eexists; exact E). lia.
Qed.

(** A returned string is never empty, so its Python truth is the test
    [is not None]. *)
Lemma classify_comment_truthy (r : option pystr) :
  fst (classify_comment service order_id comment max_retries retry_delay)
  = Returned r ->
  Main.truthy r = match r with Some _ => true | None => false end.
Proof.
  intros H; destruct classify_comment_domain as [E|[E|[E|[E|[E|[_ E]]]]]];
    cbv zeta in E; rewrite H in E; try discriminate E;
    injection E as ->; reflexivity.
Qed.

(** The first half of the validation contract: a label in any casing, with
    whitespace around it, returned at the first attempt. *)
Lemma classify_comment_canonical (content label : pystr) :
  (0 < max_retries)%Z ->
  service 0%Z = Completion content ->
  In label Re.labels ->
  same_word_any_casing (strip content) label ->
  classify_comment service order_id comment max_retries retry_delay
  = (Returned (Some label), [ApiCall 0 (prompt order_id comment)]).
Proof.
  intros Hm Hs Hl Hw. unfold classify_comment, range.
  destruct (Z.to_nat max_retries) as [|n] eqn:E; [lia|].
  simpl. unfold attempt_body. rewrite Hs.
  destruct (any_casing_accepted _ _ Hl Hw) as [-> ->]. reflexivity.
Qed.

End ClassifierFacts.

(** One pass through the loop body, case by case. *)
Ltac attempt_cases service a max_retries retry_delay :=
  unfold attempt_body;
  destruct (service a) as [?content| |?e|?e];
  [ destruct (Re.match_label (strip content))
  | destruct (time_sleep_cases retry_delay) as [->|[? ->]]
  | destruct (time_sleep_cases retry_delay) as [->|[? ->]]
  | destruct (a <? max_retries - 1)%Z;
    [destruct (time_sleep_cases retry_delay) as [->|[? ->]]|] ].

(** *** Invalid responses *)

Lemma for_attempts_rejected service order_id comment max_retries retry_delay
  (attempts : list Z) :
  (forall a, In a attempts -> invalid_response (service a)) ->
  for_attempts service order_id comment max_retries retry_delay attempts
  = (Returned None,
     flat_map (rejected_attempt service order_id comment) attempts
       ++ [Log (FailedToClassify max_retries)]).
Proof.
  induction attempts as [|a attempts IH]; intros H; [reflexivity|].
  simpl. unfold attempt_body, rejected_attempt at 1.
  destruct (H a (or_introl eq_refl)) as (content & -> & ->).
  rewrite IH by (intros; apply H; right; assumption). reflexivity.
Qed.

Lemma rejected_attempts_calls service order_id comment (attempts : list Z) :
  call_count (flat_map (rejected_attempt service order_id comment) attempts)
  = List.length attempts
  /\ filter is_sleep (flat_map (rejected_attempt service order_id comment) attempts)
     = [].
Proof.
  unfold call_count; induction attempts as [|a attempts [IH1 IH2]];
    [split; reflexivity|].
  simpl; split; [f_equal; exact IH1|exact IH2].
Qed.

Lemma in_range_bounds (n a : Z) : In a (range n) -> (0 <= a < n)%Z.
Proof.
  unfold range; intros H. apply in_map_iff in H as (j & <- & Hj).
  apply in_seq in Hj. lia.
Qed.

(** C2, as the code has it: when every response fails the two-label
    grammar, each attempt issues one request and logs one warning, no
    attempt waits, the loop ends with the terminal error record, the
    function returns [None], and the number of requests is [max_retries]
    (none when [max_retries] is not positive). *)
Theorem invalid_responses_exhaust_attempts
  service order_id comment max_retries retry_delay :
  (forall a, (0 <= a < max_retries)%Z -> invalid_response (service a)) ->
  let run := classify_comment service order_id comment max_retries retry_delay in
  fst run = Returned None
  /\ snd run = flat_map (rejected_attempt service order_id comment)
                 (range max_retries)
               ++ [Log (FailedToClassify max_retries)]
  /\ call_count (snd run) = Z.to_nat max_retries
  /\ filter is_sleep (snd run) = [].
Proof.
  intros H run; unfold run, classify_comment.
  rewrite for_attempts_rejected
    by (intros a Ha; apply H; exact (in_range_bounds _ _ Ha)).
  destruct (rejected_attempts_calls service order_id comment (range max_retries))
    as [C S].
  simpl; repeat split.
  - unfold call_count in *. rewrite filter_app, length_app, C. simpl.
    unfold range. rewrite length_map, length_seq. lia.
  - rewrite filter_app, S. reflexivity.
Qed.

Lemma invalid_responses_exhaust_attempts_witness :
  let service := always (Completion (lit "Invalid response")) in
  (forall a, (0 <= a < 3)%Z -> invalid_response (service a))
  /\ fst (classify_comment service (lit "order789") (lit "Some comment.") 3 5)
     = Returned None
  /\ call_count
       (snd (classify_comment service (lit "order789") (lit "Some comment.") 3 5))
     = 3%nat.
Proof.
  intros service.
  assert (H : forall a, (0 <= a < 3)%Z -> invalid_response (service a)).
  { intros a _. exists (lit "Invalid response"). split; reflexivity. }
  split; [exact H|].
  destruct (invalid_responses_exhaust_attempts service (lit "order789")
              (lit "Some comment.") 3 5 H) as (R & _ & C & _).
  split; [exact R|exact C].
Defined.

(** C2 as stated fails: three rejected responses give three requests and
    not a single wait. *)
Lemma invalid_responses_do_not_wait :
  let run := classify_comment (always (Completion (lit "Invalid response")))
               (lit "order789") (lit "Some comment.") 3 5 in
  fst run = Returned None /\ call_count (snd run) = 3%nat
  /\ filter is_sleep (snd run) = []
  /\ ~ In (Sleep 5) (snd run).
Proof.
  vm_compute. repeat split.
  intros H. repeat (destruct H as [H|H]; [discriminate H|]). exact H.
Qed.

(** *** Exceptions outside the two retried classes *)





(** *** The long s

    [re.IGNORECASE] on a [str] pattern folds case by the Unicode tables, in
    which the long s (U+017F) is a lower-case form of S; [capitalize] then
    leaves it as it is. *)

(** C1, at the response "  unreſolved\n": the text is not a casing of either
    label, yet the validation accepts it and the function returns it,
    capitalized, at the first attempt. *)
Theorem long_s_response_is_accepted :
  let run := classify_comment (always (Completion padded_long_s))
               (lit "order456") (lit "Still pending.")
               default_max_retries default_retry_delay in
  Re.match_label (strip padded_long_s) = true
  /\ ~ same_word_any_casing (strip padded_long_s) (lit "Resolved")
  /\ ~ same_word_any_casing (strip padded_long_s) (lit "Unresolved")
  /\ run = (Returned (Some unresolved_long_s),
            [ApiCall 0 (prompt (lit "order456") (lit "Still pending."))])
  /\ unresolved_long_s <> lit "Unresolved".
Proof.
  repeat split; try reflexivity; intros H; vm_compute in H; discriminate H.
Qed.

(** C10, at the response "Reſolved": the value returned is a fourth one. *)
Theorem classify_comment_returns_a_fourth_value :
  let r := fst (classify_comment (always (Completion resolved_long_s))
                  (lit "order123") (lit "Issue resolved.")
                  default_max_retries default_retry_delay) in
  r = Returned (Some resolved_long_s)
  /\ r <> Returned (Some (lit "Resolved"))
  /\ r <> Returned (Some (lit "Unresolved"))
  /\ r <> Returned None.
Proof.
  repeat split; try reflexivity; intros H; vm_compute in H; discriminate H.
Qed.

(** ** The dispatcher *)

Lemma startswith_nil (s : pystr) : startswith s [] = true.
Proof. destruct s; reflexivity. Qed.

Lemma startswith_app (p t : pystr) : startswith (p ++ t) p = true.
Proof.
  induction p as [|c p IH]; simpl; [apply startswith_nil|].
  rewrite N.eqb_refl; exact IH.
Qed.

Lemma endswith_app (a b : pystr) : endswith (a ++ b) b = true.
Proof. unfold endswith; rewrite rev_app_distr; apply startswith_app. Qed.

Lemma file_name_relative (order_id suffix : pystr) :
  startswith order_id PosixPath.sep = false ->
  startswith suffix PosixPath.sep = false ->
  startswith (order_id ++ suffix) PosixPath.sep = false.
Proof.
  destruct order_id as [|c s]; simpl; auto.
  rewrite !startswith_nil; auto.
Qed.

(** [join] puts one separator between a folder name and a file name unless
    the file name is absolute, or the folder name is empty or already ends
    with a separator. *)
Lemma join_plain (a b : pystr) :
  startswith b PosixPath.sep = false ->
  a <> [] -> endswith a PosixPath.sep = false ->
  PosixPath.join a b = a ++ lit "/" ++ b.
Proof.
  intros Hb Ha He; unfold PosixPath.join. rewrite Hb.
  destruct a as [|c a]; [contradiction|]. rewrite He. reflexivity.
Qed.

(** Whatever the folder, the joined path ends with the file name. *)
Lemma join_endswith (a b : pystr) : endswith (PosixPath.join a b) b = true.
Proof.
  unfold PosixPath.join.
  destruct (startswith b PosixPath.sep); [exact (endswith_app [] b)|].
  destruct (match a with [] => true | _ :: _ => endswith a PosixPath.sep end).
  - apply endswith_app.
  - rewrite app_assoc; apply endswith_app.
Qed.

Lemma pystr_eqb_eq (a b : pystr) : pystr_eqb a b = true <-> a = b.
Proof.
  unfold pystr_eqb; destruct (list_eq_dec N.eq_dec a b) as [E|E]; split;
    intros H; auto; try discriminate H; contradiction.
Qed.

Lemma eq_str_false (x : option pystr) (s : pystr) :
  x <> Some s -> eq_str x s = false.
Proof.
  intros H; destruct x as [v|]; [|reflexivity]; simpl.
  destruct (pystr_eqb v s) eqn:E; [|reflexivity].
  apply pystr_eqb_eq in E; subst; contradiction.
Qed.

(** The dispatcher where C4 holds.  For an order id that does not begin
    with a separator, destination folders that are not empty and do not end
    with one, and scratch files that can be written: the resolved outcome
    writes the scratch file [join scratch_dir "{order_id}_resolved.txt"],
    whose text shows the order id, the comment and the status, and then
    uploads it to [resolved_dest/{order_id}_resolved.txt]; the unresolved
    outcome does the same with [_unresolved.txt], the unresolved folder and
    the manual-review note. *)
Theorem dispatch_writes_then_uploads
  (open_error : pystr -> option pystr)
  (order_id comment resolved_dest unresolved_dest scratch_dir : pystr) :
  startswith order_id PosixPath.sep = false ->
  resolved_dest <> [] -> endswith resolved_dest PosixPath.sep = false ->
  unresolved_dest <> [] -> endswith unresolved_dest PosixPath.sep = false ->
  open_error (PosixPath.join scratch_dir (order_id ++ lit "_resolved.txt")) = None ->
  open_error (PosixPath.join scratch_dir (order_id ++ lit "_unresolved.txt")) = None ->
  (exists local_path content,
      ResolutionActions.handle_resolution open_error order_id
        (Some (lit "Resolved")) comment resolved_dest unresolved_dest scratch_dir
      = (Ok tt,
         [ FileWrite local_path content;
           Progress (1 # 2) StartingUpload;
           Upload local_path
             (resolved_dest ++ lit "/" ++ order_id ++ lit "_resolved.txt");
           Progress 1 FinishingUpload ])
      /\ local_path = PosixPath.join scratch_dir (order_id ++ lit "_resolved.txt")
      /\ endswith local_path (order_id ++ lit "_resolved.txt") = true
      /\ contains (lit "Order ID: " ++ order_id) content
      /\ contains (lit "Comment: " ++ comment) content
      /\ contains (lit "Status: Resolved") content)
  /\ (exists local_path content,
      ResolutionActions.handle_resolution open_error order_id
        (Some (lit "Unresolved")) comment resolved_dest unresolved_dest
        scratch_dir
      = (Ok tt,
         [ FileWrite local_path content;
           Progress (1 # 2) StartingUpload;
           Upload local_path
             (unresolved_dest ++ lit "/" ++ order_id ++ lit "_unresolved.txt");
           Progress 1 FinishingUpload ])
      /\ local_path = PosixPath.join scratch_dir (order_id ++ lit "_unresolved.txt")
      /\ endswith local_path (order_id ++ lit "_unresolved.txt") = true
      /\ contains (lit "Order ID: " ++ order_id) content
      /\ contains (lit "Comment: " ++ comment) content
      /\ contains (lit "Status: Unresolved") content
      /\ contains (lit "Next Steps: Manual review required.") content).
Proof.
  intros Ho Hr Hre Hu Hue Wr Wu; split.
  - exists (PosixPath.join scratch_dir (order_id ++ lit "_resolved.txt")),
           (ResolutionActions.resolved_text order_id comment).
    split; [|split; [reflexivity|split; [apply join_endswith|]]].
    + unfold ResolutionActions.handle_resolution.
      change (eq_str (Some (lit "Resolved")) (lit "Resolved")) with true.
      cbv iota zeta. rewrite Wr. rewrite (join_plain resolved_dest) by
        (auto using file_name_relative). reflexivity.
    + unfold ResolutionActions.resolved_text, ResolutionActions.nl.
      split; [|split].
      * exists [], ([10%N] ++ lit "Comment: " ++ comment ++ [10%N]
                     ++ lit "Status: Resolved").
        rewrite <- !app_assoc. reflexivity.
      * exists (lit "Order ID: " ++ order_id ++ [10%N]),
               ([10%N] ++ lit "Status: Resolved").
        rewrite <- !app_assoc. reflexivity.
      * exists (lit "Order ID: " ++ order_id ++ [10%N] ++ lit "Comment: "
                  ++ comment ++ [10%N]), [].
        rewrite app_nil_r, <- !app_assoc. reflexivity.
  - exists (PosixPath.join scratch_dir (order_id ++ lit "_unresolved.txt")),
           (ResolutionActions.generate_unresolved_summary order_id comment).
    split; [|split; [reflexivity|split; [apply join_endswith|]]].
    + unfold ResolutionActions.handle_resolution.
      change (eq_str (Some (lit "Unresolved")) (lit "Resolved")) with false.
      change (eq_str (Some (lit "Unresolved")) (lit "Unresolved")) with true.
      cbv iota zeta. rewrite Wu. rewrite (join_plain unresolved_dest) by
        (auto using file_name_relative). reflexivity.
    + unfold ResolutionActions.generate_unresolved_summary, ResolutionActions.nl.
      split; [|split; [|split]].
      * exists [], ([10%N] ++ lit "Comment: " ++ comment ++ [10%N]
                     ++ lit "Status: Unresolved" ++ [10%N]
                     ++ lit "Next Steps: Manual review required.").
        rewrite <- !app_assoc. reflexivity.
      * exists (lit "Order ID: " ++ order_id ++ [10%N]),
               ([10%N] ++ lit "Status: Unresolved" ++ [10%N]
                  ++ lit "Next Steps: Manual review required.").
        rewrite <- !app_assoc. reflexivity.
      * exists (lit "Order ID: " ++ order_id ++ [10%N] ++ lit "Comment: "
                  ++ comment ++ [10%N]),
               ([10%N] ++ lit "Next Steps: Manual review required.").
        rewrite <- !app_assoc. reflexivity.
      * exists (lit "Order ID: " ++ order_id ++ [10%N] ++ lit "Comment: "
                  ++ comment ++ [10%N] ++ lit "Status: Unresolved" ++ [10%N]), [].
        rewrite app_nil_r, <- !app_assoc. reflexivity.
Qed.

Lemma dispatch_writes_then_uploads_witness :
  startswith (lit "order123") PosixPath.sep = false
  /\ exists content,
       ResolutionActions.handle_resolution opens (lit "order123")
         (Some (lit "Resolved")) (lit "Issue fixed.") (lit "resolved_folder")
         (lit "unresolved_folder") (lit "tmp")
       = (Ok tt,
          [ FileWrite (lit "tmp/order123_resolved.txt") content;
            Progress (1 # 2) StartingUpload;
            Upload (lit "tmp/order123_resolved.txt")
              (lit "resolved_folder/order123_resolved.txt");
            Progress 1 FinishingUpload ])
       /\ contains (lit "Order ID: order123") content
       /\ contains (lit "Comment: Issue fixed.") content
       /\ contains (lit "Status: Resolved") content.
Proof.
  split; [reflexivity|].
  destruct (dispatch_writes_then_uploads opens (lit "order123")
              (lit "Issue fixed.")
              (lit "resolved_folder") (lit "unresolved_folder") (lit "tmp")
              eq_refl ltac:(discriminate) eq_refl ltac:(discriminate) eq_refl
              eq_refl eq_refl)
    as [(local_path & content & E & -> & _ & C1 & C2 & C3) _].
  exists content. split; [exact E|]. split; [exact C1|]. split; [exact C2|exact C3].
Defined.

(** C4, at two order ids the code can receive.  For the order id [/7] the
    joined paths drop both folders: the scratch file is written to
    [/7_resolved.txt], outside the scratch directory, and the object is
    uploaded under [/7_resolved.txt], outside the folder for resolved
    cases.  For the order id [2024/001], in a scratch directory without
    subdirectories, opening the scratch file raises: the dispatcher writes
    nothing, uploads nothing and does not return. *)
Theorem absolute_order_id_drops_the_folder :
  ResolutionActions.handle_resolution opens (lit "/7") (Some (lit "Resolved"))
    (lit "Issue fixed.") (lit "resolved_folder") (lit "unresolved_folder")
    (lit "tmp")
  = (Ok tt,
     [ FileWrite (lit "/7_resolved.txt")
         (lit "Order ID: /7" ++ [10%N] ++ lit "Comment: Issue fixed."
            ++ [10%N] ++ lit "Status: Resolved");
       Progress (1 # 2) StartingUpload;
       Upload (lit "/7_resolved.txt") (lit "/7_resolved.txt");
       Progress 1 FinishingUpload ])
  /\ lit "/7_resolved.txt" <> lit "resolved_folder" ++ lit "/" ++ lit "/7_resolved.txt"
  /\ startswith (lit "/7_resolved.txt") (lit "tmp") = false
  /\ ResolutionActions.handle_resolution flat_directory (lit "2024/001")
       (Some (lit "Resolved")) (lit "Refund sent.") (lit "resolved_folder")
       (lit "unresolved_folder") (lit "tmp")
     = (Raise (OSError
                 (lit "[Errno 2] No such file or directory: 'tmp/2024/001_resolved.txt'")),
        []).
Proof. repeat split; try reflexivity. discriminate. Qed.

(** C5: an outcome that is neither label, [None] included, makes the
    dispatcher log one error record that names the value and the order id;
    nothing is written, nothing is uploaded, no progress is reported, and
    the call returns whatever the file system would do: the branch runs no
    operation that can raise. *)
Theorem invalid_outcome_is_logged_only
  (open_error : pystr -> option pystr)
  (order_id : pystr) (classification : option pystr)
  (comment resolved_dest unresolved_dest scratch_dir : pystr) :
  classification <> Some (lit "Resolved") ->
  classification <> Some (lit "Unresolved") ->
  let run := ResolutionActions.handle_resolution open_error order_id
               classification comment resolved_dest unresolved_dest
               scratch_dir in
  let record := InvalidClassification classification order_id in
  run = (Ok tt, [Log record])
  /\ filter is_artifact (snd run) = []
  /\ levelname record = ERROR
  /\ message record
     = lit "Invalid classification: " ++ str_opt classification
         ++ lit " for order " ++ order_id.
Proof.
  intros H1 H2 run record; unfold run, ResolutionActions.handle_resolution.
  rewrite (eq_str_false _ _ H1), (eq_str_false _ _ H2).
  repeat split.
Qed.

Lemma invalid_outcome_is_logged_only_witness :
  ResolutionActions.handle_resolution flat_directory (lit "order789")
    (Some (lit "Invalid"))
    (lit "Some comment.") (lit "resolved") (lit "unresolved") (lit "tmp")
  = (Ok tt, [Log (InvalidClassification (Some (lit "Invalid")) (lit "order789"))])
  /\ ResolutionActions.handle_resolution flat_directory (lit "order789") None
       (lit "Some comment.") (lit "resolved") (lit "unresolved") (lit "tmp")
     = (Ok tt, [Log (InvalidClassification None (lit "order789"))]).
Proof.
  split.
  - exact (proj1 (invalid_outcome_is_logged_only flat_directory (lit "order789")
                    (Some (lit "Invalid")) (lit "Some comment.") (lit "resolved")
                    (lit "unresolved") (lit "tmp")
                    ltac:(discriminate) ltac:(discriminate))).
  - exact (proj1 (invalid_outcome_is_logged_only flat_directory (lit "order789")
                    None
                    (lit "Some comment.") (lit "resolved") (lit "unresolved")
                    (lit "tmp") ltac:(discriminate) ltac:(discriminate))).
Defined.

(** ** The pattern stage *)

(** C7: on a table with no rows or no columns, and on a table whose rows
    all miss their comment, [identify_patterns] returns the empty table and
    neither the encoder nor the clustering is used. *)
Theorem identify_patterns_returns_early
  (vec : Type) (encode : list cell -> list vec)
  (fit_predict : Z -> list vec -> result (list Z))
  (df : DataFrame) (n_clusters : Z) :
  empty df = true \/ dropna (lit "comment") df = Ok [] ->
  let run := ResolutionActions.identify_patterns vec encode fit_predict
               df n_clusters in
  fst run = Ok [] /\ filter is_model_use (snd run) = [].
Proof.
  intros H run; unfold run, ResolutionActions.identify_patterns.
  destruct (empty df) eqn:E; [split; reflexivity|].
  destruct H as [H|H]; [discriminate H|].
  rewrite H. split; reflexivity.
Qed.

Lemma identify_patterns_returns_early_witness :
  empty [] = true
  /\ dropna (lit "comment") all_missing = Ok []
  /\ fst (ResolutionActions.identify_patterns unit toy_encode toy_fit_predict
            [] 3) = Ok []
  /\ (let run := ResolutionActions.identify_patterns unit toy_encode
                   toy_fit_predict all_missing 3 in
      fst run = Ok [] /\ filter is_model_use (snd run) = []).
Proof.
  split; [reflexivity|]. split; [reflexivity|]. split.
  - exact (proj1 (identify_patterns_returns_early unit toy_encode toy_fit_predict
                    [] 3 (or_introl eq_refl))).
  - exact (identify_patterns_returns_early unit toy_encode toy_fit_predict
             all_missing 3 (or_intror eq_refl)).
Defined.

Lemma row_get_set_same (c : pystr) (v : cell) (r : row) :
  row_get c (row_set c v r) = Some v.
Proof.
  induction r as [|[k x] r IH]; simpl.
  - rewrite (proj2 (pystr_eqb_eq c c) eq_refl). reflexivity.
  - destruct (pystr_eqb k c) eqn:E; simpl; rewrite E; [reflexivity|exact IH].
Qed.

Lemma row_get_set_other (c c' : pystr) (v : cell) (r : row) :
  c' <> c -> row_get c' (row_set c v r) = row_get c' r.
Proof.
  intros H; induction r as [|[k x] r IH]; simpl.
  - destruct (pystr_eqb c c') eqn:E; [|reflexivity].
    apply pystr_eqb_eq in E; subst; contradiction.
  - destruct (pystr_eqb k c) eqn:E; simpl.
    + apply pystr_eqb_eq in E; subst k.
      destruct (pystr_eqb c c') eqn:E'; [|reflexivity].
      apply pystr_eqb_eq in E'; subst; contradiction.
    + rewrite IH. reflexivity.
Qed.

(** Column assignment row by row: the assigned column holds the new
    values, every other column keeps its own. *)
Lemma zip_set_columns (c : pystr) (values : list cell) (df : DataFrame) :
  List.length values = List.length df ->
  map (row_get c) (zip_set c values df) = map Some values
  /\ Forall2 (fun r o => forall c', c' <> c -> row_get c' o = row_get c' r)
       df (zip_set c values df).
Proof.
  revert df; induction values as [|v values IH]; intros [|r df] H;
    try discriminate H; simpl.
  - split; [reflexivity|constructor].
  - injection H as H. destruct (IH df H) as [IH1 IH2]. split.
    + rewrite row_get_set_same, IH1. reflexivity.
    + constructor; [|exact IH2].
      intros c' Hc. apply row_get_set_other; exact Hc.
Qed.

Lemma has_column_not_empty (c : pystr) (df : DataFrame) :
  has_column c df = true -> df <> [] -> empty df = false.
Proof.
  destruct df as [|r df]; [contradiction|]. simpl.
  destruct r as [|kv r]; [discriminate|reflexivity].
Qed.

Lemma present_has_column (c : pystr) (df : DataFrame) :
  has_column c (filter (present c) df) = true.
Proof.
  induction df as [|r df IH]; [reflexivity|]. simpl.
  destruct (present c r) eqn:P; [|exact IH]. simpl. rewrite IH.
  unfold present in P. destruct (row_get c r); [reflexivity|discriminate P].
Qed.

Lemma tolist_length (c : pystr) (df : DataFrame) :
  List.length (tolist c df) = List.length df.
Proof. apply length_map. Qed.

(** C8, as the code has it.  Given the contracts of the two library models,
    a table with a [comment] column and [1 <= n_clusters <=] the number of
    rows whose comment is present: the output has one row for each such
    input row, in the input order; its [cluster] column holds one label per
    row, each in [[0, n_clusters)]; every other column of every row keeps
    its value (a [cluster] column of the input is overwritten). *)
Theorem identify_patterns_labels_present_rows
  (vec : Type) (encode : list cell -> list vec)
  (fit_predict : Z -> list vec -> result (list Z))
  (df : DataFrame) (n_clusters : Z) :
  encoder_contract vec encode ->
  kmeans_contract vec fit_predict ->
  has_column (lit "comment") df = true ->
  let kept := filter (present (lit "comment")) df in
  (1 <= n_clusters <= Z.of_nat (List.length kept))%Z ->
  exists labels out,
    ResolutionActions.identify_patterns vec encode fit_predict df n_clusters
    = (Ok out, [ Encode (List.length kept);
                 KMeansFit n_clusters (List.length kept) ])
    /\ List.length out = List.length kept
    /\ List.length labels = List.length kept
    /\ Forall (fun l => 0 <= l < n_clusters)%Z labels
    /\ map (row_get (lit "cluster")) out = map (fun l => Some (CInt l)) labels
    /\ Forall2 (fun r o => forall c, c <> lit "cluster" ->
                                     row_get c o = row_get c r) kept out.
Proof.
  intros He Hk Hc kept Hn.
  remember kept as rows eqn:Er; unfold kept in Er; clear kept.
  rename rows into kept.
  assert (Nk : kept <> []) by (intros E; rewrite E in Hn; simpl in Hn; lia).
  assert (Nd : df <> []) by (intros E; apply Nk; rewrite Er, E; reflexivity).
  assert (Hemb : List.length (encode (tolist (lit "comment") kept))
                 = List.length kept) by (rewrite He; apply tolist_length).
  destruct (Hk n_clusters (encode (tolist (lit "comment") kept)))
    as (labels & Hfit & Hlen & Hrange); [rewrite Hemb; exact Hn|].
  rewrite Hemb in Hlen.
  exists labels, (zip_set (lit "cluster") (map CInt labels) kept).
  assert (Hv : List.length (map CInt labels) = List.length kept)
    by (rewrite length_map; exact Hlen).
  destruct (zip_set_columns (lit "cluster") (map CInt labels) kept Hv)
    as [Hcl Hother].
  split; [|split; [|split; [exact Hlen|split; [exact Hrange|split]]]].
  - unfold ResolutionActions.identify_patterns.
    rewrite (has_column_not_empty _ _ Hc Nd).
    unfold dropna. rewrite Hc, <- Er.
    assert (Hck : has_column (lit "comment") kept = true)
      by (rewrite Er; apply present_has_column).
    rewrite (has_column_not_empty _ _ Hck Nk).
    rewrite Hfit, tolist_length, Hemb. unfold setitem.
    rewrite Hv, Nat.eqb_refl. reflexivity.
  - apply Forall2_length in Hother. symmetry; exact Hother.
  - rewrite Hcl, map_map. reflexivity.
  - exact Hother.
Qed.

Lemma toy_encode_contract : encoder_contract unit toy_encode.
Proof. intros sentences; apply length_map. Qed.

Lemma toy_fit_predict_contract : kmeans_contract unit toy_fit_predict.
Proof.
  intros k X H; unfold toy_fit_predict.
  destruct (Z.leb_spec 1 k); [|lia].
  destruct (Z.leb_spec k (Z.of_nat (List.length X))); [|lia]. simpl.
  eexists; split; [reflexivity|]. split.
  - rewrite length_map, length_seq. reflexivity.
  - apply Forall_forall. intros l Hl.
    apply in_map_iff in Hl as (i & <- & _). apply Z.mod_pos_bound. lia.
Qed.

Lemma identify_patterns_labels_present_rows_witness :
  has_column (lit "comment") one_missing = true
  /\ (1 <= 2 <= Z.of_nat (List.length (filter (present (lit "comment")) one_missing)))%Z
  /\ exists labels out,
       ResolutionActions.identify_patterns unit toy_encode toy_fit_predict
         one_missing 2
       = (Ok out, [Encode 2; KMeansFit 2 2])
       /\ List.length out = 2%nat
       /\ List.length labels = 2%nat
       /\ Forall (fun l => 0 <= l < 2)%Z labels
       /\ map (row_get (lit "order_id")) out
          = [Some (CStr (lit "order1")); Some (CStr (lit "order3"))].
Proof.
  split; [reflexivity|]. split; [vm_compute; split; discriminate|].
  destruct (identify_patterns_labels_present_rows unit toy_encode
              toy_fit_predict one_missing 2 toy_encode_contract
              toy_fit_predict_contract eq_refl)
    as (labels & out & E & Lo & Ll & R & _ & _);
    [vm_compute; split; discriminate|].
  exists labels, out. split; [exact E|]. split; [exact Lo|].
  split; [exact Ll|]. split; [exact R|].
  vm_compute in E. injection E as <-. reflexivity.
Defined.

(** C8 as stated fails on a table that already has a column named
    [cluster]: the stage overwrites it. *)
Lemma existing_cluster_column_is_overwritten :
  has_column (lit "comment") already_clustered = true
  /\ map (row_get (lit "cluster")) already_clustered
     = [Some (CStr (lit "billing"))]
  /\ exists out,
       fst (ResolutionActions.identify_patterns unit toy_encode toy_fit_predict
              already_clustered 1) = Ok out
       /\ map (row_get (lit "cluster")) out = [Some (CInt 0)]
       /\ map (row_get (lit "cluster")) out
          <> map (row_get (lit "cluster")) already_clustered.
Proof.
  split; [reflexivity|]. split; [reflexivity|].
  eexists. split; [reflexivity|]. split; [reflexivity|discriminate].
Qed.

(** ** The orchestrator *)

Lemma for_attempts_no_artifact service order_id comment max_retries retry_delay
  (attempts : list Z) :
  filter is_artifact
    (snd (for_attempts service order_id comment max_retries retry_delay attempts))
  = [].
Proof.
  induction attempts as [|a attempts IH]; [reflexivity|].
  simpl. attempt_cases service a max_retries retry_delay;
    try destruct (for_attempts _ _ _ _ _ attempts); simpl in *;
    try reflexivity; exact IH.
Qed.

(** The orchestrator calls the classifier with its default delay, so the
    classification of a record always returns. *)
Lemma outcome_returns service index r :
  exists c, fst (outcome service index r) = Returned c.
Proof. apply classify_comment_returns. vm_compute. discriminate. Qed.

Lemma loop_body_spec open_error service config (total : Z) (index : nat)
  (r : Main.CommentRecord) :
  Main.loop_body open_error service config total index r
  = ((appended_of open_error service config index r,
      raised_of open_error service config index r),
     effects_of open_error service config total index r).
Proof.
  unfold Main.loop_body, appended_of, raised_of, rows_of, effects_of,
    dispatch_of.
  destruct (outcome_returns service index r) as [c C].
  pose proof (classify_comment_truthy _ _ _ _ _ c C) as T.
  unfold outcome in *.
  destruct (classify_comment (service index) (Main.transaction_id r)
              (Main.str_comment (Main.comments r)) default_max_retries
              default_retry_delay) as [x t].
  cbn [fst snd] in *. subst x. rewrite T. destruct c as [status|].
  - destruct (ResolutionActions.handle_resolution open_error
                (Main.transaction_id r) (Some status)
                (Main.str_comment (Main.comments r))
                (Main.gcs_resolved_folder config)
                (Main.gcs_unresolved_folder config)
                (Main.local_temp_dir config)) as [[u|e] t']; reflexivity.
  - cbn [fst snd]. rewrite app_nil_r. reflexivity.
Qed.

Lemma enumerate_cons (A : Type) (start : nat) (x : A) (l : list A) :
  enumerate start (x :: l) = (start, x) :: enumerate (S start) l.
Proof. reflexivity. Qed.

(** The loop handles the records up to the first whose dispatch raises,
    that one included for the effects. *)
Lemma iterrows_prefix open_error service config (total : Z)
  (rows : list Main.CommentRecord) :
  forall start,
    exists k,
      (k <= List.length rows)%nat
      /\ fst (fst (Main.iterrows open_error service config total start rows))
         = flat_map (fun ir => appended_of open_error service config
                                 (fst ir) (snd ir))
             (enumerate start (firstn k rows))
      /\ snd (Main.iterrows open_error service config total start rows)
         = flat_map (fun ir => effects_of open_error service config total
                                 (fst ir) (snd ir))
             (enumerate start (firstn k rows)).
Proof.
  induction rows as [|r rows IH]; intros start.
  - exists 0%nat. repeat split. apply Nat.le_refl.
  - simpl. rewrite loop_body_spec.
    destruct (raised_of open_error service config start r) as [e|].
    + exists 1%nat. cbn [firstn List.length]. rewrite enumerate_cons.
      cbn [fst snd flat_map enumerate List.length seq combine].
      rewrite !app_nil_r. repeat split. lia.
    + destruct (IH (S start)) as (k & Hk & Hr & Ht).
      destruct (Main.iterrows open_error service config total (S start) rows)
        as [[table raised] t]. cbn [fst snd] in *.
      exists (S k). cbn [firstn]. rewrite enumerate_cons.
      cbn [flat_map fst snd]. rewrite Hr, Ht. repeat split. lia.
Qed.

(** When every dispatch returns, the loop handles every record. *)
Lemma iterrows_spec open_error service config (total : Z)
  (rows : list Main.CommentRecord) :
  forall start,
    Forall (dispatch_returns open_error service config) (enumerate start rows) ->
    Main.iterrows open_error service config total start rows
    = ((flat_map (fun ir => rows_of service (fst ir) (snd ir))
          (enumerate start rows), None),
       flat_map (fun ir => effects_of open_error service config total
                             (fst ir) (snd ir))
         (enumerate start rows)).
Proof.
  induction rows as [|r rows IH]; intros start H; [reflexivity|].
  rewrite enumerate_cons in H. inversion H as [|? ? Hd Hrest]; subst.
  simpl. rewrite loop_body_spec.
  unfold raised_of, appended_of. unfold dispatch_returns in Hd.
  cbn [fst snd] in Hd. rewrite Hd.
  rewrite (IH (S start) Hrest). reflexivity.
Qed.

Lemma dispatch_artifacts_when_none open_error service config index r :
  fst (outcome service index r) = Returned None ->
  dispatch_of open_error service config index r = (Ok tt, []).
Proof. intros H; unfold dispatch_of. rewrite H. reflexivity. Qed.


(** When the run completes, the first table returned is the one the loop
    built, and the loop ended without an exception. *)
Lemma handle_resolution_returns_processed
  (vec : Type) (encode : list cell -> list vec)
  (fit_predict : Z -> list vec -> result (list Z))
  (open_error : pystr -> option pystr) (purge_error : option pystr)
  (service : nat -> Z -> api_result) (config : Main.Config)
  (comments_df : option (list Main.CommentRecord))
  (processed : DataFrame) (patterns : option DataFrame)
  (status : Main.status_message) :
  fst (Main.handle_resolution vec encode fit_predict open_error purge_error
         service config comments_df)
  = (Some processed, patterns, status) ->
  exists rows,
    comments_df = Some rows
    /\ fst (Main.processed_data_df open_error service config rows)
       = (processed, None)
    /\ status = Main.Complete.
Proof.
  unfold Main.handle_resolution, Main.failed.
  destruct comments_df as [[|r rows]|]; try discriminate.
  destruct (Main.processed_data_df open_error service config (r :: rows))
    as [[[|p ps] [e|]] t] eqn:P; try discriminate.
  destruct (ResolutionActions.identify_patterns vec encode fit_predict
              (filter Main.is_resolved (p :: ps)) (Main.num_clusters config))
    as [[out|e] t']; [|discriminate].
  destruct purge_error; [discriminate|].
  simpl. intros E; injection E as <- _ <-. exists (r :: rows).
  split; [reflexivity|]. split; [rewrite P; reflexivity|reflexivity].
Qed.


(** C3, as the code has it.  When every dispatch returns, the loop builds,
    in the order of the records, one row [{order_id, comment, status}] for
    each record whose outcome is a string and no row for the others; the
    dispatcher is called for the same records only, so a record whose
    outcome is [None] leaves no artifact.  That table is the one the run
    returns when it holds a row and neither the pattern stage nor the purge
    raises, and no run returns any other table. *)
Theorem processed_rows_follow_classification
  (vec : Type) (encode : list cell -> list vec)
  (fit_predict : Z -> list vec -> result (list Z))
  (open_error : pystr -> option pystr) (purge_error : option pystr)
  (service : nat -> Z -> api_result) (config : Main.Config)
  (comments_df : list Main.CommentRecord) :
  let total := Z.of_nat (List.length comments_df) in
  let table := flat_map (fun ir => rows_of service (fst ir) (snd ir))
                 (enumerate 0 comments_df) in
  let run := Main.handle_resolution vec encode fit_predict open_error
               purge_error service config (Some comments_df) in
  Forall (dispatch_returns open_error service config) (enumerate 0 comments_df) ->
  Main.processed_data_df open_error service config comments_df
  = ((table, None),
     flat_map (fun ir => effects_of open_error service config total
                           (fst ir) (snd ir))
       (enumerate 0 comments_df))
  /\ (forall index r,
        fst (outcome service index r) = Returned None ->
        rows_of service index r = []
        /\ filter is_artifact
             (effects_of open_error service config total index r) = [])
  /\ (forall index r,
        filter is_artifact (effects_of open_error service config total index r)
        = filter is_artifact
            (snd (dispatch_of open_error service config index r)))
  /\ (forall patterns t,
        table <> [] ->
        purge_error = None ->
        ResolutionActions.identify_patterns vec encode fit_predict
          (filter Main.is_resolved table) (Main.num_clusters config)
        = (Ok patterns, t) ->
        fst run = (Some table, Some patterns, Main.Complete))
  /\ (forall processed patterns status,
        fst run = (Some processed, patterns, status) -> processed = table).
Proof.
  intros total table run H.
  assert (L : Main.processed_data_df open_error service config comments_df
              = ((table, None),
                 flat_map (fun ir => effects_of open_error service config total
                                       (fst ir) (snd ir))
                   (enumerate 0 comments_df))).
  { unfold Main.processed_data_df. rewrite iterrows_spec by exact H.
    reflexivity. }
  assert (A : forall index r,
             filter is_artifact
               (effects_of open_error service config total index r)
             = filter is_artifact
                 (snd (dispatch_of open_error service config index r))).
  { intros index r; unfold effects_of. simpl.
    rewrite filter_app. unfold outcome, classify_comment.
    rewrite for_attempts_no_artifact. reflexivity. }
  split; [exact L|]. split; [|split; [exact A|split]].
  - intros index r N. split; [unfold rows_of; rewrite N; reflexivity|].
    rewrite A, (dispatch_artifacts_when_none _ _ _ _ _ N). reflexivity.
  - intros patterns t Hne Hp Hi. unfold run, Main.handle_resolution.
    destruct comments_df as [|r rows]; [exfalso; apply Hne; reflexivity|].
    rewrite L. destruct table as [|p ps]; [contradiction|].
    rewrite Hi, Hp. reflexivity.
  - intros processed patterns status E.
    destruct (handle_resolution_returns_processed _ _ _ _ _ _ _ _ _ _ _ E)
      as (rows & R & P & _).
    injection R as <-. rewrite L in P. injection P as <-. reflexivity.
Qed.

Lemma processed_rows_follow_classification_witness :
  Forall (dispatch_returns opens second_fails Main.default_config)
    (enumerate 0 three_records)
  /\ fst (Main.handle_resolution unit toy_encode toy_fit_predict opens None
            second_fails Main.default_config (Some three_records))
     = (Some [ Main.processed_row (lit "order1") (Some (lit "Issue fixed."))
                 (lit "Unresolved");
               Main.processed_row (lit "order3") (Some (lit "Closed."))
                 (lit "Unresolved") ],
        Some [], Main.Complete).
Proof.
  assert (H : Forall (dispatch_returns opens second_fails Main.default_config)
                (enumerate 0 three_records))
    by (repeat constructor).
  split; [exact H|].
  destruct (processed_rows_follow_classification unit toy_encode
              toy_fit_predict opens None second_fails Main.default_config
              three_records H) as (_ & _ & _ & C & _).
  apply (C [] [Log NoResolvedComments]).
  - discriminate.
  - reflexivity.
  - reflexivity.
Defined.

(** C3 as stated fails when a dispatch raises.  The second record is
    classified Resolved, but its order id holds a separator and its scratch
    file cannot be opened: the loop ends there, the rows of the first
    record is all it has built, and the run returns no table. *)
Lemma failed_dispatch_leaves_no_table :
  let run := Main.handle_resolution unit toy_encode toy_fit_predict
               flat_directory None all_resolved Main.default_config
               (Some dated_records) in
  let loop := Main.processed_data_df flat_directory all_resolved
                Main.default_config dated_records in
  Forall (fun ir => fst (outcome all_resolved (fst ir) (snd ir))
                    = Returned (Some (lit "Resolved")))
    (enumerate 0 dated_records)
  /\ fst loop
     = ([ Main.processed_row (lit "order1") (Some (lit "Issue fixed."))
            (lit "Resolved") ],
        Some (OSError (lit "[Errno 2] No such file or directory: 'temp/2024/001_resolved.txt'")))
  /\ fst run
     = (None, None,
        Main.Failed
          (OSError (lit "[Errno 2] No such file or directory: 'temp/2024/001_resolved.txt'"))).
Proof.
  split; [repeat constructor|]. split; reflexivity.
Qed.

Example second_record_skipped :
  let run := Main.processed_data_df opens second_fails Main.default_config
               three_records in
  fst run
  = ([ Main.processed_row (lit "order1") (Some (lit "Issue fixed."))
         (lit "Unresolved");
       Main.processed_row (lit "order3") (Some (lit "Closed."))
         (lit "Unresolved") ], None)
  /\ filter is_artifact (snd run)
     = [ FileWrite (lit "temp/order1_unresolved.txt")
           (ResolutionActions.generate_unresolved_summary (lit "order1")
              (lit "Issue fixed."));
         Upload (lit "temp/order1_unresolved.txt")
           (lit "processed/unresolved/order1_unresolved.txt");
         FileWrite (lit "temp/order3_unresolved.txt")
           (ResolutionActions.generate_unresolved_summary (lit "order3")
              (lit "Closed."));
         Upload (lit "temp/order3_unresolved.txt")
           (lit "processed/unresolved/order3_unresolved.txt") ].
Proof. split; reflexivity. Qed.

(** *** Progress reports *)

















(** *** The value returned by a whole run *)

(** A run in which no record is classified ends in the [except] clause:
    the empty table has no [status] column. *)
Example nothing_classified :
  fst (Main.handle_resolution unit toy_encode toy_fit_predict opens None
         (fun _ => always (Completion (lit "Not sure"))) Main.default_config
         (Some three_records))
  = (None, None, Main.Failed (KeyError (lit "status"))).
Proof. reflexivity. Qed.

(** * Further properties *)

(** ** The classifier: budget, first answer, provenance *)

Lemma attempt_body_one_call service order_id comment max_retries retry_delay a :
  let t := snd (attempt_body service order_id comment max_retries retry_delay a) in
  call_count t = 1%nat
  /\ (List.length (sleeps t) <= 1)%nat
  /\ Forall (fun d => d = retry_delay) (sleeps t).
Proof.
  attempt_cases service a max_retries retry_delay;
    simpl; repeat split; auto.
Qed.

Lemma call_count_app (t t' : trace) :
  call_count (t ++ t') = (call_count t + call_count t')%nat.
Proof. unfold call_count; rewrite filter_app, length_app; reflexivity. Qed.

Lemma sleeps_app (t t' : trace) : sleeps (t ++ t') = sleeps t ++ sleeps t'.
Proof. apply flat_map_app. Qed.

Lemma for_attempts_budget service order_id comment max_retries retry_delay
  (attempts : list Z) :
  let t := snd (for_attempts service order_id comment max_retries retry_delay
                  attempts) in
  (call_count t <= List.length attempts)%nat
  /\ (List.length (sleeps t) <= call_count t)%nat
  /\ Forall (fun d => d = retry_delay) (sleeps t).
Proof.
  induction attempts as [|a attempts IH]; simpl.
  - repeat split; auto.
  - destruct (attempt_body_one_call service order_id comment max_retries
                retry_delay a) as (C & S & F).
    destruct (attempt_body service order_id comment max_retries retry_delay a)
      as [[r| |e] t]; simpl in *.
    + rewrite C. repeat split; auto; lia.
    + destruct (for_attempts service order_id comment max_retries retry_delay
                  attempts) as [r' t']; simpl in *.
      destruct IH as (C' & S' & F').
      rewrite call_count_app, sleeps_app, length_app, C.
      repeat split; try lia. apply Forall_app; split; assumption.
    + rewrite C. repeat split; auto; lia.
Qed.

(** X1: whatever the service does, one classification issues at most
    [max_retries] requests (none when [max_retries] is not positive), calls
    [time.sleep] at most once per request, and every such call is for
    [retry_delay]. *)
Theorem classifier_request_budget
  service order_id comment max_retries retry_delay :
  let t := snd (classify_comment service order_id comment max_retries
                  retry_delay) in
  (call_count t <= Z.to_nat max_retries)%nat
  /\ (List.length (sleeps t) <= call_count t)%nat
  /\ Forall (fun d => d = retry_delay) (sleeps t).
Proof.
  intros t.
  destruct (for_attempts_budget service order_id comment max_retries
              retry_delay (range max_retries)) as (C & S & F).
  fold (classify_comment service order_id comment max_retries retry_delay) in *.
  unfold range in C. rewrite length_map, length_seq in C.
  repeat split; assumption.
Qed.

Lemma retried_calls service order_id comment max_retries retry_delay
  (attempts : list Z) :
  call_count
    (retried (attempt_body service order_id comment max_retries retry_delay)
       attempts)
  = List.length attempts.
Proof.
  induction attempts as [|a attempts IH]; [reflexivity|].
  unfold retried in *; simpl. rewrite call_count_app, IH.
  rewrite (proj1 (attempt_body_one_call service order_id comment max_retries
                    retry_delay a)). reflexivity.
Qed.

(** X2: when the attempts before the [k]-th all end in a retry and the
    [k]-th request is answered with a label in any casing, surrounded by
    whitespace or not, the classification returns the canonical label after
    exactly [k + 1] requests: no request follows the accepted answer. *)
Theorem first_valid_response_wins
  service order_id comment max_retries retry_delay
  (k : nat) (content label : pystr) :
  let body := attempt_body service order_id comment max_retries retry_delay in
  let run := classify_comment service order_id comment max_retries retry_delay in
  (k < Z.to_nat max_retries)%nat ->
  (forall j, (j < k)%nat -> fst (body (Z.of_nat j)) = Continue) ->
  service (Z.of_nat k) = Completion content ->
  In label Re.labels ->
  same_word_any_casing (strip content) label ->
  run = (Returned (Some label),
         retried body (attempts_before k)
           ++ [ApiCall (Z.of_nat k) (prompt order_id comment)])
  /\ call_count (snd run) = S k.
Proof.
  intros body run Hk Hpre Hs Hl Hw.
  assert (R := classify_comment_reaches service order_id comment max_retries
                 retry_delay k (Nat.lt_le_incl _ _ Hk) Hpre).
  fold run body in R. rewrite (attempts_from_cons k _ Hk) in R.
  simpl in R. unfold attempt_body in R. rewrite Hs in R.
  destruct (any_casing_accepted _ _ Hl Hw) as [M C].
  rewrite M, C in R. simpl in R.
  split; [exact R|]. rewrite R. simpl.
  rewrite call_count_app. unfold body. rewrite retried_calls.
  unfold attempts_before. rewrite length_map, length_seq.
  change (call_count [ApiCall (Z.of_nat k) (prompt order_id comment)]) with 1%nat.
  lia.
Qed.

Lemma first_valid_response_wins_witness :
  let run := classify_comment twice_limited (lit "order123")
               (lit "Issue resolved.") 3 5 in
  twice_limited 2%Z = Completion (lit "resolved ")
  /\ same_word_any_casing (strip (lit "resolved ")) (lit "Resolved")
  /\ fst run = Returned (Some (lit "Resolved"))
  /\ call_count (snd run) = 3%nat.
Proof.
  intros run. split; [reflexivity|]. split; [reflexivity|].
  assert (P : forall j, (j < 2)%nat ->
            fst (attempt_body twice_limited (lit "order123")
                   (lit "Issue resolved.") 3 5 (Z.of_nat j)) = Continue).
  { intros j Hj. destruct j as [|[|j]]; [reflexivity|reflexivity|lia]. }
  destruct (first_valid_response_wins twice_limited (lit "order123")
              (lit "Issue resolved.") 3 5 2 (lit "resolved ") (lit "Resolved")
              ltac:(vm_compute; lia) P eq_refl (or_introl eq_refl) eq_refl)
    as [R C].
  split; [unfold run; rewrite R; reflexivity|exact C].
Defined.






Lemma for_attempts_provenance service order_id comment max_retries retry_delay
  (v : pystr) (n : nat) :
  forall s,
    fst (for_attempts service order_id comment max_retries retry_delay
           (map Z.of_nat (seq s n))) = Returned (Some v) ->
    exists k content,
      (s <= k < s + n)%nat
      /\ service (Z.of_nat k) = Completion content
      /\ Re.match_label (strip content) = true
      /\ v = capitalize (strip content)
      /\ (forall j, (s <= j < k)%nat ->
            fst (attempt_body service order_id comment max_retries retry_delay
                   (Z.of_nat j)) = Continue).
Proof.
  induction n as [|n IH]; intros s; [discriminate|].
  simpl.
  destruct (attempt_body service order_id comment max_retries retry_delay
              (Z.of_nat s)) as [[r| |e] t] eqn:B.
  - simpl. intros [= ->]. unfold attempt_body in B.
    destruct (service (Z.of_nat s)) as [content| |e|e] eqn:S.
    + destruct (Re.match_label (strip content)) eqn:M; [|discriminate B].
      injection B as B _. exists s, content.
      repeat split; auto; lia.
    + destruct (time_sleep_cases retry_delay) as [T|[_ T]];
        rewrite T in B; discriminate B.
    + destruct (time_sleep_cases retry_delay) as [T|[_ T]];
        rewrite T in B; discriminate B.
    + destruct (Z.of_nat s <? max_retries - 1)%Z; [|discriminate B].
      destruct (time_sleep_cases retry_delay) as [T|[_ T]];
        rewrite T in B; discriminate B.
  - destruct (for_attempts service order_id comment max_retries retry_delay
                (map Z.of_nat (seq (S s) n))) as [r' t'] eqn:F. simpl. intros E.
    destruct (IH (S s)) as (k & content & Hk & Hs & M & V & Hpre);
      [rewrite F; exact E|].
    exists k, content. repeat split; auto; try lia.
    intros j Hj. destruct (Nat.eq_dec j s) as [->|Hne];
      [rewrite B; reflexivity|apply Hpre; lia].
  - discriminate.
Qed.

(** X4: a classification returns a string only if some request within the
    attempt ceiling was answered with a text that the validation accepts;
    the string is that text stripped and capitalized, and it belongs to the
    first attempt that did not end in a retry.  No label is ever made up
    after a failure. *)
Theorem returned_label_comes_from_an_accepted_answer
  service order_id comment max_retries retry_delay (v : pystr) :
  fst (classify_comment service order_id comment max_retries retry_delay)
  = Returned (Some v) ->
  exists (k : Z) (content : pystr),
    (0 <= k < max_retries)%Z
    /\ service k = Completion content
    /\ Re.match_label (strip content) = true
    /\ v = capitalize (strip content)
    /\ (forall j, (0 <= j < k)%Z ->
          fst (attempt_body service order_id comment max_retries retry_delay j)
          = Continue).
Proof.
  unfold classify_comment, range; intros H.
  destruct (for_attempts_provenance _ _ _ _ _ _ _ _ H)
    as (k & content & Hk & Hs & M & V & Hpre).
  exists (Z.of_nat k), content. repeat split; auto; try lia.
  intros j Hj. rewrite <- (Z2Nat.id j) by lia. apply Hpre. lia.
Qed.

Lemma returned_label_comes_from_an_accepted_answer_witness :
  fst (classify_comment twice_limited (lit "order123") (lit "Issue resolved.")
         3 5) = Returned (Some (lit "Resolved"))
  /\ exists (k : Z) (content : pystr),
       (0 <= k < 3)%Z
       /\ twice_limited k = Completion content
       /\ lit "Resolved" = capitalize (strip content).
Proof.
  split; [reflexivity|].
  destruct (returned_label_comes_from_an_accepted_answer twice_limited
              (lit "order123") (lit "Issue resolved.") 3 5 (lit "Resolved")
              eq_refl) as (k & content & Hk & Hs & _ & V & _).
  exists k, content. split; [exact Hk|]. split; [exact Hs|exact V].
Defined.

(** ** The orchestrator: whole runs *)

Lemma rows_of_none service (rows : list Main.CommentRecord) :
  forall start,
    (forall index r, In (index, r) (enumerate start rows) ->
                     fst (outcome service index r) = Returned None) ->
    flat_map (fun ir => rows_of service (fst ir) (snd ir)) (enumerate start rows)
    = [].
Proof.
  induction rows as [|r rows IH]; intros start H; [reflexivity|].
  unfold enumerate in *. cbn [List.length seq combine flat_map fst snd].
  rewrite IH by (intros index r' Hin; apply H; right; exact Hin).
  unfold rows_of. rewrite (H start r (or_introl eq_refl)). reflexivity.
Qed.

Lemma none_dispatch_returns open_error service config
  (l : list (nat * Main.CommentRecord)) :
  (forall index r, In (index, r) l ->
                   fst (outcome service index r) = Returned None) ->
  Forall (dispatch_returns open_error service config) l.
Proof.
  intros H. apply Forall_forall. intros [index r] Hin.
  unfold dispatch_returns. cbn [fst snd].
  rewrite (dispatch_artifacts_when_none _ _ _ _ _ (H index r Hin)).
  reflexivity.
Qed.

Lemma effects_no_artifact_when_none open_error service config total index r :
  fst (outcome service index r) = Returned None ->
  filter is_artifact (effects_of open_error service config total index r) = [].
Proof.
  intros H; unfold effects_of.
  rewrite (dispatch_artifacts_when_none _ _ _ _ _ H). simpl.
  rewrite app_nil_r. apply for_attempts_no_artifact.
Qed.

Lemma effects_none_no_artifact open_error service config total
  (rows : list Main.CommentRecord) :
  forall start,
    (forall index r, In (index, r) (enumerate start rows) ->
                     fst (outcome service index r) = Returned None) ->
    filter is_artifact
      (flat_map (fun ir => effects_of open_error service config total
                             (fst ir) (snd ir))
         (enumerate start rows)) = [].
Proof.
  induction rows as [|r rows IH]; intros start H; [reflexivity|].
  unfold enumerate in *. cbn [List.length seq combine flat_map fst snd].
  rewrite filter_app, IH by (intros index r' Hin; apply H; right; exact Hin).
  rewrite effects_no_artifact_when_none by (apply H; left; reflexivity).
  reflexivity.
Qed.

Lemma filter_flat_map_nil (A B : Type) (p : B -> bool) (f : A -> list B)
  (l : list A) :
  (forall x, In x l -> filter p (f x) = []) -> filter p (flat_map f l) = [].
Proof.
  induction l as [|x l IH]; intros H; [reflexivity|]. simpl.
  rewrite filter_app, (H x (or_introl eq_refl)), IH; [reflexivity|].
  intros y Hy; apply H; right; exact Hy.
Qed.

Lemma for_attempts_only_requests service order_id comment max_retries
  retry_delay (attempts : list Z) :
  let t := snd (for_attempts service order_id comment max_retries retry_delay
                  attempts) in
  filter is_purge t = [] /\ filter is_final_report t = []
  /\ filter is_write t = [] /\ filter is_upload t = [].
Proof.
  induction attempts as [|a attempts IH]; [repeat split|].
  simpl. attempt_cases service a max_retries retry_delay;
    try destruct (for_attempts _ _ _ _ _ attempts); simpl in *;
    try (repeat split; reflexivity); exact IH.
Qed.

(** The dispatcher, branch by branch. *)
Ltac dispatch_cases open_error classification :=
  unfold ResolutionActions.handle_resolution;
  destruct (eq_str classification (lit "Resolved"));
  [ destruct (open_error _)
  | destruct (eq_str classification (lit "Unresolved"));
    [destruct (open_error _)|] ].

Lemma dispatch_no_purge open_error order_id classification comment rd ud sd :
  let t := snd (ResolutionActions.handle_resolution open_error order_id
                  classification comment rd ud sd) in
  filter is_purge t = [] /\ filter is_final_report t = [].
Proof. dispatch_cases open_error classification; split; reflexivity. Qed.

Lemma effects_no_purge open_error service config total index r :
  let t := effects_of open_error service config total index r in
  filter is_purge t = [] /\ filter is_final_report t = [].
Proof.
  unfold effects_of. cbn [filter is_purge is_final_report].
  rewrite !filter_app.
  destruct (for_attempts_only_requests (service index) (Main.transaction_id r)
              (Main.str_comment (Main.comments r)) default_max_retries
              default_retry_delay (range default_max_retries)) as (P & F & _).
  unfold outcome, classify_comment. rewrite P, F.
  unfold dispatch_of, outcome, classify_comment.
  destruct (fst (for_attempts (service index) (Main.transaction_id r)
                   (Main.str_comment (Main.comments r)) default_max_retries
                   default_retry_delay (range default_max_retries)))
    as [[status|]|e]; try (split; reflexivity).
  destruct (dispatch_no_purge open_error (Main.transaction_id r) (Some status)
              (Main.str_comment (Main.comments r))
              (Main.gcs_resolved_folder config)
              (Main.gcs_unresolved_folder config) (Main.local_temp_dir config))
    as [P' F'].
  rewrite P', F'. split; reflexivity.
Qed.

Lemma loop_no_purge open_error service config (rows : list Main.CommentRecord) :
  let t := snd (Main.processed_data_df open_error service config rows) in
  filter is_purge t = [] /\ filter is_final_report t = [].
Proof.
  unfold Main.processed_data_df.
  destruct (iterrows_prefix open_error service config
              (Z.of_nat (List.length rows)) rows 0) as (k & _ & _ & ->).
  split; apply filter_flat_map_nil; intros [i r] _; apply effects_no_purge.
Qed.

(** X5: a run over at least one record in which no record is classified
    does not return an empty result table: selecting the [status] column of
    the table built from no row raises, so the run returns no table at all
    and the text of the [KeyError].  Nothing was written or uploaded, the
    scratch directory is not purged and the final progress report is not
    made. *)
Theorem unclassified_run_returns_key_error
  (vec : Type) (encode : list cell -> list vec)
  (fit_predict : Z -> list vec -> result (list Z))
  (open_error : pystr -> option pystr) (purge_error : option pystr)
  (service : nat -> Z -> api_result) (config : Main.Config)
  (rows : list Main.CommentRecord) :
  rows <> [] ->
  (forall index r, In (index, r) (enumerate 0 rows) ->
                   fst (outcome service index r) = Returned None) ->
  let run := Main.handle_resolution vec encode fit_predict open_error
               purge_error service config (Some rows) in
  fst run = (None, None, Main.Failed (KeyError (lit "status")))
  /\ snd run
     = Progress 0 StartingResolution
         :: snd (Main.processed_data_df open_error service config rows)
         ++ [Log (ResolutionHandlingError (lit "'status'"))]
  /\ filter is_artifact (snd run) = []
  /\ filter is_purge (snd run) = []
  /\ filter is_final_report (snd run) = [].
Proof.
  intros Hne Hnone run. unfold run, Main.handle_resolution, Main.failed.
  destruct rows as [|r rows]; [contradiction|].
  destruct (loop_no_purge open_error service config (r :: rows)) as [P F].
  revert P F. unfold Main.processed_data_df.
  rewrite iterrows_spec by (apply none_dispatch_returns; exact Hnone).
  rewrite rows_of_none by exact Hnone.
  set (t := flat_map _ _). cbn [fst snd]. intros P F.
  assert (A : filter is_artifact t = [])
    by (apply effects_none_no_artifact; exact Hnone).
  split; [reflexivity|]. split; [reflexivity|].
  cbn [app filter is_artifact is_purge is_final_report].
  rewrite !filter_app, A, P, F. repeat split.
Qed.

Lemma unclassified_run_returns_key_error_witness :
  let run := Main.handle_resolution unit toy_encode toy_fit_predict
               flat_directory None never_sure
               Main.default_config (Some three_records) in
  three_records <> []
  /\ fst run = (None, None, Main.Failed (KeyError (lit "status")))
  /\ filter is_artifact (snd run) = [].
Proof.
  intros run.
  assert (N : three_records <> []) by discriminate.
  split; [exact N|].
  destruct (unclassified_run_returns_key_error unit toy_encode toy_fit_predict
              flat_directory None never_sure Main.default_config
              three_records N)
    as (R & _ & A & _); [|split; [exact R|exact A]].
  intros index r _. reflexivity.
Defined.

Lemma processed_rows_shape open_error service config
  (rows : list Main.CommentRecord) :
  Forall is_processed_row
    (fst (fst (Main.processed_data_df open_error service config rows))).
Proof.
  unfold Main.processed_data_df.
  destruct (iterrows_prefix open_error service config
              (Z.of_nat (List.length rows)) rows 0) as (k & _ & -> & _).
  apply Forall_forall. intros x Hx.
  apply in_flat_map in Hx as ([i r] & _ & Hx). unfold appended_of, rows_of in Hx.
  cbn [fst snd] in Hx.
  destruct (fst (dispatch_of open_error service config i r)); [|destruct Hx].
  destruct (fst (outcome service i r)) as [[status|]|e];
    [destruct Hx as [<-|[]]|destruct Hx|destruct Hx].
  eexists _, _, _. reflexivity.
Qed.

Lemma processed_rows_have_comment (df : DataFrame) :
  Forall is_processed_row df -> has_column (lit "comment") df = true.
Proof.
  induction 1 as [|r df (o & c & st & ->) _ IH]; [reflexivity|].
  simpl. exact IH.
Qed.

(** The stage on a table with a [comment] column of which some comment is
    present. *)
Lemma identify_patterns_kept
  (vec : Type) (encode : list cell -> list vec)
  (fit_predict : Z -> list vec -> result (list Z))
  (df : DataFrame) (n_clusters : Z) :
  has_column (lit "comment") df = true ->
  filter (present (lit "comment")) df <> [] ->
  ResolutionActions.identify_patterns vec encode fit_predict df n_clusters
  = let kept := filter (present (lit "comment")) df in
    let embeddings := encode (tolist (lit "comment") kept) in
    let t := [ Encode (List.length kept);
               KMeansFit n_clusters (List.length embeddings) ] in
    match fit_predict n_clusters embeddings with
    | Raise e => (Raise e, t)
    | Ok clusters => (setitem (lit "cluster") (map CInt clusters) kept, t)
    end.
Proof.
  intros Hc Hk. unfold ResolutionActions.identify_patterns.
  assert (Hn : df <> []) by (intros ->; apply Hk; reflexivity).
  rewrite (has_column_not_empty _ _ Hc Hn).
  unfold dropna. rewrite Hc.
  rewrite (has_column_not_empty _ _ (present_has_column _ df) Hk).
  rewrite tolist_length. reflexivity.
Qed.

(** The stage on a table with a [comment] column of which no comment is
    present. *)
Lemma identify_patterns_none_kept
  (vec : Type) (encode : list cell -> list vec)
  (fit_predict : Z -> list vec -> result (list Z))
  (df : DataFrame) (n_clusters : Z) :
  has_column (lit "comment") df = true ->
  filter (present (lit "comment")) df = [] ->
  exists t,
    ResolutionActions.identify_patterns vec encode fit_predict df n_clusters
    = (Ok [], t)
    /\ filter is_artifact t = [].
Proof.
  intros Hc Hk. unfold ResolutionActions.identify_patterns.
  destruct (empty df); [eexists; split; reflexivity|].
  unfold dropna. rewrite Hc, Hk. eexists; split; reflexivity.
Qed.

Lemma filter_processed (p : row -> bool) (df : DataFrame) :
  Forall is_processed_row df -> Forall is_processed_row (filter p df).
Proof.
  intros H. apply Forall_forall. intros x Hx. apply filter_In in Hx as [Hx _].
  exact (proj1 (Forall_forall _ _) H x Hx).
Qed.

(** X6: when the loop has ended without an exception and at least one
    resolved row has its comment, but fewer than [num_clusters] do, the
    clustering raises and the run ends in the [except] clause: it returns
    no table, although every artifact of the run has been written and
    uploaded, and it leaves the scratch files in place (no purge, no final
    progress report). *)
Theorem too_few_resolved_rows_lose_the_run
  (vec : Type) (encode : list cell -> list vec)
  (fit_predict : Z -> list vec -> result (list Z))
  (open_error : pystr -> option pystr) (purge_error : option pystr)
  (service : nat -> Z -> api_result) (config : Main.Config)
  (rows : list Main.CommentRecord) :
  encoder_contract vec encode ->
  kmeans_rejects vec fit_predict ->
  let loop := Main.processed_data_df open_error service config rows in
  let kept := clustered (fst (fst loop)) in
  let run := Main.handle_resolution vec encode fit_predict open_error
               purge_error service config (Some rows) in
  snd (fst loop) = None ->
  kept <> [] ->
  (Z.of_nat (List.length kept) < Main.num_clusters config)%Z ->
  exists e,
    fst run = (None, None, Main.Failed e)
    /\ filter is_artifact (snd run) = filter is_artifact (snd loop)
    /\ filter is_purge (snd run) = []
    /\ filter is_final_report (snd run) = [].
Proof.
  intros He Hk loop kept run Hl Hr Hlt.
  pose proof (processed_rows_shape open_error service config rows) as Shape.
  destruct (loop_no_purge open_error service config rows) as [P F].
  fold loop in Shape, P, F.
  pose proof (processed_rows_have_comment _
                (filter_processed Main.is_resolved _ Shape)) as Hc.
  assert (Hrows : rows <> []).
  { intros ->. apply Hr. reflexivity. }
  unfold run, Main.handle_resolution, Main.failed.
  destruct rows as [|r rows]; [contradiction|].
  fold loop. destruct loop as [[processed raised] t] eqn:L.
  cbn [fst snd] in *. subst raised.
  destruct processed as [|p processed]; [exfalso; apply Hr; reflexivity|].
  rewrite (identify_patterns_kept vec encode fit_predict _
             (Main.num_clusters config) Hc Hr).
  cbv zeta. fold (clustered (p :: processed)). fold kept.
  destruct (Hk (Main.num_clusters config)
              (encode (tolist (lit "comment") kept))) as [e E].
  { rewrite He, tolist_length. exact Hlt. }
  rewrite E. exists e. cbn [fst snd].
  split; [reflexivity|].
  cbn [app filter is_artifact is_purge is_final_report].
  rewrite !filter_app, P, F. cbn. rewrite !app_nil_r. repeat split.
Qed.

Lemma toy_fit_predict_rejects : kmeans_rejects unit toy_fit_predict.
Proof.
  intros k X H; unfold toy_fit_predict.
  destruct (Z.leb_spec k (Z.of_nat (List.length X))); [lia|].
  rewrite andb_false_r. eexists; reflexivity.
Qed.

Lemma too_few_resolved_rows_lose_the_run_witness :
  let loop := Main.processed_data_df opens one_resolved Main.default_config
                three_records in
  let run := Main.handle_resolution unit toy_encode toy_fit_predict opens None
               one_resolved Main.default_config (Some three_records) in
  List.length (clustered (fst (fst loop))) = 1%nat
  /\ List.length (fst (fst loop)) = 3%nat
  /\ exists e,
       fst run = (None, None, Main.Failed e)
       /\ List.length (filter is_upload (snd run)) = 3%nat.
Proof.
  intros loop run. split; [reflexivity|]. split; [reflexivity|].
  destruct (too_few_resolved_rows_lose_the_run unit toy_encode toy_fit_predict
              opens None one_resolved Main.default_config three_records
              toy_encode_contract toy_fit_predict_rejects)
    as (e & R & _);
    [reflexivity|vm_compute; discriminate|vm_compute; reflexivity|].
  exists e. split; [exact R|reflexivity].
Defined.

(** A resolved row whose comment is missing is dropped before the
    clustering: with three resolved rows, one without its comment, and
    three clusters the run is lost, and with a single resolved row without
    its comment the run completes with an empty pattern table. *)
Example missing_comment_is_not_clustered :
  fst (Main.handle_resolution unit toy_encode toy_fit_predict opens None
         all_resolved Main.default_config (Some one_blank))
  = (None, None, Main.Failed (ValueError (lit "n_samples should be >= n_clusters")))
  /\ exists processed,
       fst (Main.handle_resolution unit toy_encode toy_fit_predict opens None
              one_resolved Main.default_config (Some one_blank))
       = (Some processed, Some [], Main.Complete)
       /\ List.length (filter Main.is_resolved processed) = 1%nat.
Proof. split; [reflexivity|]. eexists. split; reflexivity. Qed.

Lemma Forall2_same_column (c : pystr) (df out : DataFrame) :
  Forall2 (fun r o => row_get c o = row_get c r) df out ->
  map (row_get c) out = map (row_get c) df.
Proof. induction 1 as [|r o df out H _ IH]; simpl; congruence. Qed.

(** X7: when the loop has ended without an exception and built at least
    one row, the purge does not raise, and either no resolved row has its
    comment or [1 <= num_clusters <=] the number of resolved rows that have
    it, the run completes: it returns the table the loop built, a pattern
    table with one row per resolved row that has its comment, in the same
    order, and the completion text; it purges the scratch directory and
    ends with the final progress report. *)
Theorem run_completes_with_both_tables
  (vec : Type) (encode : list cell -> list vec)
  (fit_predict : Z -> list vec -> result (list Z))
  (open_error : pystr -> option pystr)
  (service : nat -> Z -> api_result) (config : Main.Config)
  (rows : list Main.CommentRecord) :
  encoder_contract vec encode ->
  kmeans_contract vec fit_predict ->
  let loop := Main.processed_data_df open_error service config rows in
  let kept := clustered (fst (fst loop)) in
  snd (fst loop) = None ->
  fst (fst loop) <> [] ->
  kept = []
  \/ (1 <= Main.num_clusters config <= Z.of_nat (List.length kept))%Z ->
  exists patterns t,
    Main.handle_resolution vec encode fit_predict open_error None service
      config (Some rows)
    = ( (Some (fst (fst loop)), Some patterns, Main.Complete),
        Progress 0 StartingResolution
          :: snd loop ++ t
          ++ [ Purge (Main.local_temp_dir config);
               Progress 1 FinishingResolution ] )
    /\ List.length patterns = List.length kept
    /\ map (row_get (lit "order_id")) patterns
       = map (row_get (lit "order_id")) kept
    /\ filter is_artifact t = [].
Proof.
  intros He Hk loop kept Hl Hp Hcase.
  pose proof (processed_rows_shape open_error service config rows) as Shape.
  fold loop in Shape.
  pose proof (processed_rows_have_comment _
                (filter_processed Main.is_resolved _ Shape)) as Hc.
  assert (Hrows : rows <> []) by (intros ->; apply Hp; reflexivity).
  unfold Main.handle_resolution.
  destruct rows as [|r rows]; [contradiction|].
  fold loop. destruct loop as [[processed raised] tl] eqn:L.
  cbn [fst snd] in *. subst raised.
  destruct processed as [|p processed]; [contradiction|].
  fold kept in Hcase.
  destruct kept as [|x kept'] eqn:R.
  - destruct (identify_patterns_none_kept vec encode fit_predict _
                (Main.num_clusters config) Hc R) as (t & -> & A).
    exists [], t. repeat split. exact A.
  - assert (Hn : filter (present (lit "comment"))
                   (filter Main.is_resolved (p :: processed)) <> [])
      by (fold (clustered (p :: processed)); fold kept; rewrite R; discriminate).
    rewrite <- R in *.
    destruct Hcase as [Hcase|Hcase]; [rewrite R in Hcase; discriminate|].
    rewrite (identify_patterns_kept vec encode fit_predict _
               (Main.num_clusters config) Hc Hn).
    cbv zeta. fold (clustered (p :: processed)). fold kept.
    assert (Hemb : List.length (encode (tolist (lit "comment") kept))
                   = List.length kept) by (rewrite He; apply tolist_length).
    destruct (Hk (Main.num_clusters config)
                (encode (tolist (lit "comment") kept)))
      as (labels & Hfit & Hlen & _); [rewrite Hemb; exact Hcase|].
    rewrite Hemb in Hlen. rewrite Hfit. unfold setitem.
    assert (Hv : List.length (map CInt labels) = List.length kept)
      by (rewrite length_map; exact Hlen).
    rewrite Hv, Nat.eqb_refl.
    destruct (zip_set_columns (lit "cluster") (map CInt labels) kept Hv)
      as [_ Hother].
    eexists _, _. split; [reflexivity|]. split; [|split; [|reflexivity]].
    + apply Forall2_length in Hother. symmetry; exact Hother.
    + apply Forall2_same_column.
      eapply Forall2_impl; [|exact Hother].
      intros a b H. apply H. discriminate.
Qed.

Lemma run_completes_with_both_tables_witness :
  let loop := Main.processed_data_df opens all_resolved Main.default_config
                three_records in
  snd (fst loop) = None
  /\ fst (fst loop) <> []
  /\ (1 <= Main.num_clusters Main.default_config
        <= Z.of_nat (List.length (clustered (fst (fst loop)))))%Z
  /\ exists patterns,
       fst (Main.handle_resolution unit toy_encode toy_fit_predict opens None
              all_resolved Main.default_config (Some three_records))
       = (Some (fst (fst loop)), Some patterns, Main.Complete)
       /\ List.length patterns = 3%nat.
Proof.
  intros loop.
  assert (N : fst (fst loop) <> []) by (vm_compute; discriminate).
  assert (K : (1 <= Main.num_clusters Main.default_config
                 <= Z.of_nat (List.length (clustered (fst (fst loop)))))%Z)
    by (vm_compute; split; discriminate).
  split; [reflexivity|]. split; [exact N|]. split; [exact K|].
  destruct (run_completes_with_both_tables unit toy_encode toy_fit_predict
              opens all_resolved Main.default_config three_records
              toy_encode_contract toy_fit_predict_contract eq_refl N
              (or_intror K))
    as (patterns & t & E & Hl & _).
  exists patterns. split; [|exact Hl].
  unfold loop. rewrite E. reflexivity.
Defined.

Lemma dispatch_no_requests open_error order_id classification comment rd ud sd :
  let t := snd (ResolutionActions.handle_resolution open_error order_id
                  classification comment rd ud sd) in
  call_count t = 0%nat /\ sleeps t = [].
Proof. dispatch_cases open_error classification; split; reflexivity. Qed.

Lemma effects_budget open_error service config total index r :
  let t := effects_of open_error service config total index r in
  (call_count t <= 3)%nat
  /\ (List.length (sleeps t) <= call_count t)%nat
  /\ Forall (fun d => d = 5%Z) (sleeps t).
Proof.
  unfold effects_of; cbv zeta.
  change (call_count (Progress ?q ?d :: ?t)) with (call_count t).
  change (sleeps (Progress ?q ?d :: ?t)) with (sleeps t).
  rewrite call_count_app, sleeps_app, length_app.
  destruct (for_attempts_budget (service index) (Main.transaction_id r)
              (Main.str_comment (Main.comments r)) default_max_retries
              default_retry_delay (range default_max_retries)) as (C & S & F).
  fold (classify_comment (service index) (Main.transaction_id r)
          (Main.str_comment (Main.comments r)) default_max_retries
          default_retry_delay) in C, S, F.
  fold (outcome service index r) in C, S, F.
  change (List.length (range default_max_retries)) with 3%nat in C.
  assert (D : call_count (snd (dispatch_of open_error service config index r))
              = 0%nat
              /\ sleeps (snd (dispatch_of open_error service config index r))
                 = []).
  { unfold dispatch_of. destruct (fst (outcome service index r)) as [[s|]|e];
      [apply dispatch_no_requests|split; reflexivity|split; reflexivity]. }
  destruct D as [D1 D2]. rewrite D1, D2, app_nil_r. cbn [List.length].
  repeat split; try lia. exact F.
Qed.

Lemma enumerate_budget open_error service config total
  (rows : list Main.CommentRecord) :
  forall start,
    let t := flat_map (fun ir => effects_of open_error service config total
                                   (fst ir) (snd ir))
               (enumerate start rows) in
    (call_count t <= 3 * List.length rows)%nat
    /\ (List.length (sleeps t) <= call_count t)%nat
    /\ Forall (fun d => d = 5%Z) (sleeps t).
Proof.
  unfold enumerate.
  induction rows as [|r rows IH]; intros start; cbv zeta;
    [repeat split; auto|].
  cbn [List.length seq combine flat_map fst snd].
  rewrite call_count_app, sleeps_app, length_app.
  destruct (IH (S start)) as (C' & S' & F').
  destruct (effects_budget open_error service config total start r)
    as (C & S & F).
  repeat split; try lia. apply Forall_app; split; assumption.
Qed.

(** X8: a run over [n] records issues at most [3 n] completion requests,
    calls [time.sleep] at most once per request, and each wait lasts 5
    seconds: the orchestrator always calls the classifier with its default
    ceiling and delay. *)
Theorem run_request_budget
  (open_error : pystr -> option pystr)
  (service : nat -> Z -> api_result) (config : Main.Config)
  (rows : list Main.CommentRecord) :
  let t := snd (Main.processed_data_df open_error service config rows) in
  (call_count t <= 3 * List.length rows)%nat
  /\ (List.length (sleeps t) <= call_count t)%nat
  /\ Forall (fun d => d = 5%Z) (sleeps t).
Proof.
  cbv zeta. unfold Main.processed_data_df.
  destruct (iterrows_prefix open_error service config
              (Z.of_nat (List.length rows)) rows 0) as (k & Hk & _ & ->).
  destruct (enumerate_budget open_error service config
              (Z.of_nat (List.length rows)) (firstn k rows) 0) as (C & S & F).
  rewrite length_firstn in C.
  repeat split; try assumption. lia.
Qed.

Lemma record_artifacts open_error service config total index r :
  let t := effects_of open_error service config total index r in
  let appended := appended_of open_error service config index r in
  let n := List.length (filter has_label_status appended) in
  List.length (filter is_write t) = n
  /\ List.length (filter is_upload t) = n
  /\ written_paths t = uploaded_paths t
  /\ (List.length appended <= 1)%nat.
Proof.
  cbv zeta. unfold effects_of, appended_of, rows_of, dispatch_of.
  cbn [filter is_write is_upload written_paths uploaded_paths flat_map app].
  fold (written_paths (snd (outcome service index r)
    ++ snd match fst (outcome service index r) with
           | Returned (Some status) =>
               ResolutionActions.handle_resolution open_error
                 (Main.transaction_id r) (Some status)
                 (Main.str_comment (Main.comments r))
                 (Main.gcs_resolved_folder config)
                 (Main.gcs_unresolved_folder config)
                 (Main.local_temp_dir config)
           | _ => (Ok tt, [])
           end)).
  fold (uploaded_paths (snd (outcome service index r)
    ++ snd match fst (outcome service index r) with
           | Returned (Some status) =>
               ResolutionActions.handle_resolution open_error
                 (Main.transaction_id r) (Some status)
                 (Main.str_comment (Main.comments r))
                 (Main.gcs_resolved_folder config)
                 (Main.gcs_unresolved_folder config)
                 (Main.local_temp_dir config)
           | _ => (Ok tt, [])
           end)).
  unfold written_paths, uploaded_paths.
  rewrite !filter_app, !flat_map_app.
  destruct (for_attempts_only_requests (service index) (Main.transaction_id r)
              (Main.str_comment (Main.comments r)) default_max_retries
              default_retry_delay (range default_max_retries))
    as (_ & _ & W & U).
  fold (classify_comment (service index) (Main.transaction_id r)
          (Main.str_comment (Main.comments r)) default_max_retries
          default_retry_delay) in W, U.
  fold (outcome service index r) in W, U. rewrite W, U.
  assert (Wp : flat_map (fun e => match e with FileWrite p _ => [p] | _ => [] end)
                 (snd (outcome service index r)) = []).
  { clear - W. induction (snd (outcome service index r)) as [|x t IH];
      [reflexivity|].
    destruct x; simpl in *; try exact (IH W). discriminate W. }
  assert (Up : flat_map (fun e => match e with Upload p _ => [p] | _ => [] end)
                 (snd (outcome service index r)) = []).
  { clear - U. induction (snd (outcome service index r)) as [|x t IH];
      [reflexivity|].
    destruct x; simpl in *; try exact (IH U). discriminate U. }
  rewrite Wp, Up.
  destruct (fst (outcome service index r)) as [[status|]|e];
    [|repeat split; auto|repeat split; auto].
  unfold ResolutionActions.handle_resolution, eq_str.
  assert (H : has_label_status
                (Main.processed_row (Main.transaction_id r) (Main.comments r)
                   status)
              = pystr_eqb status (lit "Resolved")
                || pystr_eqb status (lit "Unresolved")) by reflexivity.
  destruct (pystr_eqb status (lit "Resolved")).
  - destruct (open_error _); cbn [fst snd filter]; try rewrite H;
      repeat split; auto.
  - destruct (pystr_eqb status (lit "Unresolved")).
    + destruct (open_error _); cbn [fst snd filter]; try rewrite H;
        repeat split; auto.
    + cbn [fst snd filter]. rewrite H. repeat split; auto.
Qed.

Lemma enumerate_artifacts open_error service config total
  (rows : list Main.CommentRecord) :
  forall start,
    let t := flat_map (fun ir => effects_of open_error service config total
                                   (fst ir) (snd ir))
               (enumerate start rows) in
    let table := flat_map (fun ir => appended_of open_error service config
                                       (fst ir) (snd ir))
                   (enumerate start rows) in
    List.length (filter is_write t)
    = List.length (filter has_label_status table)
    /\ List.length (filter is_upload t)
       = List.length (filter has_label_status table)
    /\ written_paths t = uploaded_paths t
    /\ (List.length table <= List.length rows)%nat.
Proof.
  unfold enumerate.
  induction rows as [|r rows IH]; intros start; cbv zeta;
    [repeat split; auto|].
  cbn [List.length seq combine flat_map fst snd].
  unfold written_paths, uploaded_paths.
  rewrite !filter_app, !length_app, !flat_map_app.
  destruct (IH (S start)) as (W' & U' & P' & L').
  destruct (record_artifacts open_error service config total start r)
    as (W & U & P & L).
  unfold written_paths, uploaded_paths in P, P'. rewrite P, P'.
  repeat split; lia.
Qed.

(** X9: in every run the number of scratch files written equals the number
    of uploads, and both equal the number of rows of [processed_data] whose
    status is one of the two labels; there are never more rows than
    records.  This holds also of a run that a dispatch ends. *)
Theorem artifacts_match_labelled_rows
  (open_error : pystr -> option pystr)
  (service : nat -> Z -> api_result) (config : Main.Config)
  (rows : list Main.CommentRecord) :
  let loop := Main.processed_data_df open_error service config rows in
  List.length (filter is_write (snd loop))
  = List.length (filter has_label_status (fst (fst loop)))
  /\ List.length (filter is_upload (snd loop))
     = List.length (filter has_label_status (fst (fst loop)))
  /\ (List.length (fst (fst loop)) <= List.length rows)%nat.
Proof.
  cbv zeta. unfold Main.processed_data_df.
  destruct (iterrows_prefix open_error service config
              (Z.of_nat (List.length rows)) rows 0) as (k & Hk & -> & ->).
  destruct (enumerate_artifacts open_error service config
              (Z.of_nat (List.length rows)) (firstn k rows) 0)
    as (W & U & _ & L).
  rewrite length_firstn in L.
  repeat split; try assumption. lia.
Qed.

(** ** Purging the scratch directory *)

Example purge_scratch_listing :
  Purge.purge scratch_listing (fun _ => true) (lit "temp") Purge.artifact_pattern
  = (true,
     [ Purge.Print (lit "Deleting: temp/order1_resolved.txt");
       Purge.Remove (lit "temp/order1_resolved.txt");
       Purge.Print (lit "Deleting: temp/order2_unresolved.txt");
       Purge.Remove (lit "temp/order2_unresolved.txt") ]).
Proof. reflexivity. Qed.

Example search_like_python :
  map (Purge.search Purge.artifact_pattern)
    [ lit "a_resolved.txt"; lit "a_resolved.txt" ++ [10%N];
      lit "a" ++ [10%N] ++ lit "b_resolved.txt"; lit "_resolved.txt";
      lit "x_Resolved.txt"; lit "resolved.txt"; lit "a_resolved.txtx";
      lit "a_resolved.txt" ++ [10%N; 10%N]; lit "a_resolvedxtxt" ]
  = [true; true; true; true; false; false; false; false; false].
Proof. reflexivity. Qed.

Lemma any_star_spec (s rest : pystr) :
  In rest (Purge.any_star s) <-> exists m, s = m ++ rest /\ no_newline m.
Proof.
  unfold no_newline. revert rest; induction s as [|c t IH]; intros rest; simpl.
  - split.
    + intros [<-|[]]. exists []. split; [reflexivity|intros []].
    + intros (m & E & _). symmetry in E. apply app_eq_nil in E as [_ ->].
      left; reflexivity.
  - destruct (N.eqb_spec c 10) as [->|Hc].
    + split.
      * intros [<-|[]]. exists []. split; [reflexivity|intros []].
      * intros (m & E & Hm). destruct m as [|x m].
        { left. exact E. }
        { injection E as <- _. exfalso. apply Hm. left; reflexivity. }
    + rewrite in_app_iff, IH. split.
      * intros [(m & -> & Hm)|[<-|[]]].
        { exists (c :: m). split; [reflexivity|].
          intros [E|E]; [apply Hc; exact E|exact (Hm E)]. }
        { exists []. split; [reflexivity|intros []]. }
      * intros (m & E & Hm). destruct m as [|x m].
        { right; left. exact E. }
        { injection E as <- E. left. exists m. split; [exact E|].
          intros H; apply Hm; right; exact H. }
Qed.

Lemma run_lits (w s rest : pystr) :
  In rest (Purge.run (Purge.lits w) s) <-> s = w ++ rest.
Proof.
  revert s; induction w as [|c w IH]; intros s; simpl.
  - split; [intros [<-|[]]; reflexivity|intros ->; left; reflexivity].
  - destruct s as [|x t]; simpl.
    + split; [intros []|discriminate].
    + destruct (N.eqb_spec x c) as [->|Hx]; simpl.
      * rewrite app_nil_r, IH. split; [intros ->; reflexivity|].
        intros E; injection E as E; exact E.
      * split; [intros []|]. intros E; injection E as E _; contradiction.
Qed.

Lemma suffixes_spec (s from : pystr) :
  In from (Purge.suffixes s) <-> exists pre, s = pre ++ from.
Proof.
  revert from; induction s as [|c t IH]; intros from; simpl.
  - split.
    + intros [<-|[]]. exists []; reflexivity.
    + intros (pre & E). symmetry in E. apply app_eq_nil in E as [_ ->].
      left; reflexivity.
  - rewrite IH. split.
    + intros [<-|(pre & ->)]; [exists []; reflexivity|].
      exists (c :: pre); reflexivity.
    + intros (pre & E). destruct pre as [|x pre].
      * left; exact E.
      * injection E as _ E. right. exists pre; exact E.
Qed.

Lemma at_end_spec (rest : pystr) :
  Re.at_end rest = true <-> rest = [] \/ rest = [10%N].
Proof.
  destruct rest as [|c [|d rest]]; simpl.
  - split; auto.
  - rewrite N.eqb_eq. split; [intros ->; auto|].
    intros [E|E]; [discriminate E|injection E as E; exact E].
  - split; [discriminate|]. intros [E|E]; discriminate E.
Qed.

(** What the pattern of the call finds: the names that end in
    [_resolved.txt] or [_unresolved.txt], one newline allowed after. *)
Lemma search_artifact_pattern (f : pystr) :
  Purge.search Purge.artifact_pattern f = true <-> artifact_name f.
Proof.
  unfold Purge.search, artifact_name. rewrite existsb_exists. split.
  - intros (from & Hfrom & H). apply existsb_exists in H as (rest & Hrun & He).
    apply suffixes_spec in Hfrom as (pre & ->).
    apply at_end_spec in He.
    unfold Purge.artifact_pattern in Hrun. cbn [Purge.run] in Hrun.
    apply in_flat_map in Hrun as (r1 & H1 & Hrun).
    apply any_star_spec in H1 as (m & -> & _).
    apply in_flat_map in Hrun as (r2 & H2 & Hrun).
    destruct r1 as [|x r1]; [destruct H2|].
    destruct (N.eqb_spec x 95) as [->|]; [|destruct H2].
    destruct H2 as [<-|[]].
    apply in_flat_map in Hrun as (r3 & H3 & Hrun).
    apply run_lits in Hrun. subst r3.
    apply in_app_or in H3 as [H3|H3]; apply run_lits in H3; subst r1.
    + exists (pre ++ m), (lit "_resolved.txt"), rest.
      split; [|split; [left; reflexivity|exact He]].
      rewrite <- !app_assoc. reflexivity.
    + exists (pre ++ m), (lit "_unresolved.txt"), rest.
      split; [|split; [right; reflexivity|exact He]].
      rewrite <- !app_assoc. reflexivity.
  - intros (stem & ending & tail & -> & Hending & Htail).
    exists (ending ++ tail). split; [apply suffixes_spec; exists stem; reflexivity|].
    apply existsb_exists. exists tail.
    split; [|apply at_end_spec; exact Htail].
    unfold Purge.artifact_pattern. cbn [Purge.run].
    apply in_flat_map. exists (ending ++ tail).
    split; [apply any_star_spec; exists []; split; [reflexivity|intros []]|].
    destruct Hending as [->| ->].
    + apply in_flat_map. exists (lit "resolved.txt" ++ tail).
      split; [left; reflexivity|].
      apply in_flat_map. exists (lit ".txt" ++ tail).
      split; [apply in_or_app; left; apply run_lits; reflexivity|].
      apply run_lits. reflexivity.
    + apply in_flat_map. exists (lit "unresolved.txt" ++ tail).
      split; [left; reflexivity|].
      apply in_flat_map. exists (lit ".txt" ++ tail).
      split; [apply in_or_app; right; apply run_lits; reflexivity|].
      apply run_lits. reflexivity.
Qed.

Lemma purge_entries_all_removable (removable : pystr -> bool)
  (dir : pystr) (pattern : Purge.re) (entries : list pystr) :
  (forall p, removable p = true) ->
  let run := Purge.purge_entries removable dir pattern entries in
  fst run = true
  /\ Purge.removed (snd run)
     = map (PosixPath.join dir) (filter (Purge.search pattern) entries).
Proof.
  intros H; cbv zeta. induction entries as [|f rest [IH1 IH2]];
    [split; reflexivity|].
  simpl. destruct (Purge.search pattern f); [|split; assumption].
  rewrite H.
  destruct (Purge.purge_entries removable dir pattern rest) as [ok t].
  simpl in *. split; [exact IH1|]. f_equal. exact IH2.
Qed.

(** X10: when every removal succeeds, [purge] with the pattern of the
    orchestrator removes, in listing order, exactly the entries of the
    directory whose name ends in [_resolved.txt] or [_unresolved.txt]
    (one newline allowed after it), each under the path
    [os.path.join(dir, name)]; the match is case-sensitive and every other
    entry is left alone. *)
Theorem purge_removes_the_artifact_names
  (listdir : list pystr) (removable : pystr -> bool) (dir : pystr) :
  (forall p, removable p = true) ->
  let run := Purge.purge listdir removable dir Purge.artifact_pattern in
  fst run = true
  /\ Purge.removed (snd run)
     = map (PosixPath.join dir)
         (filter (Purge.search Purge.artifact_pattern) listdir)
  /\ (forall f, In f listdir ->
        (In f (filter (Purge.search Purge.artifact_pattern) listdir)
         <-> artifact_name f)).
Proof.
  intros H run.
  destruct (purge_entries_all_removable removable dir Purge.artifact_pattern
              listdir H) as [R1 R2].
  split; [exact R1|]. split; [exact R2|].
  intros f Hf. rewrite filter_In, search_artifact_pattern. tauto.
Qed.

Lemma purge_removes_the_artifact_names_witness :
  Purge.removed
    (snd (Purge.purge scratch_listing (fun _ => true) (lit "temp")
            Purge.artifact_pattern))
  = [ lit "temp/order1_resolved.txt"; lit "temp/order2_unresolved.txt" ]
  /\ ~ artifact_name (lit "x_Resolved.txt").
Proof.
  destruct (purge_removes_the_artifact_names scratch_listing (fun _ => true)
              (lit "temp") (fun _ => eq_refl)) as (_ & R & N).
  split; [rewrite R; reflexivity|].
  intros A. apply (N (lit "x_Resolved.txt")) in A.
  - vm_compute in A. repeat (destruct A as [A|A]; [discriminate A|]). exact A.
  - vm_compute. tauto.
Defined.

Lemma purge_entries_skips (removable : pystr -> bool)
  (dir : pystr) (pattern : Purge.re) (before rest : list pystr) :
  (forall f, In f before -> Purge.search pattern f = true ->
             removable (PosixPath.join dir f) = true) ->
  let tail := Purge.purge_entries removable dir pattern rest in
  let run := Purge.purge_entries removable dir pattern (before ++ rest) in
  fst run = fst tail
  /\ Purge.removed (snd run)
     = map (PosixPath.join dir) (filter (Purge.search pattern) before)
       ++ Purge.removed (snd tail).
Proof.
  intros H; cbv zeta. induction before as [|f before IH];
    [split; reflexivity|].
  assert (IH' := IH (fun g Hg => H g (or_intror Hg))). clear IH.
  destruct IH' as [IH1 IH2].
  simpl. destruct (Purge.search pattern f) eqn:S; [|split; assumption].
  rewrite (H f (or_introl eq_refl) S).
  destruct (Purge.purge_entries removable dir pattern (before ++ rest))
    as [ok t].
  simpl in *. split; [exact IH1|]. f_equal. exact IH2.
Qed.

(** X11: [purge] stops at the first removal that fails: the entries
    before it that match are removed, the failing path is the last one
    tried, and no later entry is touched, even if it matches. *)
Theorem purge_stops_at_the_first_failure
  (removable : pystr -> bool) (dir : pystr) (pattern : Purge.re)
  (before after : list pystr) (f : pystr) :
  (forall g, In g before -> Purge.search pattern g = true ->
             removable (PosixPath.join dir g) = true) ->
  Purge.search pattern f = true ->
  removable (PosixPath.join dir f) = false ->
  let run := Purge.purge (before ++ f :: after) removable dir pattern in
  fst run = false
  /\ Purge.removed (snd run)
     = map (PosixPath.join dir) (filter (Purge.search pattern) before)
       ++ [PosixPath.join dir f].
Proof.
  intros Hb Hs Hr run. unfold run, Purge.purge.
  destruct (purge_entries_skips removable dir pattern before (f :: after) Hb)
    as [E1 E2].
  rewrite E1, E2. simpl. rewrite Hs, Hr. split; reflexivity.
Qed.

Lemma purge_stops_at_the_first_failure_witness :
  let run := Purge.purge three_artifacts locked (lit "temp")
               Purge.artifact_pattern in
  locked (lit "temp/order2_unresolved.txt") = false
  /\ fst run = false
  /\ Purge.removed (snd run)
     = [ lit "temp/order1_resolved.txt"; lit "temp/order2_unresolved.txt" ].
Proof.
  intros run. split; [reflexivity|].
  destruct (purge_stops_at_the_first_failure locked (lit "temp")
              Purge.artifact_pattern [lit "order1_resolved.txt"]
              [lit "order3_resolved.txt"] (lit "order2_unresolved.txt"))
    as [R1 R2]; try reflexivity.
  - intros g [<-|[]] _. reflexivity.
  - split; [exact R1|exact R2].
Defined.

Lemma scratch_name_is_artifact (order_id status : pystr) :
  artifact_name (scratch_name order_id status).
Proof.
  unfold scratch_name.
  destruct (pystr_eqb status (lit "Resolved")).
  - exists order_id, (lit "_resolved.txt"), []. rewrite app_nil_r. auto.
  - exists order_id, (lit "_unresolved.txt"), []. rewrite app_nil_r. auto.
Qed.

Lemma dispatch_write_path
  (open_error : pystr -> option pystr)
  (order_id status comment rd ud sd path content : pystr) :
  In (FileWrite path content)
     (snd (ResolutionActions.handle_resolution open_error order_id
             (Some status) comment rd ud sd)) ->
  (status = lit "Resolved" \/ status = lit "Unresolved")
  /\ path = PosixPath.join sd (scratch_name order_id status).
Proof.
  unfold ResolutionActions.handle_resolution, eq_str, scratch_name.
  destruct (pystr_eqb status (lit "Resolved")) eqn:R.
  - apply pystr_eqb_eq in R. destruct (open_error _); simpl; [intros []|].
    intros [E|[E|[E|[E|[]]]]]; try discriminate E.
    injection E as <- _. split; [left; exact R|reflexivity].
  - destruct (pystr_eqb status (lit "Unresolved")) eqn:U.
    + apply pystr_eqb_eq in U. destruct (open_error _); simpl; [intros []|].
      intros [E|[E|[E|[E|[]]]]]; try discriminate E.
      injection E as <- _. split; [right; exact U|reflexivity].
    + simpl. intros [E|[]]. discriminate E.
Qed.

(** X12: the purge matches what the dispatcher writes.  Whatever the
    order id, the scratch file of a dispatch is
    [os.path.join(scratch_dir, name)] for a name that the purge pattern
    finds; so if the directory lists that name and removals succeed, the
    purge of the scratch directory removes exactly the path that was
    written. *)
Theorem purge_removes_what_dispatch_wrote
  (open_error : pystr -> option pystr)
  (order_id status comment rd ud scratch_dir path content : pystr)
  (listdir : list pystr) (removable : pystr -> bool) :
  In (FileWrite path content)
     (snd (ResolutionActions.handle_resolution open_error order_id
             (Some status) comment rd ud scratch_dir)) ->
  (forall p, removable p = true) ->
  In (scratch_name order_id status) listdir ->
  path = PosixPath.join scratch_dir (scratch_name order_id status)
  /\ Purge.search Purge.artifact_pattern (scratch_name order_id status) = true
  /\ In path
       (Purge.removed
          (snd (Purge.purge listdir removable scratch_dir
                  Purge.artifact_pattern))).
Proof.
  intros Hw Hr Hl.
  assert (Hp : path = PosixPath.join scratch_dir (scratch_name order_id status))
    by exact (proj2 (dispatch_write_path _ _ _ _ _ _ _ _ _ Hw)).
  assert (Hs : Purge.search Purge.artifact_pattern
                 (scratch_name order_id status) = true)
    by (apply search_artifact_pattern, scratch_name_is_artifact).
  split; [exact Hp|]. split; [exact Hs|].
  destruct (purge_entries_all_removable removable scratch_dir
              Purge.artifact_pattern listdir Hr) as [_ R].
  unfold Purge.purge. rewrite R, Hp. apply in_map.
  apply filter_In. split; assumption.
Qed.

Lemma purge_removes_what_dispatch_wrote_witness :
  In (lit "temp/order1_resolved.txt")
     (Purge.removed
        (snd (Purge.purge scratch_listing (fun _ => true) (lit "temp")
                Purge.artifact_pattern))).
Proof.
  refine (proj2 (proj2 (purge_removes_what_dispatch_wrote opens (lit "order1")
            (lit "Resolved") (lit "Issue fixed.") (lit "processed/resolved")
            (lit "processed/unresolved") (lit "temp")
            (lit "temp/order1_resolved.txt")
            (ResolutionActions.resolved_text (lit "order1") (lit "Issue fixed."))
            scratch_listing (fun _ => true) _ (fun _ => eq_refl) _))).
  - left; reflexivity.
  - left; reflexivity.
Defined.

(** ** The dispatcher: paths and texts *)

Lemma join_relative (a b : pystr) :
  startswith b PosixPath.sep = false ->
  PosixPath.join a b = join_prefix a ++ b.
Proof.
  intros Hb; unfold PosixPath.join, join_prefix. rewrite Hb.
  destruct a as [|c a]; [reflexivity|].
  destruct (endswith (c :: a) PosixPath.sep); [reflexivity|].
  rewrite <- app_assoc. reflexivity.
Qed.

Lemma scratch_name_relative (order_id status : pystr) :
  startswith order_id PosixPath.sep = false ->
  startswith (scratch_name order_id status) PosixPath.sep = false.
Proof.
  intros H; unfold scratch_name. apply file_name_relative; [exact H|].
  destruct (pystr_eqb status (lit "Resolved")); reflexivity.
Qed.

Lemma endings_differ (o o' : pystr) :
  o ++ lit "_resolved.txt" <> o' ++ lit "_unresolved.txt".
Proof.
  intros E. apply (f_equal (@rev N)) in E. rewrite !rev_app_distr in E.
  vm_compute (rev (lit "_resolved.txt")) in E.
  vm_compute (rev (lit "_unresolved.txt")) in E.
  simpl in E. discriminate E.
Qed.

(** X13: two dispatches that share their scratch directory pass the same
    path string to [open] only if they have the same order id and the same
    outcome, provided neither order id begins with a separator.  (Two
    different strings can still name one file, as [./y] and [y] do.) *)
Theorem scratch_paths_identify_the_record
  (open_error open_error' : pystr -> option pystr)
  (o o' st st' c c' rd ud rd' ud' sd path content content' : pystr) :
  startswith o PosixPath.sep = false ->
  startswith o' PosixPath.sep = false ->
  In (FileWrite path content)
     (snd (ResolutionActions.handle_resolution open_error o (Some st) c
             rd ud sd)) ->
  In (FileWrite path content')
     (snd (ResolutionActions.handle_resolution open_error' o' (Some st') c'
             rd' ud' sd)) ->
  o = o' /\ st = st'.
Proof.
  intros Ho Ho' H H'.
  apply dispatch_write_path in H as [L P], H' as [L' P'].
  rewrite P in P'.
  rewrite !join_relative in P' by (apply scratch_name_relative; assumption).
  apply app_inv_head in P'. unfold scratch_name in P'.
  destruct L as [-> | ->], L' as [-> | ->];
    change (pystr_eqb (lit "Resolved") (lit "Resolved")) with true in P';
    change (pystr_eqb (lit "Unresolved") (lit "Resolved")) with false in P';
    cbv iota in P'.
  - apply app_inv_tail in P'. split; [exact P'|reflexivity].
  - exfalso. exact (endings_differ _ _ P').
  - exfalso. symmetry in P'. exact (endings_differ _ _ P').
  - apply app_inv_tail in P'. split; [exact P'|reflexivity].
Qed.

Lemma scratch_paths_identify_the_record_witness :
  let path := lit "temp/order1_resolved.txt" in
  In (FileWrite path (ResolutionActions.resolved_text (lit "order1") (lit "a")))
     (snd (ResolutionActions.handle_resolution opens (lit "order1")
             (Some (lit "Resolved")) (lit "a") (lit "r") (lit "u") (lit "temp")))
  /\ In (FileWrite path (ResolutionActions.resolved_text (lit "order1") (lit "b")))
        (snd (ResolutionActions.handle_resolution flat_directory (lit "order1")
                (Some (lit "Resolved")) (lit "b") (lit "r2") (lit "u2")
                (lit "temp")))
  /\ lit "order1" = lit "order1" /\ lit "Resolved" = lit "Resolved".
Proof.
  intros path.
  assert (H : In (FileWrite path
                    (ResolutionActions.resolved_text (lit "order1") (lit "a")))
                 (snd (ResolutionActions.handle_resolution opens (lit "order1")
                         (Some (lit "Resolved")) (lit "a") (lit "r") (lit "u")
                         (lit "temp")))) by (left; reflexivity).
  assert (H' : In (FileWrite path
                     (ResolutionActions.resolved_text (lit "order1") (lit "b")))
                  (snd (ResolutionActions.handle_resolution flat_directory
                          (lit "order1")
                          (Some (lit "Resolved")) (lit "b") (lit "r2") (lit "u2")
                          (lit "temp")))) by (left; reflexivity).
  split; [exact H|]. split; [exact H'|].
  exact (scratch_paths_identify_the_record opens flat_directory
           (lit "order1") (lit "order1")
           (lit "Resolved") (lit "Resolved") (lit "a") (lit "b")
           (lit "r") (lit "u") (lit "r2") (lit "u2") (lit "temp") path _ _
           eq_refl eq_refl H H').
Defined.

(** An order id that begins with a separator escapes the scratch
    directory and can meet the file of another record. *)
Example absolute_order_id_collides :
  In (FileWrite (lit "/tmp/x_resolved.txt")
        (ResolutionActions.resolved_text (lit "/tmp/x") (lit "a")))
     (snd (ResolutionActions.handle_resolution opens (lit "/tmp/x")
             (Some (lit "Resolved")) (lit "a") (lit "r") (lit "u") (lit "/tmp")))
  /\ In (FileWrite (lit "/tmp/x_resolved.txt")
           (ResolutionActions.resolved_text (lit "x") (lit "b")))
        (snd (ResolutionActions.handle_resolution opens (lit "x")
                (Some (lit "Resolved")) (lit "b") (lit "r") (lit "u")
                (lit "/tmp"))).
Proof. split; left; reflexivity. Qed.

(** What one dispatch does, whatever the outcome value, the order id, the
    folders and the file system: it raises at [open] before any effect, or
    it logs the invalid value and does nothing else, or it writes one file
    and then uploads that very file once. *)
Lemma dispatch_cases_spec
  (open_error : pystr -> option pystr)
  (order_id : pystr) (classification : option pystr)
  (comment rd ud sd : pystr) :
  let run := ResolutionActions.handle_resolution open_error order_id
               classification comment rd ud sd in
  (exists status e,
      classification = Some status
      /\ open_error (PosixPath.join sd (scratch_name order_id status)) = Some e
      /\ run = (Raise (OSError e), []))
  \/ run = (Ok tt, [Log (InvalidClassification classification order_id)])
  \/ exists status path content remote,
       classification = Some status
       /\ open_error path = None
       /\ run = (Ok tt,
                 [ FileWrite path content;
                   Progress (1 # 2) StartingUpload;
                   Upload path remote;
                   Progress 1 FinishingUpload ])
       /\ endswith path (scratch_name order_id status) = true
       /\ endswith remote (scratch_name order_id status) = true.
Proof.
  cbv zeta. unfold ResolutionActions.handle_resolution.
  destruct classification as [status|]; [|right; left; reflexivity].
  unfold eq_str, scratch_name.
  destruct (pystr_eqb status (lit "Resolved")) eqn:R.
  - destruct (open_error _) as [e|] eqn:O.
    + left. exists status, e. rewrite R. repeat split. exact O.
    + right. right. eexists status, _, _, _. rewrite R.
      split; [reflexivity|].
      split; [exact O|]. split; [reflexivity|]. split; apply join_endswith.
  - destruct (pystr_eqb status (lit "Unresolved")) eqn:U;
      [|right; left; reflexivity].
    destruct (open_error _) as [e|] eqn:O.
    + left. exists status, e. rewrite R. repeat split. exact O.
    + right. right. eexists status, _, _, _. rewrite R.
      split; [reflexivity|].
      split; [exact O|]. split; [reflexivity|]. split; apply join_endswith.
Qed.

(** X14: in every run of the loop, ended by an exception or not, the files
    uploaded are the files written, one upload per write and in the same
    order: the local paths handed to [upload_file] are the paths that were
    opened and written, and nothing is uploaded for a record whose scratch
    file could not be opened. *)
Theorem dispatch_uploads_the_file_it_wrote
  (open_error : pystr -> option pystr)
  (service : nat -> Z -> api_result) (config : Main.Config)
  (rows : list Main.CommentRecord) :
  let t := snd (Main.processed_data_df open_error service config rows) in
  uploaded_paths t = written_paths t
  /\ Forall (fun p => open_error p = None) (written_paths t).
Proof.
  cbv zeta. unfold Main.processed_data_df.
  destruct (iterrows_prefix open_error service config
              (Z.of_nat (List.length rows)) rows 0) as (k & _ & _ & ->).
  split.
  - symmetry.
    exact (proj1 (proj2 (proj2 (enumerate_artifacts open_error service config
                                  (Z.of_nat (List.length rows))
                                  (firstn k rows) 0)))).
  - unfold written_paths. apply Forall_forall. intros p Hp.
    apply in_flat_map in Hp as (ev & Hev & Hp).
    destruct ev; try destruct Hp as [<-|[]]; try destruct Hp.
    apply in_flat_map in Hev as ([i r] & _ & Hev).
    unfold effects_of in Hev. cbn [fst snd] in Hev.
    destruct Hev as [E|Hev]; [discriminate E|].
    apply in_app_or in Hev as [Hev|Hev].
    + exfalso.
      destruct (for_attempts_only_requests (service i) (Main.transaction_id r)
                  (Main.str_comment (Main.comments r)) default_max_retries
                  default_retry_delay (range default_max_retries))
        as (_ & _ & W & _).
      assert (X : In (FileWrite path content)
                    (filter is_write
                       (snd (for_attempts (service i) (Main.transaction_id r)
                               (Main.str_comment (Main.comments r))
                               default_max_retries default_retry_delay
                               (range default_max_retries)))))
        by (apply filter_In; split; [exact Hev|reflexivity]).
      rewrite W in X. destruct X.
    + unfold dispatch_of in Hev.
      destruct (fst (outcome service i r)) as [[status|]|e];
        [|destruct Hev|destruct Hev].
      destruct (dispatch_cases_spec open_error (Main.transaction_id r)
                  (Some status) (Main.str_comment (Main.comments r))
                  (Main.gcs_resolved_folder config)
                  (Main.gcs_unresolved_folder config)
                  (Main.local_temp_dir config))
        as [(s' & e & _ & _ & E)|[E|(s' & p' & c' & rm & _ & O & E & _)]];
        rewrite E in Hev; cbn [snd] in Hev.
      * destruct Hev.
      * destruct Hev as [X|[]]. discriminate X.
      * destruct Hev as [X|[X|[X|[X|[]]]]]; try discriminate X.
        injection X as <- _. exact O.
Qed.

Lemma first_newline (a a' b b' : pystr) :
  no_newline a -> no_newline a' ->
  a ++ 10%N :: b = a' ++ 10%N :: b' -> a = a' /\ b = b'.
Proof.
  unfold no_newline. revert a'; induction a as [|x a IH]; intros [|x' a'] Ha Ha' E.
  - injection E as E. split; [reflexivity|exact E].
  - injection E as E _. exfalso. apply Ha'. left. symmetry; exact E.
  - injection E as E _. exfalso. apply Ha. left. exact E.
  - injection E as -> E.
    destruct (IH a') as [-> ->]; auto.
    + intros H; apply Ha; right; exact H.
    + intros H; apply Ha'; right; exact H.
Qed.

(** X15: the text of an artifact identifies its record.  Two resolved
    texts, or two unresolved summaries, are equal only for the same order
    id and the same comment, as long as the order ids hold no line break;
    and a resolved text is never an unresolved summary. *)
Theorem artifact_text_identifies_the_record
  (o o' c c' : pystr) :
  no_newline o -> no_newline o' ->
  (ResolutionActions.resolved_text o c = ResolutionActions.resolved_text o' c'
   -> o = o' /\ c = c')
  /\ (ResolutionActions.generate_unresolved_summary o c
      = ResolutionActions.generate_unresolved_summary o' c'
      -> o = o' /\ c = c')
  /\ ResolutionActions.resolved_text o c
     <> ResolutionActions.generate_unresolved_summary o' c'.
Proof.
  intros Ho Ho'.
  unfold ResolutionActions.resolved_text,
    ResolutionActions.generate_unresolved_summary, ResolutionActions.nl.
  split; [|split].
  - intros E. apply app_inv_head in E.
    change ([10%N] ++ ?x) with (10%N :: x) in E.
    apply first_newline in E as [-> E]; [|assumption|assumption].
    apply app_inv_head in E. rewrite !app_assoc in E.
    apply app_inv_tail in E. apply app_inv_tail in E. split; [reflexivity|exact E].
  - intros E. apply app_inv_head in E.
    change ([10%N] ++ ?x) with (10%N :: x) in E.
    apply first_newline in E as [-> E]; [|assumption|assumption].
    apply app_inv_head in E. rewrite !app_assoc in E.
    do 4 apply app_inv_tail in E. split; [reflexivity|exact E].
  - intros E. apply (f_equal (@rev N)) in E.
    rewrite !app_assoc in E. rewrite !rev_app_distr in E.
    vm_compute (rev (lit "Status: Resolved")) in E.
    vm_compute (rev (lit "Next Steps: Manual review required.")) in E.
    simpl in E. discriminate E.
Qed.

Lemma artifact_text_identifies_the_record_witness :
  no_newline (lit "order1")
  /\ ResolutionActions.resolved_text (lit "order1") (lit "done")
     <> ResolutionActions.generate_unresolved_summary (lit "order1") (lit "done").
Proof.
  assert (N : no_newline (lit "order1")).
  { intros H. vm_compute in H.
    repeat (destruct H as [H|H]; [discriminate H|]). exact H. }
  split; [exact N|].
  exact (proj2 (proj2 (artifact_text_identifies_the_record (lit "order1")
                         (lit "order1") (lit "done") (lit "done") N N))).
Defined.

(** With a line break in the order id two different records can share
    their text. *)
Example artifact_text_is_ambiguous :
  ResolutionActions.resolved_text (lit "a") (lit "b" ++ [10%N] ++ lit "Comment: c")
  = ResolutionActions.resolved_text (lit "a" ++ [10%N] ++ lit "Comment: b") (lit "c").
Proof. reflexivity. Qed.

Example drop_duplicates_example :
  Table.rows
    (Table.drop_duplicates
       {| Table.columns := [(lit "col1", Table.Numeric); (lit "col2", Table.Object)];
          Table.rows := [ [Table.VNum 1; Table.VStr (lit "a")];
                          [Table.VNum 1; Table.VStr (lit "a")];
                          [Table.VNum 2; Table.VStr (lit "b")] ] |})
  = [ [Table.VNum 1; Table.VStr (lit "a")]; [Table.VNum 2; Table.VStr (lit "b")] ].
Proof. reflexivity. Qed.

(** ** Preprocessing *)

Lemma index_of_nth (k : pystr) (l : list pystr) (i : nat) :
  Table.index_of k l = Some i -> nth i l [] = k.
Proof.
  revert i; induction l as [|x l IH]; intros i; simpl; [discriminate|].
  destruct (pystr_eqb x k) eqn:E.
  - intros H; injection H as <-. apply pystr_eqb_eq in E. exact E.
  - destruct (Table.index_of k l) as [j|]; [|discriminate].
    simpl. intros H; injection H as <-. apply IH. reflexivity.
Qed.

Lemma has_index_of (k : pystr) (l : list pystr) :
  existsb (pystr_eqb k) l = true -> exists i, Table.index_of k l = Some i.
Proof.
  induction l as [|x l IH]; simpl; [discriminate|].
  destruct (pystr_eqb x k) eqn:E; [eexists; reflexivity|].
  intros H. apply orb_true_iff in H as [H|H].
  - apply pystr_eqb_eq in H. subst x.
    rewrite (proj2 (pystr_eqb_eq k k) eq_refl) in E. discriminate E.
  - destruct (IH H) as [i ->]. eexists; reflexivity.
Qed.

Lemma positions_names (keys : list pystr) (df : Table.t) :
  (forall k, In k keys -> Table.has k df = true) ->
  map (fun k => fst (nth (match Table.index_of k (Table.names df) with
                          | Some i => i
                          | None => 0%nat
                          end) (Table.columns df) ([], Table.Object))) keys
  = keys.
Proof.
  intros A. induction keys as [|k keys IH]; [reflexivity|].
  cbn [map]. rewrite IH by (intros; apply A; right; assumption). f_equal.
  destruct (has_index_of k (Table.names df) (A k (or_introl eq_refl)))
    as [i Hi].
  rewrite Hi. apply index_of_nth in Hi. unfold Table.names in Hi.
  etransitivity; [|exact Hi].
  change (@nil N) with (fst (@nil N, Table.Object)). symmetry. apply map_nth.
Qed.

(** A successful selection has exactly the columns asked for, in the order
    asked for, and as many rows as the table. *)
Lemma select_done (keys : list pystr) (df out : Table.t) :
  Table.select keys df = Table.Done out ->
  Table.names out = keys
  /\ List.length (Table.rows out) = List.length (Table.rows df).
Proof.
  unfold Table.select.
  destruct (filter (fun k => negb (Table.has k df)) keys) as [|m ms] eqn:F;
    [|discriminate].
  intros H; injection H as <-. split.
  - unfold Table.names at 1. cbn [Table.columns]. rewrite !map_map.
    apply positions_names.
    intros k Hk. destruct (Table.has k df) eqn:E; [reflexivity|].
    assert (H : In k (filter (fun k => negb (Table.has k df)) keys))
      by (apply filter_In; split; [exact Hk|rewrite E; reflexivity]).
    rewrite F in H. destruct H.
  - cbn [Table.rows]. apply length_map.
Qed.

Lemma select_missing (keys : list pystr) (df : Table.t) :
  Forall (fun k => Table.has k df = false) keys -> keys <> [] ->
  Table.select keys df = Table.Raised (Table.KeyError keys).
Proof.
  intros H N. unfold Table.select.
  assert (E : filter (fun k => negb (Table.has k df)) keys = keys).
  { clear N. induction H as [|k keys Hk _ IH]; [reflexivity|].
    simpl. rewrite Hk, IH. reflexivity. }
  rewrite E. destruct keys; [contradiction|reflexivity].
Qed.

(** After the renaming, none of the export columns is left. *)
Lemma renamed_has_no_export_column (kept : Table.t) :
  Table.names kept = Preprocessing.required_columns ->
  Table.names (Table.rename Preprocessing.renaming kept)
  = [lit "Transaction ID"; lit "Amount"; lit "Date"]
  /\ Table.select Preprocessing.csv_export_columns
       (Table.rename Preprocessing.renaming kept)
     = Table.Raised (Table.KeyError Preprocessing.csv_export_columns).
Proof.
  intros H.
  assert (N : Table.names (Table.rename Preprocessing.renaming kept)
              = [lit "Transaction ID"; lit "Amount"; lit "Date"]).
  { unfold Table.names in *. simpl.
    destruct (Table.columns kept) as [|[n1 d1] [|[n2 d2] [|[n3 d3] [|]]]];
      try discriminate H.
    simpl in H. injection H as -> -> ->. reflexivity. }
  split; [exact N|].
  apply select_missing; [|discriminate].
  unfold Table.has. rewrite N. repeat constructor.
Qed.

Lemma convert_dates_no_write
  (to_datetime : list Table.value -> Table.outcome (list Table.value))
  (cols : list pystr) :
  forall acc,
    filter is_csv_write (snd acc) = [] ->
    filter is_csv_write
      (snd (fold_left (Preprocessing.convert_date to_datetime) cols acc)) = [].
Proof.
  induction cols as [|c cols IH]; intros acc H; [exact H|].
  simpl. apply IH. unfold Preprocessing.convert_date.
  destruct acc as [df log]. simpl in H.
  destruct (Table.index_of c (Table.names df)); [|exact H].
  destruct (to_datetime (Table.column n df)) as [values|e].
  - destruct (Nat.eqb _ _); simpl; [exact H|].
    rewrite filter_app, H. reflexivity.
  - simpl. rewrite filter_app, H. reflexivity.
Qed.

Lemma clean_data_no_write
  (to_datetime : list Table.value -> Table.outcome (list Table.value))
  (df : option Table.t) (cols : list pystr) :
  filter is_csv_write (snd (Preprocessing.clean_data to_datetime df cols)) = [].
Proof.
  unfold Preprocessing.clean_data. destruct df as [df|]; [|reflexivity].
  destruct (Table.empty df); [reflexivity|].
  apply convert_dates_no_write. reflexivity.
Qed.

Lemma categorize_data_no_write (re_search : pystr -> pystr -> bool)
  (df : option Table.t) (column pattern : pystr) :
  filter is_csv_write
    (snd (Preprocessing.categorize_data re_search df column pattern)) = [].
Proof.
  unfold Preprocessing.categorize_data. destruct df as [df|]; [|reflexivity].
  destruct (Table.empty df); [reflexivity|].
  destruct (Table.index_of column (Table.names df)); [|reflexivity].
  destruct (nth_error (Table.columns df) n) as [[name [| |]]|];
    try reflexivity.
  destruct (forallb _ _); reflexivity.
Qed.

(** X16: [preprocess_data] reports success only when nothing was found.
    Whatever the input, the date parser and the search do, if the function
    returns a table then that table has no row, its columns are
    [Transaction ID], [Amount] and [Date], the status is the success text
    and no CSV file was written. *)
Theorem preprocess_success_means_nothing_found
  (to_datetime : list Table.value -> Table.outcome (list Table.value))
  (re_search : pystr -> pystr -> bool) (writable : pystr -> bool)
  (config : Preprocessing.Config)
  (raw : option Table.t) (df : Table.t) (st : Preprocessing.status) :
  let run := Preprocessing.preprocess_data to_datetime re_search writable
               config raw in
  fst run = (Some df, st) ->
  st = Preprocessing.Success
  /\ Table.rows df = []
  /\ Table.names df = [lit "Transaction ID"; lit "Amount"; lit "Date"]
  /\ filter is_csv_write (snd run) = [].
Proof.
  cbv zeta. unfold Preprocessing.preprocess_data, Preprocessing.fail.
  destruct raw as [raw|]; [|discriminate].
  destruct (Table.empty raw); [discriminate|].
  pose proof (clean_data_no_write to_datetime (Some raw)
                Preprocessing.date_columns) as W1.
  destruct (Preprocessing.clean_data to_datetime (Some raw)
              Preprocessing.date_columns) as [cleaned l1].
  pose proof (categorize_data_no_write re_search (Some cleaned)
                (Preprocessing.system_b_column config)
                (Preprocessing.not_found_value config)) as W2.
  destruct (Preprocessing.categorize_data re_search (Some cleaned)
              (Preprocessing.system_b_column config)
              (Preprocessing.not_found_value config)) as [[[nf|]|e] l2];
    try discriminate.
  destruct (Table.select Preprocessing.required_columns nf) as [kept|e] eqn:S;
    [|discriminate].
  destruct (select_done _ _ _ S) as [Hn _].
  destruct (renamed_has_no_export_column kept Hn) as [Hnames Hsel].
  unfold Preprocessing.export_to_csv.
  destruct (Table.empty (Table.rename Preprocessing.renaming kept)) eqn:E.
  - cbn [fst snd] in *. intros H; injection H as <- <-.
    split; [reflexivity|]. split; [|split; [exact Hnames|]].
    + unfold Table.empty in E. unfold Table.names in Hnames.
      destruct (Table.columns (Table.rename Preprocessing.renaming kept));
        [discriminate Hnames|].
      destruct (Table.rows (Table.rename Preprocessing.renaming kept));
        [reflexivity|discriminate E].
    + rewrite !filter_app, W1, W2. reflexivity.
  - change (match Preprocessing.csv_export_columns with
            | [] => Table.Done (Table.rename Preprocessing.renaming kept)
            | _ :: _ => Table.select Preprocessing.csv_export_columns
                          (Table.rename Preprocessing.renaming kept)
            end)
      with (Table.select Preprocessing.csv_export_columns
              (Table.rename Preprocessing.renaming kept)).
    rewrite Hsel. discriminate.
Qed.

Lemma preprocess_success_means_nothing_found_witness :
  let run := Preprocessing.preprocess_data no_dates same_text (fun _ => true)
               Preprocessing.default_config (Some all_matched) in
  fst run
  = (Some {| Table.columns := [ (lit "Transaction ID", Table.Object);
                                (lit "Amount", Table.Numeric);
                                (lit "Date", Table.Object) ];
             Table.rows := [] |},
     Preprocessing.Success)
  /\ filter is_csv_write (snd run) = [].
Proof.
  intros run. split; [reflexivity|].
  exact (proj2 (proj2 (proj2
           (preprocess_success_means_nothing_found no_dates same_text
              (fun _ => true) Preprocessing.default_config (Some all_matched)
              _ _ eq_refl)))).
Defined.

(** X17: as soon as one record is found, [preprocess_data] fails.  If the
    categorizer returns a table with at least one row and the three
    required columns, the export step selects the columns under their old
    names from the renamed table, which raises [KeyError] before the
    [try]: the function returns no table and the error, and writes no
    file. *)
Theorem preprocess_fails_when_something_is_found
  (to_datetime : list Table.value -> Table.outcome (list Table.value))
  (re_search : pystr -> pystr -> bool) (writable : pystr -> bool)
  (config : Preprocessing.Config)
  (raw not_found kept : Table.t) (log : list Preprocessing.effect) :
  let cleaned := fst (Preprocessing.clean_data to_datetime (Some raw)
                        Preprocessing.date_columns) in
  let run := Preprocessing.preprocess_data to_datetime re_search writable
               config (Some raw) in
  Table.empty raw = false ->
  Preprocessing.categorize_data re_search (Some cleaned)
    (Preprocessing.system_b_column config)
    (Preprocessing.not_found_value config)
  = (Table.Done (Some not_found), log) ->
  Table.select Preprocessing.required_columns not_found = Table.Done kept ->
  Table.rows not_found <> [] ->
  fst run
  = (None, Preprocessing.Failed (Table.KeyError Preprocessing.csv_export_columns))
  /\ filter is_csv_write (snd run) = [].
Proof.
  cbv zeta. intros He Hc Hs Hr.
  unfold Preprocessing.preprocess_data, Preprocessing.fail. rewrite He.
  pose proof (clean_data_no_write to_datetime (Some raw)
                Preprocessing.date_columns) as W1.
  pose proof (categorize_data_no_write re_search
                (Some (fst (Preprocessing.clean_data to_datetime (Some raw)
                              Preprocessing.date_columns)))
                (Preprocessing.system_b_column config)
                (Preprocessing.not_found_value config)) as W2.
  destruct (Preprocessing.clean_data to_datetime (Some raw)
              Preprocessing.date_columns) as [cleaned l1].
  cbn [fst snd] in *. rewrite Hc in *. rewrite Hs. cbn [snd] in W2.
  destruct (select_done _ _ _ Hs) as [Hn Hl].
  destruct (renamed_has_no_export_column kept Hn) as [Hnames Hsel].
  unfold Preprocessing.export_to_csv.
  assert (E : Table.empty (Table.rename Preprocessing.renaming kept) = false).
  { unfold Table.empty. unfold Table.names in Hnames.
    destruct (Table.columns (Table.rename Preprocessing.renaming kept));
      [discriminate Hnames|].
    change (Table.rows (Table.rename Preprocessing.renaming kept))
      with (Table.rows kept).
    destruct (Table.rows kept); [|reflexivity].
    destruct (Table.rows not_found); [contradiction|discriminate Hl]. }
  rewrite E.
  change (match Preprocessing.csv_export_columns with
          | [] => Table.Done (Table.rename Preprocessing.renaming kept)
          | _ :: _ => Table.select Preprocessing.csv_export_columns
                        (Table.rename Preprocessing.renaming kept)
          end)
    with (Table.select Preprocessing.csv_export_columns
            (Table.rename Preprocessing.renaming kept)).
  rewrite Hsel. cbn [fst snd]. split; [reflexivity|].
  rewrite !filter_app, W1, W2. reflexivity.
Qed.

Lemma preprocess_fails_when_something_is_found_witness :
  Table.empty extract = false
  /\ fst (Preprocessing.preprocess_data no_dates same_text (fun _ => true)
            Preprocessing.default_config (Some extract))
     = (None,
        Preprocessing.Failed (Table.KeyError Preprocessing.csv_export_columns)).
Proof.
  split; [reflexivity|].
  refine (proj1 (preprocess_fails_when_something_is_found no_dates same_text
                   (fun _ => true) Preprocessing.default_config extract
                   _ _ _ eq_refl eq_refl eq_refl _)).
  discriminate.
Defined.

(** *** Cleaning *)

Lemma cell_set_nth_same (i : nat) (v : Table.value) (r : list Table.value) :
  (i < List.length r)%nat -> Table.cell (Table.set_nth i v r) i = v.
Proof.
  unfold Table.cell. revert i; induction r as [|x r IH]; intros [|i] H;
    simpl in *; try lia; [reflexivity|]. apply IH. lia.
Qed.

Lemma cell_set_nth_other (i j : nat) (v : Table.value) (r : list Table.value) :
  i <> j -> Table.cell (Table.set_nth i v r) j = Table.cell r j.
Proof.
  unfold Table.cell. revert i j; induction r as [|x r IH]; intros [|i] [|j] H;
    simpl; try reflexivity; try contradiction. apply IH. lia.
Qed.

Lemma length_set_nth (A : Type) (i : nat) (x : A) (l : list A) :
  List.length (Table.set_nth i x l) = List.length l.
Proof.
  revert i; induction l as [|y l IH]; intros [|i]; simpl; auto.
Qed.

Lemma names_set_nth (i : nat) (name : pystr) (d dt : Table.dtype)
  (cols : list (pystr * Table.dtype)) :
  nth_error cols i = Some (name, d) ->
  map fst (Table.set_nth i (name, dt) cols) = map fst cols.
Proof.
  revert i; induction cols as [|c cols IH]; intros [|i]; simpl;
    try discriminate.
  - intros H; injection H as ->. reflexivity.
  - intros H. rewrite (IH _ H). reflexivity.
Qed.

Lemma nth_error_set_nth_other (A : Type) (i j : nat) (x : A) (l : list A) :
  i <> j -> nth_error (Table.set_nth i x l) j = nth_error l j.
Proof.
  revert i j; induction l as [|y l IH]; intros [|i] [|j] H; simpl;
    try reflexivity; try contradiction. apply IH. lia.
Qed.

Lemma nth_error_set_nth_same (A : Type) (i : nat) (x : A) (l : list A) :
  (i < List.length l)%nat -> nth_error (Table.set_nth i x l) i = Some x.
Proof.
  revert i; induction l as [|y l IH]; intros [|i] H; simpl in *; try lia;
    [reflexivity|]. apply IH. lia.
Qed.

(** What one pass of the filling loop keeps and achieves. *)
Lemma fill_column_spec (df : Table.t) (i : nat) (name : pystr) (dt : Table.dtype) :
  well_formed df ->
  nth_error (Table.columns df) i = Some (name, dt) ->
  let df' := Preprocessing.fill_column df i in
  Table.names df' = Table.names df
  /\ well_formed df'
  /\ (forall j, j <> i ->
        nth_error (Table.columns df') j = nth_error (Table.columns df) j)
  /\ (exists dt', nth_error (Table.columns df') i = Some (name, dt')
                  /\ (dt <> Table.Datetime -> dt' = dt))
  /\ Forall2 (fun r r' => Table.cell r' i = filled dt (Table.cell r i)
                          /\ forall j, j <> i -> Table.cell r' j = Table.cell r j)
       (Table.rows df) (Table.rows df').
Proof.
  intros W E. cbv zeta. unfold Preprocessing.fill_column. rewrite E.
  assert (Hi : (i < List.length (Table.columns df))%nat)
    by (apply nth_error_Some; rewrite E; discriminate).
  destruct (existsb Table.isna (Table.column i df)) eqn:X.
  - assert (G : forall d',
              filler dt = filler d' -> (dt <> Table.Datetime -> d' = dt) ->
              let df' := Table.fillna i (filler dt) d' df in
              Table.names df' = Table.names df
              /\ well_formed df'
              /\ (forall j, j <> i ->
                    nth_error (Table.columns df') j
                    = nth_error (Table.columns df) j)
              /\ (exists dt', nth_error (Table.columns df') i = Some (name, dt')
                              /\ (dt <> Table.Datetime -> dt' = dt))
              /\ Forall2 (fun r r' =>
                            Table.cell r' i = filled dt (Table.cell r i)
                            /\ forall j, j <> i -> Table.cell r' j = Table.cell r j)
                   (Table.rows df) (Table.rows df')).
    { intros d' _ Hd. cbv zeta. unfold Table.fillna, Table.names, well_formed.
      cbn [Table.columns Table.rows]. rewrite E.
      split; [apply (names_set_nth _ _ _ _ _ E)|].
      rewrite length_set_nth. unfold well_formed in W. clear X.
      split; [|split; [|split]].
      - induction W as [|r rows Hr _ IH]; simpl; constructor; [|exact IH].
        destruct (Table.isna (Table.cell r i)); [|exact Hr].
        rewrite length_set_nth. exact Hr.
      - intros j Hj. apply nth_error_set_nth_other. lia.
      - exists d'. split; [apply nth_error_set_nth_same; exact Hi|exact Hd].
      - induction W as [|r rows Hr _ IH]; simpl; constructor; [|exact IH].
        unfold filled. destruct (Table.isna (Table.cell r i)) eqn:N.
        + split; [rewrite cell_set_nth_same by lia; reflexivity|].
          intros j Hj. apply cell_set_nth_other. lia.
        + split; reflexivity. }
    destruct dt.
    + apply (G Table.Numeric); auto.
    + apply (G Table.Object); auto.
    + apply (G Table.Object); [reflexivity|]. intros H; contradiction.
  - split; [reflexivity|]. split; [exact W|]. split; [reflexivity|].
    split; [exists dt; split; [exact E|reflexivity]|].
    unfold Table.column in X.
    induction (Table.rows df) as [|r rows IH]; constructor.
    + simpl in X. apply orb_false_iff in X as [X _].
      unfold filled. rewrite X. split; reflexivity.
    + apply IH. simpl in X. apply orb_false_iff in X as [_ X]. exact X.
Qed.

(** The filling loop over the columns from [start] on: those columns are
    filled, the columns before are left as they are. *)
Lemma fill_columns_spec (n : nat) :
  forall (df : Table.t) (start : nat),
    well_formed df ->
    (start + n <= List.length (Table.columns df))%nat ->
    let df' := fold_left Preprocessing.fill_column (seq start n) df in
    Table.names df' = Table.names df
    /\ well_formed df'
    /\ (forall j name dt, dt <> Table.Datetime ->
          nth_error (Table.columns df) j = Some (name, dt) ->
          nth_error (Table.columns df') j = Some (name, dt))
    /\ Forall2 (fun r r' => forall j,
                  (forall name dt, (start <= j)%nat ->
                     nth_error (Table.columns df) j = Some (name, dt) ->
                     (j < start + n)%nat ->
                     Table.cell r' j = filled dt (Table.cell r j))
                  /\ ((j < start)%nat -> Table.cell r' j = Table.cell r j))
         (Table.rows df) (Table.rows df').
Proof.
  induction n as [|n IH]; intros df start W H; cbv zeta.
  - simpl. repeat split; auto.
    clear. induction (Table.rows df); constructor; auto.
    intros j. split; [intros; lia|reflexivity].
  - simpl.
    destruct (nth_error (Table.columns df) start) as [[name0 dt0]|] eqn:E0;
      [|apply nth_error_None in E0; lia].
    destruct (fill_column_spec df start name0 dt0 W E0)
      as (N1 & W1 & O1 & (dt' & S1 & D1) & F1).
    set (df1 := Preprocessing.fill_column df start) in *.
    assert (C1 : List.length (Table.columns df1)
                 = List.length (Table.columns df)).
    { unfold Table.names in N1. rewrite <- (length_map fst), N1.
      apply length_map. }
    destruct (IH df1 (S start) W1 ltac:(rewrite C1; lia))
      as (N2 & W2 & P2 & F2).
    split; [congruence|]. split; [exact W2|]. split.
    + intros j name dt Hdt Hj. apply P2; [exact Hdt|].
      destruct (Nat.eq_dec j start) as [->|Hne].
      * rewrite E0 in Hj. injection Hj as -> ->. rewrite S1, D1; auto.
      * rewrite O1; assumption.
    + clear - F1 F2 O1 E0.
      revert F2. generalize (Table.rows (fold_left Preprocessing.fill_column
                                           (seq (S start) n) df1)).
      induction F1 as [|r r1 rows rows1 [A B] _ IH']; intros l F2;
        inversion F2 as [|? r2 ? rows2 C D]; subst; constructor.
      * intros j. destruct (C j) as [C1 C2]. split.
        { intros name dt Hs Hj Hlt. destruct (Nat.eq_dec j start) as [->|Hne].
          - rewrite C2 by lia. rewrite E0 in Hj. injection Hj as _ <-. exact A.
          - rewrite (C1 name dt) by (try rewrite O1; auto; lia).
            rewrite B by exact Hne. reflexivity. }
        { intros Hj. rewrite C2 by lia. apply B. lia. }
      * apply IH'. exact D.
Qed.

Lemma has_false_index_of (c : pystr) (l : list pystr) :
  existsb (pystr_eqb c) l = false -> Table.index_of c l = None.
Proof.
  induction l as [|x l IH]; simpl; [reflexivity|].
  intros H. apply orb_false_iff in H as [H1 H2].
  destruct (pystr_eqb x c) eqn:E.
  - apply pystr_eqb_eq in E. subst x.
    rewrite (proj2 (pystr_eqb_eq c c) eq_refl) in H1. discriminate H1.
  - rewrite (IH H2). reflexivity.
Qed.

Lemma convert_dates_absent
  (to_datetime : list Table.value -> Table.outcome (list Table.value))
  (cols : list pystr) (df : Table.t) (log : list Preprocessing.effect) :
  Forall (fun c => Table.has c df = false) cols ->
  fold_left (Preprocessing.convert_date to_datetime) cols (df, log) = (df, log).
Proof.
  induction 1 as [|c cols Hc _ IH]; [reflexivity|].
  simpl. unfold Table.has in Hc. rewrite (has_false_index_of _ _ Hc). exact IH.
Qed.

Lemma keep_first_length (l : list (list Table.value)) :
  forall seen, (List.length (Table.keep_first seen l) <= List.length l)%nat.
Proof.
  induction l as [|r l IH]; intros seen; simpl; [lia|].
  destruct (existsb (Table.row_eqb r) seen); simpl.
  - specialize (IH seen). lia.
  - specialize (IH (r :: seen)). lia.
Qed.

Lemma keep_first_incl (l : list (list Table.value)) :
  forall seen r, In r (Table.keep_first seen l) -> In r l.
Proof.
  induction l as [|x l IH]; intros seen r; simpl; [auto|].
  destruct (existsb (Table.row_eqb x) seen); simpl.
  - intros H. right. exact (IH _ _ H).
  - intros [H|H]; [left; exact H|right; exact (IH _ _ H)].
Qed.

Lemma filled_present (dt : Table.dtype) (v : Table.value) :
  Table.isna (filled dt v) = false.
Proof. unfold filled. destruct v, dt; reflexivity. Qed.

(** X18: on a well-formed, non-empty table that has none of the date
    columns, [clean_data] keeps the column names and returns the rows left by
    [drop_duplicates], in order, each with its missing values replaced: by
    0 in a numeric column and by 'Unknown' in any other.  So it returns no
    more rows than it was given and leaves no missing value. *)
Theorem clean_data_leaves_no_missing_value
  (to_datetime : list Table.value -> Table.outcome (list Table.value))
  (df : Table.t) (date_columns : list pystr) :
  well_formed df ->
  Table.empty df = false ->
  Forall (fun c => Table.has c df = false) date_columns ->
  let run := Preprocessing.clean_data to_datetime (Some df) date_columns in
  Table.names (fst run) = Table.names df
  /\ Forall2 (filled_row (Table.columns df))
       (Table.rows (Table.drop_duplicates df)) (Table.rows (fst run))
  /\ (List.length (Table.rows (fst run)) <= List.length (Table.rows df))%nat
  /\ Forall all_present (Table.rows (fst run))
  /\ snd run = [].
Proof.
  intros W E Hd. cbv zeta. unfold Preprocessing.clean_data. rewrite E.
  unfold Preprocessing.fill_missing.
  assert (Wd : well_formed (Table.drop_duplicates df)).
  { unfold well_formed in *. cbn [Table.drop_duplicates Table.columns Table.rows].
    apply Forall_forall. intros r Hr. apply keep_first_incl in Hr.
    exact (proj1 (Forall_forall _ _) W r Hr). }
  destruct (fill_columns_spec
              (List.length (Table.columns (Table.drop_duplicates df)))
              (Table.drop_duplicates df) 0 Wd ltac:(lia))
    as (N & W' & _ & F).
  set (out := fold_left Preprocessing.fill_column _ _) in *.
  rewrite convert_dates_absent.
  2:{ eapply Forall_impl; [|exact Hd]. intros c H.
      unfold Table.has in *. rewrite N. exact H. }
  cbn [fst snd].
  assert (FR : Forall2 (filled_row (Table.columns df))
                 (Table.rows (Table.drop_duplicates df)) (Table.rows out)).
  { eapply Forall2_impl; [|exact F]. intros r r' H j name dt Hj.
    apply (proj1 (H j) name dt); [lia|exact Hj|].
    simpl. apply nth_error_Some. cbn [Table.drop_duplicates Table.columns].
    rewrite Hj. discriminate. }
  split; [exact N|]. split; [exact FR|]. split.
  - rewrite <- (Forall2_length FR). apply keep_first_length.
  - split; [|reflexivity].
    assert (C : List.length (Table.columns out)
                = List.length (Table.columns df)).
    { unfold Table.names in N. rewrite <- (length_map fst), N.
      apply length_map. }
    apply Forall_forall. intros r' Hr'.
    assert (Hlen : List.length r' = List.length (Table.columns out))
      by exact (proj1 (Forall_forall _ _) W' r' Hr').
    assert (P : forall j, (j < List.length r')%nat ->
                          Table.isna (Table.cell r' j) = false).
    { clear - FR Hr' Hlen C.
      induction FR as [|r r1 rows rows1 H _ IH]; [destruct Hr'|].
      destruct Hr' as [<-|Hr']; [|exact (IH Hr')].
      intros j Hj.
      destruct (nth_error (Table.columns df) j) as [[name dt]|] eqn:Ej;
        [|apply nth_error_None in Ej; lia].
      rewrite (H j name dt Ej). apply filled_present. }
    clear - P. unfold all_present, Table.cell in *.
    induction r' as [|v r' IH]; constructor.
    + exact (P 0%nat ltac:(simpl; lia)).
    + apply IH. intros j Hj. exact (P (S j) ltac:(simpl; lia)).
Qed.

Lemma clean_data_leaves_no_missing_value_witness :
  well_formed extract
  /\ Table.rows (fst (Preprocessing.clean_data no_dates (Some extract) []))
     = [ [ Table.VStr (lit "T1"); Table.VNum 10; Table.VStr (lit "2024-01-01");
           Table.VStr (lit "Matched") ];
         [ Table.VStr (lit "T2"); Table.VNum 0; Table.VStr (lit "2024-01-02");
           Table.VStr (lit "Not Found-SysB") ];
         [ Table.VStr (lit "T3"); Table.VNum 7; Table.VStr (lit "Unknown");
           Table.VStr (lit "Not Found-SysB") ] ]
  /\ Forall all_present
       (Table.rows (fst (Preprocessing.clean_data no_dates (Some extract)
                           Preprocessing.date_columns))).
Proof.
  assert (W : well_formed extract) by (repeat constructor).
  split; [exact W|]. split; [reflexivity|].
  refine (proj1 (proj2 (proj2 (proj2 (clean_data_leaves_no_missing_value
                                        no_dates extract
                                        Preprocessing.date_columns
                                        W eq_refl _))))).
  repeat constructor.
Defined.

(** Duplicates are dropped before the missing values are filled, so the
    cleaned table can still hold the same row twice. *)
Example cleaning_can_leave_duplicates :
  Table.rows (fst (Preprocessing.clean_data no_dates (Some nearly_twins)
                     Preprocessing.date_columns))
  = [ [Table.VNum 1; Table.VStr (lit "Unknown")];
      [Table.VNum 1; Table.VStr (lit "Unknown")] ].
Proof. reflexivity. Qed.

(** *** Categorizing *)

Lemma where_str_contains (re_search : pystr -> pystr -> bool) (pattern : pystr)
  (i : nat) (rows : list (list Table.value)) :
  map fst
    (filter snd
       (combine rows
          (map Preprocessing.truth
             (Preprocessing.str_contains re_search pattern
                (map (fun r => Table.cell r i) rows)))))
  = filter (matching re_search pattern i) rows.
Proof.
  induction rows as [|r rows IH]; [reflexivity|].
  simpl. unfold matching at 1.
  destruct (Table.cell r i) as [s| | |]; simpl; try exact IH.
  destruct (re_search pattern s); simpl; [f_equal|]; exact IH.
Qed.

(** X19: when [categorize_data] returns a table, the input was a
    non-empty table with the status column, the columns are unchanged and
    the rows are exactly the input rows whose status is a string that the
    pattern finds, in their order; nothing is logged. *)
Theorem categorize_data_keeps_the_matching_rows
  (re_search : pystr -> pystr -> bool)
  (df : option Table.t) (column pattern : pystr)
  (out : Table.t) (log : list Preprocessing.effect) :
  Preprocessing.categorize_data re_search df column pattern
  = (Table.Done (Some out), log) ->
  exists d i,
    df = Some d
    /\ Table.empty d = false
    /\ Table.index_of column (Table.names d) = Some i
    /\ Table.columns out = Table.columns d
    /\ Table.rows out = filter (matching re_search pattern i) (Table.rows d)
    /\ log = [].
Proof.
  unfold Preprocessing.categorize_data.
  destruct df as [d|]; [|discriminate].
  destruct (Table.empty d) eqn:E; [discriminate|].
  destruct (Table.index_of column (Table.names d)) as [i|] eqn:I;
    [|discriminate].
  destruct (nth_error (Table.columns d) i) as [[name [| |]]|];
    try discriminate.
  destruct (forallb _ _); [|discriminate].
  intros H; injection H as <- <-. exists d, i.
  repeat split; auto. apply where_str_contains.
Qed.

Lemma categorize_data_keeps_the_matching_rows_witness :
  exists log,
    Preprocessing.categorize_data same_text (Some extract)
      (lit "recon_sub_status") (lit "Not Found-SysB")
    = (Table.Done
         (Some {| Table.columns := Table.columns extract;
                  Table.rows := filter (matching same_text (lit "Not Found-SysB") 3)
                                  (Table.rows extract) |}), log)
    /\ log = [].
Proof.
  exists []. split; [reflexivity|].
  destruct (categorize_data_keeps_the_matching_rows same_text (Some extract)
              (lit "recon_sub_status") (lit "Not Found-SysB") _ _ eq_refl)
    as (d & i & _ & _ & _ & _ & _ & L).
  exact L.
Defined.

Lemma keep_first_not_nil (l : list (list Table.value)) :
  l <> [] -> Table.keep_first [] l <> [].
Proof. destruct l; [contradiction|discriminate]. Qed.

(** X20: cleaning makes the categorizer safe.  For a well-formed,
    non-empty table whose status column is an object column holding
    strings and missing values only, and that has none of the date
    columns, [categorize_data] applied to the result of [clean_data]
    does not raise and does not return [None]: it returns the cleaned rows
    whose status the pattern finds. *)
Theorem cleaning_makes_categorizing_safe
  (to_datetime : list Table.value -> Table.outcome (list Table.value))
  (re_search : pystr -> pystr -> bool)
  (df : Table.t) (date_columns : list pystr)
  (column pattern name : pystr) (i : nat) :
  well_formed df ->
  Table.empty df = false ->
  Forall (fun c => Table.has c df = false) date_columns ->
  Table.index_of column (Table.names df) = Some i ->
  nth_error (Table.columns df) i = Some (name, Table.Object) ->
  Forall (fun r => text_or_missing (Table.cell r i)) (Table.rows df) ->
  let cleaned := fst (Preprocessing.clean_data to_datetime (Some df)
                        date_columns) in
  exists out,
    Preprocessing.categorize_data re_search (Some cleaned) column pattern
    = (Table.Done (Some out), [])
    /\ Table.rows out
       = filter (matching re_search pattern i) (Table.rows cleaned).
Proof.
  intros W E Hd Hi Hc Ht. cbv zeta.
  unfold Preprocessing.clean_data. rewrite E.
  assert (Wd : well_formed (Table.drop_duplicates df)).
  { unfold well_formed in *. cbn [Table.drop_duplicates Table.columns Table.rows].
    apply Forall_forall. intros r Hr. apply keep_first_incl in Hr.
    exact (proj1 (Forall_forall _ _) W r Hr). }
  unfold Preprocessing.fill_missing.
  destruct (fill_columns_spec
              (List.length (Table.columns (Table.drop_duplicates df)))
              (Table.drop_duplicates df) 0 Wd ltac:(lia))
    as (N & W' & P & F).
  set (out := fold_left Preprocessing.fill_column _ _) in *.
  rewrite convert_dates_absent.
  2:{ eapply Forall_impl; [|exact Hd]. intros c H.
      unfold Table.has in *. rewrite N. exact H. }
  cbn [fst]. unfold Preprocessing.categorize_data.
  assert (Eo : Table.empty out = false).
  { unfold Table.empty.
    assert (C : Table.columns out <> []).
    { intros C. assert (X := P i name Table.Object ltac:(discriminate) Hc).
      rewrite C in X. destruct i; discriminate X. }
    assert (R : Table.rows out <> []).
    { intros R. apply Forall2_length in F. rewrite R in F.
      cbn [Table.drop_duplicates Table.rows] in F.
      unfold Table.empty in E.
      destruct (Table.columns df); [discriminate E|].
      destruct (Table.rows df) as [|r rows]; [discriminate E|].
      simpl in F. discriminate F. }
    destruct (Table.columns out); [contradiction|].
    destruct (Table.rows out); [contradiction|reflexivity]. }
  rewrite Eo, N.
  change (Table.names (Table.drop_duplicates df)) with (Table.names df).
  change (Table.columns (Table.drop_duplicates df)) with (Table.columns df) in P, F.
  rewrite Hi.
  rewrite (P i name Table.Object ltac:(discriminate) Hc).
  assert (K : forallb Preprocessing.known
                (Preprocessing.str_contains re_search pattern
                   (Table.column i out)) = true).
  { unfold Table.column, Preprocessing.str_contains. rewrite map_map.
    apply forallb_forall. intros m Hm. apply in_map_iff in Hm as (r' & <- & Hr').
    assert (T : exists s, Table.cell r' i = Table.VStr s).
    { clear - F Hr' Ht Hc.
      cbn [Table.drop_duplicates Table.rows Table.columns] in F.
      assert (Ht' : Forall (fun r => text_or_missing (Table.cell r i))
                      (Table.keep_first [] (Table.rows df))).
      { apply Forall_forall. intros r Hr. apply keep_first_incl in Hr.
        exact (proj1 (Forall_forall _ _) Ht r Hr). }
      induction F as [|r r1 rows rows1 H _ IH]; [destruct Hr'|].
      inversion Ht' as [|? ? T1 T2]; subst.
      destruct Hr' as [<-|Hr']; [|exact (IH Hr' T2)].
      rewrite (proj1 (H i) name Table.Object (Nat.le_0_l _) Hc).
      - destruct T1 as [->|[s ->]]; eexists; reflexivity.
      - simpl. apply nth_error_Some. rewrite Hc. discriminate. }
    destruct T as [s ->]. reflexivity. }
  rewrite K. eexists. split; [reflexivity|].
  cbn [Table.where_ Table.rows]. apply where_str_contains.
Qed.

Lemma cleaning_makes_categorizing_safe_witness :
  well_formed extract
  /\ exists out,
       Preprocessing.categorize_data same_text
         (Some (fst (Preprocessing.clean_data no_dates (Some extract)
                       Preprocessing.date_columns)))
         (lit "recon_sub_status") (lit "Not Found-SysB")
       = (Table.Done (Some out), [])
       /\ List.length (Table.rows out) = 2%nat.
Proof.
  assert (W : well_formed extract) by (repeat constructor).
  split; [exact W|].
  destruct (cleaning_makes_categorizing_safe no_dates same_text extract
              Preprocessing.date_columns (lit "recon_sub_status")
              (lit "Not Found-SysB") (lit "recon_sub_status") 3 W eq_refl)
    as (out & E & R).
  - repeat constructor.
  - reflexivity.
  - reflexivity.
  - repeat (apply Forall_cons;
              [first [left; reflexivity | right; eexists; reflexivity]|]).
    apply Forall_nil.
  - exists out. split; [exact E|]. rewrite R. reflexivity.
Defined.

(** X21: without the cleaning step a single missing status is enough to
    make [categorize_data] raise: in a non-empty table whose status column
    is an object column, a row with a missing status makes the mask hold
    a missing entry, and the selection by that mask raises.  Nothing is
    logged and no table is returned. *)
Theorem missing_status_makes_categorizing_raise
  (re_search : pystr -> pystr -> bool)
  (df : Table.t) (column pattern name : pystr) (i : nat)
  (r : list Table.value) :
  Table.empty df = false ->
  Table.index_of column (Table.names df) = Some i ->
  nth_error (Table.columns df) i = Some (name, Table.Object) ->
  In r (Table.rows df) ->
  Table.cell r i = Table.VNa ->
  exists e,
    Preprocessing.categorize_data re_search (Some df) column pattern
    = (Table.Raised e, []).
Proof.
  intros E I C Hr Hn. unfold Preprocessing.categorize_data.
  rewrite E, I, C.
  assert (K : forallb Preprocessing.known
                (Preprocessing.str_contains re_search pattern
                   (Table.column i df)) = false).
  { destruct (forallb _ _) eqn:F; [|reflexivity].
    assert (X := proj1 (forallb_forall _ _) F None).
    simpl in X. symmetry. apply X.
    unfold Preprocessing.str_contains, Table.column. rewrite map_map.
    apply in_map_iff. exists r. rewrite Hn. split; [reflexivity|exact Hr]. }
  rewrite K. eexists. reflexivity.
Qed.

Lemma missing_status_makes_categorizing_raise_witness :
  exists e,
    Preprocessing.categorize_data same_text (Some nearly_twins)
      (lit "note") (lit "Not Found-SysB")
    = (Table.Raised e, []).
Proof.
  apply (missing_status_makes_categorizing_raise same_text nearly_twins
           (lit "note") (lit "Not Found-SysB") (lit "note") 1
           [Table.VNum 1; Table.VNa]).
  - reflexivity.
  - reflexivity.
  - reflexivity.
  - simpl. auto.
  - reflexivity.
Defined.

(** ** Ingestion *)

Lemma to_lower_fixed (c x : N) : In x (to_lower c) -> to_lower x = [x].
Proof.
  unfold to_lower.
  destruct (N.eqb_spec c 304) as [->|Hc].
  - intros [<-|[<-|[]]]; reflexivity.
  - intros [<-|[]]. unfold unicode_tolower.
    destruct (in_range 65 90 c) eqn:E1.
    { apply in_range_true in E1.
      destruct (N.eqb_spec (c + 32) 304); [lia|].
      assert (in_range 65 90 (c + 32) = false) as ->
        by (unfold in_range; apply andb_false_iff;
            first [left; apply N.leb_gt; lia | right; apply N.leb_gt; lia]).
      assert (in_range 192 222 (c + 32) = false) as ->
        by (unfold in_range; apply andb_false_iff;
            first [left; apply N.leb_gt; lia | right; apply N.leb_gt; lia]).
      simpl.
      destruct (N.eqb_spec (c + 32) 304); [lia|].
      destruct (N.eqb_spec (c + 32) 8490); [lia|].
      destruct (N.eqb_spec (c + 32) 8491); [lia|reflexivity]. }
    destruct (in_range 192 222 c && negb (c =? 215)%N) eqn:E2.
    { apply andb_true_iff in E2 as [E2 _]. apply in_range_true in E2.
      destruct (N.eqb_spec (c + 32) 304); [lia|].
      assert (in_range 65 90 (c + 32) = false) as ->
        by (unfold in_range; apply andb_false_iff;
            first [left; apply N.leb_gt; lia | right; apply N.leb_gt; lia]).
      assert (in_range 192 222 (c + 32) = false) as ->
        by (unfold in_range; apply andb_false_iff;
            first [left; apply N.leb_gt; lia | right; apply N.leb_gt; lia]).
      simpl.
      destruct (N.eqb_spec (c + 32) 304); [lia|].
      destruct (N.eqb_spec (c + 32) 8490); [lia|].
      destruct (N.eqb_spec (c + 32) 8491); [lia|reflexivity]. }
    destruct (N.eqb_spec c 304); [contradiction|].
    destruct (N.eqb_spec c 8490) as [->|H1]; [reflexivity|].
    destruct (N.eqb_spec c 8491) as [->|H2]; [reflexivity|].
    destruct (N.eqb_spec c 304); [contradiction|].
    rewrite E1, E2.
    destruct (N.eqb_spec c 304); [contradiction|].
    destruct (N.eqb_spec c 8490); [contradiction|].
    destruct (N.eqb_spec c 8491); [contradiction|reflexivity].
Qed.

(** Lower-casing twice is lower-casing once. *)
Lemma lower_idempotent (s : pystr) :
  Ingestion.lower (Ingestion.lower s) = Ingestion.lower s.
Proof.
  unfold Ingestion.lower. induction s as [|c s IH]; [reflexivity|].
  simpl. rewrite flat_map_app, IH. f_equal.
  assert (H := to_lower_fixed c).
  induction (to_lower c) as [|x l IHl]; [reflexivity|].
  simpl. rewrite (H x (or_introl eq_refl)). simpl. f_equal.
  apply IHl. intros y Hy. apply H. right. exact Hy.
Qed.

(** A string that lower-cases to a word of Basic Latin letters other than
    i and k is that word in some casing. *)
Lemma lower_is_word (w s : pystr) :
  Forall (fun x => (97 <= x <= 122)%N /\ x <> 105%N /\ x <> 107%N) w ->
  Ingestion.lower s = w -> map ascii_lower s = w.
Proof.
  unfold Ingestion.lower. revert w.
  induction s as [|c s IH]; intros w Hw; [intros <-; reflexivity|].
  simpl. unfold to_lower at 1.
  destruct (N.eqb_spec c 304) as [->|Hc].
  - simpl. intros <-. inversion Hw as [|? ? [_ [H _]] _]. contradiction.
  - simpl. intros <-. inversion Hw as [|? ? (Hr & Hi & Hk) Hw']; subst.
    rewrite (IH _ Hw' eq_refl). f_equal.
    destruct (unicode_tolower_letter c _ Hr Hi Hk eq_refl) as [E|E];
      rewrite E at 1; unfold ascii_lower.
    + assert (in_range 65 90 (unicode_tolower c) = false) as ->
        by (unfold in_range; apply andb_false_iff;
            first [left; apply N.leb_gt; lia | right; apply N.leb_gt; lia]).
      reflexivity.
    + assert (in_range 65 90 (unicode_tolower c - 32) = true) as ->
        by (unfold in_range; apply andb_true_iff; split; apply N.leb_le; lia).
      lia.
Qed.

Lemma file_type_accepted (name : pystr) :
  pystr_eqb (Ingestion.lower (Ingestion.lower (Ingestion.extension name)))
    (lit "csv") = true
  \/ pystr_eqb (Ingestion.lower (Ingestion.lower (Ingestion.extension name)))
       (lit "excel") = true ->
  accepted_extension name.
Proof.
  rewrite lower_idempotent. unfold accepted_extension, same_word_any_casing.
  intros [H|H]; apply pystr_eqb_eq in H; [left|right];
    apply lower_is_word in H; try (rewrite H; reflexivity);
    repeat constructor; simpl; lia.
Qed.

Lemma upload_ingest_data_some (bytes : Type)
  (read_csv read_excel : bytes -> Table.t + pystr)
  (content : bytes) (file_type : pystr) (df : Table.t)
  (log : list Ingestion.effect) :
  Ingestion.upload_ingest_data bytes read_csv read_excel content file_type
  = (Some df, log) ->
  log = []
  /\ ((pystr_eqb (Ingestion.lower file_type) (lit "csv") = true
       /\ read_csv content = inl df)
      \/ (pystr_eqb (Ingestion.lower file_type) (lit "excel") = true
          /\ read_excel content = inl df)).
Proof.
  unfold Ingestion.upload_ingest_data, Ingestion.parsed.
  destruct (pystr_eqb (Ingestion.lower file_type) (lit "csv")).
  - destruct (read_csv content) as [d|e]; [|discriminate].
    intros H; injection H as <- <-. auto.
  - destruct (pystr_eqb (Ingestion.lower file_type) (lit "excel")).
    + destruct (read_excel content) as [d|e]; [|discriminate].
      intros H; injection H as <- <-. auto.
    + discriminate.
Qed.

(** X22: [ingest_comments] returns a table only for an uploaded file
    whose name ends, after its last dot, in csv or excel in some casing;
    the table is the one the matching reader gave for the content of the
    file, it is not empty, it has the columns [Transaction ID] and
    [Comments], and the status is the success text. *)
Theorem comments_come_from_a_csv_or_excel_name
  (bytes : Type) (open_read : pystr -> bytes + pystr)
  (read_csv read_excel : bytes -> Table.t + pystr)
  (comments_file : option pystr) (df : Table.t) (status : pystr) :
  fst (Ingestion.ingest_comments bytes open_read read_csv read_excel
         comments_file) = (Some df, status) ->
  exists name content,
    comments_file = Some name
    /\ open_read name = inl content
    /\ ((same_word_any_casing (Ingestion.extension name) (lit "csv")
         /\ read_csv content = inl df)
        \/ (same_word_any_casing (Ingestion.extension name) (lit "excel")
            /\ read_excel content = inl df))
    /\ Table.empty df = false
    /\ Table.has (lit "Transaction ID") df = true
    /\ Table.has (lit "Comments") df = true
    /\ status = lit "Comments Data Ingested Successfully".
Proof.
  unfold Ingestion.ingest_comments, Ingestion.refuse.
  destruct comments_file as [name|]; [|discriminate].
  destruct (open_read name) as [content|e] eqn:O; [|discriminate].
  destruct (Ingestion.upload_ingest_data bytes read_csv read_excel content
              (Ingestion.lower (Ingestion.extension name)))
    as [[d|] log] eqn:U; [|discriminate].
  destruct (Table.empty d) eqn:E; [discriminate|].
  destruct (Table.has (lit "Transaction ID") d) eqn:H1; [|discriminate].
  destruct (Table.has (lit "Comments") d) eqn:H2; [|discriminate].
  cbn [negb orb fst]. intros H; injection H as <- <-.
  exists name, content.
  destruct (upload_ingest_data_some _ _ _ _ _ _ _ U) as [_ R].
  repeat split; auto.
  destruct R as [[T R]|[T R]]; [left|right]; split; try exact R.
  - apply pystr_eqb_eq in T. rewrite lower_idempotent in T.
    apply lower_is_word in T; [|repeat constructor; simpl; lia].
    unfold same_word_any_casing. rewrite T. reflexivity.
  - apply pystr_eqb_eq in T. rewrite lower_idempotent in T.
    apply lower_is_word in T; [|repeat constructor; simpl; lia].
    unfold same_word_any_casing. rewrite T. reflexivity.
Qed.

Lemma comments_come_from_a_csv_or_excel_name_witness :
  fst (Ingestion.ingest_comments pystr open_any read_comments read_comments
         (Some (lit "march.comments.CSV")))
  = (Some comments_table, lit "Comments Data Ingested Successfully")
  /\ same_word_any_casing (Ingestion.extension (lit "march.comments.CSV"))
       (lit "csv").
Proof.
  split; [reflexivity|].
  destruct (comments_come_from_a_csv_or_excel_name pystr open_any
              read_comments read_comments (Some (lit "march.comments.CSV"))
              comments_table (lit "Comments Data Ingested Successfully")
              eq_refl)
    as (name & content & N & _ & [[A _]|[A _]] & _).
  - injection N as <-. exact A.
  - injection N as <-. vm_compute in A. discriminate A.
Defined.

(** X23: an uploaded file whose name does not end in csv or excel is
    refused by both entry points: whatever the readers would return for
    its content, [ingest_data] and [ingest_comments]
    return no table, and the status says that the ingestion failed or the
    data is empty, not that the type is unsupported.  A workbook saved as
    [.xlsx] or [.xls] is such a file. *)
Theorem other_extensions_are_refused
  (bytes : Type) (open_read : pystr -> bytes + pystr)
  (read_csv read_excel : bytes -> Table.t + pystr)
  (fetch_data : option Table.t)
  (name : pystr) (content : bytes) :
  ~ accepted_extension name ->
  open_read name = inl content ->
  Ingestion.ingest_data bytes open_read read_csv read_excel fetch_data
    (Some name) (lit "file_upload")
  = ((None, lit "Failed to ingest data or data is empty."),
     [Ingestion.IngestorError Ingestion.unsupported;
      Ingestion.IngestionError (lit "Failed to ingest data or data is empty.")])
  /\ Ingestion.ingest_comments bytes open_read read_csv read_excel (Some name)
     = ((None, lit "Failed to ingest data or the file is empty"),
        [Ingestion.IngestorError Ingestion.unsupported;
         Ingestion.IngestionError
           (lit "Failed to ingest data or the file is empty")]).
Proof.
  intros A O.
  assert (U : Ingestion.upload_ingest_data bytes read_csv read_excel content
                (Ingestion.lower (Ingestion.extension name))
              = (None, [Ingestion.IngestorError Ingestion.unsupported])).
  { unfold Ingestion.upload_ingest_data.
    destruct (pystr_eqb _ (lit "csv")) eqn:E1.
    { destruct A. apply file_type_accepted. left. exact E1. }
    destruct (pystr_eqb _ (lit "excel")) eqn:E2.
    { destruct A. apply file_type_accepted. right. exact E2. }
    reflexivity. }
  unfold Ingestion.ingest_data, Ingestion.ingest_comments.
  rewrite O, U. split; reflexivity.
Qed.

Lemma other_extensions_are_refused_witness :
  ~ accepted_extension (lit "comments.xlsx")
  /\ fst (Ingestion.ingest_comments pystr open_any read_comments read_comments
            (Some (lit "comments.xlsx")))
     = (None, lit "Failed to ingest data or the file is empty").
Proof.
  assert (A : ~ accepted_extension (lit "comments.xlsx")).
  { intros [H|H]; vm_compute in H; discriminate H. }
  split; [exact A|].
  rewrite (proj2 (other_extensions_are_refused pystr open_any read_comments
                    read_comments None (lit "comments.xlsx")
                    (lit "comments.xlsx") A eq_refl)).
  reflexivity.
Defined.

(** X24: [ingest_data] returns a table only with the success text, the
    table is never empty, and it comes either from an uploaded file with
    an accepted extension, read by the matching reader, or from the SFTP
    fetch; for any other method nothing is returned. *)
Theorem ingested_data_has_a_source
  (bytes : Type) (open_read : pystr -> bytes + pystr)
  (read_csv read_excel : bytes -> Table.t + pystr)
  (fetch_data : option Table.t)
  (file_obj : option pystr) (method : pystr)
  (df : Table.t) (status : pystr) :
  fst (Ingestion.ingest_data bytes open_read read_csv read_excel fetch_data
         file_obj method) = (Some df, status) ->
  status = lit "Data ingested successfully."
  /\ Table.empty df = false
  /\ ((method = lit "file_upload"
       /\ exists name content,
            file_obj = Some name
            /\ accepted_extension name
            /\ open_read name = inl content
            /\ (read_csv content = inl df \/ read_excel content = inl df))
      \/ (method = lit "sftp" /\ fetch_data = Some df)).
Proof.
  unfold Ingestion.ingest_data, Ingestion.refuse.
  destruct (pystr_eqb method (lit "file_upload")) eqn:M1.
  - apply pystr_eqb_eq in M1.
    destruct file_obj as [name|]; [|discriminate].
    destruct (open_read name) as [content|e] eqn:O; [|discriminate].
    destruct (Ingestion.upload_ingest_data bytes read_csv read_excel content
                (Ingestion.lower (Ingestion.extension name)))
      as [[d|] log] eqn:U; [|discriminate].
    destruct (Table.empty d) eqn:E; [discriminate|].
    cbn [fst]. intros H; injection H as <- <-.
    split; [reflexivity|]. split; [exact E|]. left. split; [exact M1|].
    exists name, content.
    destruct (upload_ingest_data_some _ _ _ _ _ _ _ U) as [_ R].
    split; [reflexivity|]. split.
    + apply file_type_accepted. destruct R as [[T _]|[T _]]; auto.
    + split; [exact O|]. destruct R as [[_ R]|[_ R]]; auto.
  - destruct (pystr_eqb method (lit "sftp")) eqn:M2; [|discriminate].
    apply pystr_eqb_eq in M2.
    destruct fetch_data as [d|]; [|discriminate].
    destruct (Table.empty d) eqn:E; [discriminate|].
    cbn [fst]. intros H; injection H as <- <-.
    split; [reflexivity|]. split; [exact E|]. right. auto.
Qed.

Lemma ingested_data_has_a_source_witness :
  fst (Ingestion.ingest_data pystr open_any read_comments read_comments None
         None (lit "sftp")) = (None, lit "Failed to ingest data or data is empty.")
  /\ exists status,
       fst (Ingestion.ingest_data pystr open_any read_comments read_comments
              (Some extract) None (lit "sftp")) = (Some extract, status)
       /\ status = lit "Data ingested successfully.".
Proof.
  split; [reflexivity|].
  eexists. split; [reflexivity|].
  exact (proj1 (ingested_data_has_a_source pystr open_any read_comments
                  read_comments (Some extract) None (lit "sftp") extract
                  _ eq_refl)).
Defined.

(** ** Upload *)

(** X25: the answer of [upload_to_gcs] does not depend on the transfer.
    When the storage client is built and the file is written and removed
    without error, the function answers that the data was uploaded and
    removes the local file whatever [upload_file] met; when the transfer
    failed, nothing was stored. *)
Theorem upload_answer_ignores_the_transfer
  (local_temp_dir gcs_categorized_file_path : pystr)
  (to_csv_error remove_error : pystr -> option pystr)
  (transfer : CloudStorage.transfer) (df : Table.t) :
  let path := PosixPath.join local_temp_dir (lit "temp_categorized_data.csv") in
  let run := GcsUpload.upload_to_gcs local_temp_dir gcs_categorized_file_path
               None to_csv_error remove_error transfer (Some df) in
  Table.empty df = false ->
  to_csv_error path = None ->
  remove_error path = None ->
  fst run = GcsUpload.success
  /\ In (GcsUpload.Remove path) (snd run)
  /\ (transfer <> CloudStorage.Stored -> filter is_stored (snd run) = []).
Proof.
  cbv zeta. intros E W R. unfold GcsUpload.upload_to_gcs.
  rewrite E, W, R.
  destruct transfer; cbn [CloudStorage.upload_file fst snd map app].
  - split; [reflexivity|]. split; [simpl; auto 10|]. intros H. contradiction.
  - split; [reflexivity|]. split; [simpl; auto 10|]. reflexivity.
  - split; [reflexivity|]. split; [simpl; auto 10|]. reflexivity.
Qed.

Lemma upload_answer_ignores_the_transfer_witness :
  fst (GcsUpload.upload_to_gcs (lit "temp") (lit "processed/data.csv")
         None no_error no_error CloudStorage.FileNotFoundError
         (Some all_matched))
  = GcsUpload.success.
Proof.
  exact (proj1 (upload_answer_ignores_the_transfer (lit "temp")
                  (lit "processed/data.csv") no_error no_error
                  CloudStorage.FileNotFoundError all_matched
                  eq_refl eq_refl eq_refl)).
Defined.

Lemma preprocess_returns_no_rows
  (to_datetime : list Table.value -> Table.outcome (list Table.value))
  (re_search : pystr -> pystr -> bool) (writable : pystr -> bool)
  (config : Preprocessing.Config)
  (raw : option Table.t) (df : Table.t) (st : Preprocessing.status) :
  fst (Preprocessing.preprocess_data to_datetime re_search writable config raw)
  = (Some df, st) ->
  Table.empty df = true.
Proof.
  unfold Preprocessing.preprocess_data, Preprocessing.fail.
  destruct raw as [raw|]; [|discriminate].
  destruct (Table.empty raw); [discriminate|].
  destruct (Preprocessing.clean_data to_datetime (Some raw)
              Preprocessing.date_columns) as [cleaned l1].
  destruct (Preprocessing.categorize_data re_search (Some cleaned)
              (Preprocessing.system_b_column config)
              (Preprocessing.not_found_value config)) as [[[nf|]|e] l2];
    try discriminate.
  destruct (Table.select Preprocessing.required_columns nf) as [kept|e] eqn:S;
    [|discriminate].
  destruct (select_done _ _ _ S) as [Hn _].
  destruct (renamed_has_no_export_column kept Hn) as [_ Hsel].
  unfold Preprocessing.export_to_csv.
  destruct (Table.empty (Table.rename Preprocessing.renaming kept)) eqn:E.
  - cbn [fst]. intros H; injection H as <- <-. exact E.
  - change (match Preprocessing.csv_export_columns with
            | [] => Table.Done (Table.rename Preprocessing.renaming kept)
            | _ :: _ => Table.select Preprocessing.csv_export_columns
                          (Table.rename Preprocessing.renaming kept)
            end)
      with (Table.select Preprocessing.csv_export_columns
              (Table.rename Preprocessing.renaming kept)).
    rewrite Hsel. discriminate.
Qed.

(** X26: what [preprocess_data] returns is never uploaded.  Whatever the
    input table, the settings and the outcome of every library call,
    [upload_to_gcs] applied to the table returned by [preprocess_data]
    answers that there is no data to upload, and does nothing else: it
    builds no storage client, writes no file and sends nothing. *)
Theorem preprocessed_table_is_never_uploaded
  (to_datetime : list Table.value -> Table.outcome (list Table.value))
  (re_search : pystr -> pystr -> bool) (writable : pystr -> bool)
  (config : Preprocessing.Config)
  (gcs_categorized_file_path : pystr)
  (storage_error : option pystr)
  (to_csv_error remove_error : pystr -> option pystr)
  (transfer : CloudStorage.transfer)
  (raw : option Table.t) :
  let processed :=
    fst (fst (Preprocessing.preprocess_data to_datetime re_search writable
                config raw)) in
  GcsUpload.upload_to_gcs (Preprocessing.local_temp_dir config)
    gcs_categorized_file_path storage_error to_csv_error remove_error
    transfer processed
  = (GcsUpload.no_data, []).
Proof.
  cbv zeta.
  destruct (Preprocessing.preprocess_data to_datetime re_search writable
              config raw) as [[out st] log] eqn:P.
  cbn [fst]. destruct out as [df|]; [|reflexivity].
  unfold GcsUpload.upload_to_gcs.
  rewrite (preprocess_returns_no_rows to_datetime re_search writable config
             raw df st); [reflexivity|].
  rewrite P. reflexivity.
Qed.

(** ** Configuration *)

Lemma get_env_required (environ : pystr -> option pystr) (A : Type)
  (var_name : pystr) (type_cast : pystr -> Configuration.result A) (v : A) :
  Configuration._get_env environ var_name None type_cast = inl v ->
  exists value, environ var_name = Some value /\ type_cast value = inl v.
Proof.
  unfold Configuration._get_env.
  destruct (environ var_name) as [value|]; [|discriminate].
  destruct (type_cast value) as [a|e] eqn:T; [|discriminate].
  intros H; injection H as <-. exists value. auto.
Qed.

Ltac step_init H :=
  match type of H with
  | Configuration.bind ?r _ = inl _ =>
      let v := fresh "v" in
      let E := fresh "E" in
      destruct r as [v|] eqn:E; [cbn [Configuration.bind] in H|discriminate H]
  end.

Ltac required_variables :=
  repeat match goal with
         | E : Configuration._get_env _ _ None _ = inl _ |- _ =>
             let T := fresh "T" in
             apply get_env_required in E as (? & E & T);
             unfold Configuration.str in T; injection T as <-
         end.

(** X27: a configuration is built only if the environment sets the
    bucket name, the credentials path, the project id and the API key:
    the four variables read without a default, the credentials path among
    them.  The configuration holds their values as they are. *)
Theorem config_needs_the_four_variables
  (environ : pystr -> option pystr)
  (int : pystr -> Configuration.result Z) (c : Configuration.Config) :
  Configuration.init environ int = inl c ->
  environ (lit "GCS_BUCKET_NAME") = Some (Configuration.gcs_bucket_name c)
  /\ environ (lit "GCS_CREDENTIALS_PATH")
     = Some (Configuration.gcs_credentials_path c)
  /\ environ (lit "GCS_PROJECT_ID") = Some (Configuration.gcs_project_id c)
  /\ environ (lit "OPENAI_API_KEY") = Some (Configuration.openai_api_key c).
Proof.
  unfold Configuration.init. intros H.
  do 25 step_init H.
  injection H as <-.
  cbn [Configuration.gcs_bucket_name Configuration.gcs_credentials_path
       Configuration.gcs_project_id Configuration.openai_api_key].
  required_variables. auto.
Qed.

Lemma config_needs_the_four_variables_witness :
  exists c,
    Configuration.init bare_environ no_int = inl c
    /\ bare_environ (lit "GCS_CREDENTIALS_PATH")
       = Some (Configuration.gcs_credentials_path c)
    /\ Configuration.sftp_port c = 22%Z.
Proof.
  eexists. split; [reflexivity|]. split; [|reflexivity].
  exact (proj1 (proj2 (config_needs_the_four_variables bare_environ no_int _
                         eq_refl))).
Defined.

(** X28: a configuration that was built and validated either names a
    credentials file that exists, or relies on the default credentials
    with a project id, and then the credentials variable was set to the
    empty string: leaving it unset is not a way to ask for the default
    credentials. *)
Theorem validated_config_has_credentials
  (environ : pystr -> option pystr)
  (int : pystr -> Configuration.result Z)
  (isdir exists_ : pystr -> bool) (makedirs_error : pystr -> option pystr)
  (c : Configuration.Config) :
  Configuration.init environ int = inl c ->
  Configuration.validate isdir exists_ makedirs_error c = inl true ->
  (Configuration.gcs_credentials_path c <> []
   /\ exists_ (Configuration.gcs_credentials_path c) = true)
  \/ (environ (lit "GCS_CREDENTIALS_PATH") = Some []
      /\ Configuration.gcs_project_id c <> []).
Proof.
  intros I V.
  assert (P : environ (lit "GCS_CREDENTIALS_PATH")
              = Some (Configuration.gcs_credentials_path c)).
  { revert I. unfold Configuration.init. intros H.
    do 25 step_init H. injection H as <-.
    cbn [Configuration.gcs_credentials_path].
    required_variables. assumption. }
  revert V. unfold Configuration.validate.
  destruct (if isdir (Configuration.local_temp_dir c) then None
            else makedirs_error (Configuration.local_temp_dir c));
    [discriminate|].
  destruct (Configuration.gcs_credentials_path c) as [|x p] eqn:G.
  - cbn [Configuration.nonempty andb negb].
    destruct (Configuration.gcs_project_id c); [discriminate|].
    intros _. right. split; [exact P|discriminate].
  - cbn [Configuration.nonempty andb negb].
    destruct (exists_ (x :: p)) eqn:X; [|discriminate].
    intros _. left. split; [discriminate|reflexivity].
Qed.

Lemma validated_config_has_credentials_witness :
  exists c,
    Configuration.init bare_environ no_int = inl c
    /\ Configuration.validate everywhere everywhere no_error c = inl true
    /\ bare_environ (lit "GCS_CREDENTIALS_PATH") = Some []
    /\ Configuration.gcs_project_id c = lit "project".
Proof.
  eexists. split; [reflexivity|]. split; [reflexivity|].
  destruct (validated_config_has_credentials bare_environ no_int everywhere
              everywhere no_error _ eq_refl eq_refl) as [[H _]|[H _]].
  - exfalso. apply H. reflexivity.
  - split; [exact H|reflexivity].
Defined.

(** ** Logger *)

Lemma head_without_separator (p : pystr) :
  ~ In 47%N p -> Logger.head p = [].
Proof.
  induction p as [|c p IH]; [reflexivity|].
  intros H. simpl. rewrite IH by (intros X; apply H; right; exact X).
  destruct (N.eqb_spec c 47) as [->|_]; [|reflexivity].
  destruct H. left. reflexivity.
Qed.

(** X29: a log file path without a directory part cannot be set up.  Its
    directory name is the empty path, which does not exist and cannot be
    made: [setup_logger] raises what [os.makedirs] raises, before it
    reaches the root logger or opens the log file. *)
Theorem bare_log_file_name_is_refused
  (exists_ : pystr -> bool)
  (makedirs_error open_error : pystr -> option pystr)
  (log_file_path e : pystr) (log_level : Z) (logger : Logger.root) :
  ~ In 47%N log_file_path ->
  exists_ [] = false ->
  makedirs_error [] = Some e ->
  Logger.setup_logger exists_ makedirs_error open_error log_file_path
    log_level logger
  = (inr e, [Logger.MakeDirs []]).
Proof.
  intros H X M. unfold Logger.setup_logger, Logger.dirname.
  rewrite (head_without_separator _ H). cbn [forallb]. rewrite X, M.
  reflexivity.
Qed.

Lemma bare_log_file_name_is_refused_witness :
  Logger.setup_logger exists_nonempty makedirs_nonempty no_error
    (lit "app.log") Logger.INFO
    {| Logger.level := Logger.WARNING; Logger.handlers := [] |}
  = (inr (lit "[Errno 2] No such file or directory: ''"),
     [Logger.MakeDirs []]).
Proof.
  apply bare_log_file_name_is_refused.
  - vm_compute. intuition discriminate.
  - reflexivity.
  - reflexivity.
Defined.

Example dirname_like_python :
  Logger.dirname (lit "logs/app.log") = lit "logs"
  /\ Logger.dirname (lit "/app.log") = lit "/"
  /\ Logger.dirname (lit "logs//app.log") = lit "logs"
  /\ Logger.dirname (lit "//app.log") = lit "//"
  /\ Logger.dirname (lit "app.log") = [].
Proof. repeat split; reflexivity. Qed.
